(** * Digital-Product-Backend: order / payment lifecycle

    A shallow embedding of the storefront backend's payment core:

    - [src/server/services/phonepeService.js]  ([PhonePe]): the gateway client;
    - [src/server/middleware/security.js]      ([Security]): request validation;
    - [src/server/api/index.js]                ([ApiIndex]): the Express routes
      (the second, longer revision contained in that file: create-order, the
      polling callback, the direct-streaming download);
    - [src/unnamed/part_001]                   ([Unnamed001]): the later server
      revision (POST callback, signed download).

    The remaining middleware of [security.js] is in [Middleware], the order
    and signed-download routes of [index.js] are in [ApiOrders], and order
    creation and order details of [part_001] are in [Unnamed001Orders].

    JavaScript values are modelled by [jsval]; objects are finite maps from
    property names to values.  Numbers are exact rationals (plus NaN); the
    rounding of IEEE doubles is outside the model.  Everything the Node.js
    runtime provides (hashing, base64, JSON, [path]) is an interface
    ([Runtime]); everything the outside world answers (the clock, the payment
    provider, the product catalogue, the disk, the storage signer) is read from
    an [env] record, and every effect a handler performs is appended to the
    [trace] of the [world]. *)

From Stdlib Require Import QArith Qround Qabs Ascii Lqa.
From stdpp Require Import gmap strings list fin_maps pretty.

#[local] Set Warnings "-register-all".
#[local] Open Scope Z_scope.

(** ** JavaScript values *)

Module JS.

Inductive jsval : Type :=
| JUndef
| JNull
| JBool (b : bool)
| JNum (q : Q)
| JNaN
| JStr (s : string)
| JDate (t : Z)
| JArr (l : list jsval)
| JObj (m : gmap string jsval).

(** An object literal [{k1: v1, ..., kn: vn}]: later properties win. *)
Definition obj (kvs : list (string * jsval)) : jsval :=
  JObj (foldl (λ m kv, <[kv.1 := kv.2]> m) ∅ kvs).

(** ToBoolean. *)
Definition truthy (v : jsval) : bool :=
  match v with
  | JUndef | JNull | JNaN => false
  | JBool b => b
  | JNum q => negb (Qeq_bool q 0)
  | JStr s => negb (String.eqb s "")
  | JDate _ | JArr _ | JObj _ => true
  end.

(** [a || b] and [a && b] on values. *)
Definition js_or (a b : jsval) : jsval := if truthy a then a else b.
Definition js_and (a b : jsval) : jsval := if truthy a then b else a.

(** [typeof v]. *)
Definition typeof (v : jsval) : string :=
  match v with
  | JUndef => "undefined"
  | JBool _ => "boolean"
  | JNum _ | JNaN => "number"
  | JStr _ => "string"
  | JNull | JDate _ | JArr _ | JObj _ => "object"
  end.

Definition isArray (v : jsval) : bool :=
  match v with JArr _ => true | _ => false end.

(** [v === s] for a string [s]. *)
Definition is_str (v : jsval) (s : string) : bool :=
  match v with JStr s' => String.eqb s' s | _ => false end.

(** Property read [v.k] on a value that is neither [undefined] nor [null];
    only the own properties of objects and [length] are modelled. *)
Definition get (k : string) (v : jsval) : jsval :=
  match v with
  | JObj m => default JUndef (m !! k)
  | JStr s => if String.eqb k "length" then JNum (inject_Z (Z.of_nat (String.length s))) else JUndef
  | JArr l => if String.eqb k "length" then JNum (inject_Z (Z.of_nat (length l))) else JUndef
  | _ => JUndef
  end.

Definition nullish (v : jsval) : bool :=
  match v with JUndef | JNull => true | _ => false end.

(** Optional chaining [v?.k]. *)
Definition opt_get (k : string) (v : jsval) : jsval :=
  if nullish v then JUndef else get k v.

(** Object spread [{...a, ...b}]: the properties of [b] win.  Spreading
    [undefined], [null] or a primitive contributes nothing. *)
Definition props (v : jsval) : gmap string jsval :=
  match v with JObj m => m | _ => ∅ end.

Definition spread (a b : jsval) : jsval := JObj (props b ∪ props a).

(** ASCII case folding and trimming (the strings compared against are ASCII). *)
Definition lower_ascii (c : ascii) : ascii :=
  let n := nat_of_ascii c in
  if (Nat.leb 65 n && Nat.leb n 90)%bool then ascii_of_nat (n + 32) else c.

Fixpoint toLowerCase (s : string) : string :=
  match s with
  | EmptyString => EmptyString
  | String c s' => String (lower_ascii c) (toLowerCase s')
  end.

Definition is_space (c : ascii) : bool :=
  let n := nat_of_ascii c in
  (Nat.eqb n 32 || (Nat.leb 9 n && Nat.leb n 13))%bool.

Fixpoint trim_start (s : string) : string :=
  match s with
  | String c s' => if is_space c then trim_start s' else s
  | EmptyString => EmptyString
  end.

Fixpoint rev_string_onto (s acc : string) : string :=
  match s with
  | EmptyString => acc
  | String c s' => rev_string_onto s' (String c acc)
  end.

Definition rev_string (s : string) : string := rev_string_onto s EmptyString.

Definition trim (s : string) : string :=
  rev_string (trim_start (rev_string (trim_start s))).

Fixpoint startsWith (p s : string) : bool :=
  match p, s with
  | EmptyString, _ => true
  | String a p', String b s' => (Ascii.eqb a b && startsWith p' s')%bool
  | String _ _, EmptyString => false
  end.

(** [s.includes(needle)], also the unanchored regular-expression literal. *)
Fixpoint includes (needle s : string) : bool :=
  (startsWith needle s ||
   match s with
   | EmptyString => false
   | String _ s' => includes needle s'
   end)%bool.

(** [s.slice(-n)]. *)
Fixpoint drop_string (n : nat) (s : string) : string :=
  match n, s with
  | O, _ => s
  | S n', String _ s' => drop_string n' s'
  | S _, EmptyString => EmptyString
  end.

Definition slice_last (n : nat) (s : string) : string :=
  drop_string (String.length s - n) s.

End JS.
Export JS.

(** ** The Node.js runtime

    Library functions the repository calls but does not define. *)

Class Runtime := {
  (** [crypto.createHash("sha256").update(s).digest("hex")] *)
  sha256_hex : string → string;
  (** [Buffer.from(v, "base64").toString("utf8")]; [None] is the [TypeError]
      Node raises for an argument it cannot make a buffer from. *)
  base64_utf8 : jsval → option string;
  (** [JSON.parse]; [None] is its [SyntaxError]. *)
  JSON_parse : string → option jsval;
  (** Number to string and string to number ([None] is NaN). *)
  Number_toString : Q → string;
  Number_ofString : string → option Q;
  (** [String(date)] *)
  Date_toString : Z → string;
  (** [path.sep], [path.basename], [path.extname], [path.join],
      [path.resolve] with one and with two segments, [path.parse(p).name]. *)
  path_sep : string;
  path_basename : string → string;
  path_extname : string → string;
  path_join : string → string → string;
  path_resolve1 : string → string;
  path_resolve2 : string → string → string;
  path_parse_name : string → string;
  encodeURIComponent : string → string;
}.

Module Conv.
Section Conv.
Context `{Runtime}.

(** [String(v)], which is also what a template literal applies. *)
Fixpoint js_String (v : jsval) : string :=
  match v with
  | JUndef => "undefined"
  | JNull => "null"
  | JBool true => "true"
  | JBool false => "false"
  | JNum q => Number_toString q
  | JNaN => "NaN"
  | JStr s => s
  | JDate t => Date_toString t
  | JArr l =>
      String.concat ","
        (List.map (λ e, match e with JUndef | JNull => "" | _ => js_String e end) l)
  | JObj _ => "[object Object]"
  end.

(** ToNumber; [None] is NaN. *)
Definition to_number (v : jsval) : option Q :=
  match v with
  | JUndef | JNaN => None
  | JNull => Some 0%Q
  | JBool b => Some (if b then 1%Q else 0%Q)
  | JNum q => Some q
  | JStr s => Number_ofString s
  | JDate t => Some (inject_Z t)
  | JArr _ | JObj _ => Number_ofString (js_String v)
  end.

Definition of_number (n : option Q) : jsval :=
  match n with Some q => JNum q | None => JNaN end.

(** Arithmetic and comparison on numbers-or-NaN. *)
Definition num_mul (a b : option Q) : option Q :=
  match a, b with Some x, Some y => Some (x * y)%Q | _, _ => None end.
Definition num_add (a b : option Q) : option Q :=
  match a, b with Some x, Some y => Some (x + y)%Q | _, _ => None end.
Definition num_sub (a b : option Q) : option Q :=
  match a, b with Some x, Some y => Some (x - y)%Q | _, _ => None end.
Definition num_abs (a : option Q) : option Q :=
  match a with Some x => Some (Qabs x) | None => None end.
Definition num_lt (a b : option Q) : bool :=
  match a, b with Some x, Some y => negb (Qle_bool y x) | _, _ => false end.
Definition num_le (a b : option Q) : bool :=
  match a, b with Some x, Some y => Qle_bool x y | _, _ => false end.
Definition num_gt (a b : option Q) : bool := num_lt b a.

(** [Math.round]: to the nearest integer, halves upwards. *)
Definition Math_round (a : option Q) : option Q :=
  match a with
  | Some x => Some (inject_Z (Qfloor (x + (1 # 2))%Q))
  | None => None
  end.

(** The relational operators the sources apply to values where one operand is
    a number literal, so that the comparison is numeric. *)
Definition js_le (a b : jsval) : bool := num_le (to_number a) (to_number b).
Definition js_lt (a b : jsval) : bool := num_lt (to_number a) (to_number b).
Definition js_gt (a b : jsval) : bool := num_gt (to_number a) (to_number b).
Definition js_mul (a b : jsval) : option Q := num_mul (to_number a) (to_number b).

End Conv.
End Conv.
Export Conv.

(** ** Exceptions and the handler monad *)

(** A thrown [Error]: its [message], and for an HTTP-client error the
    [response] ([status] and [data]) of the reply that caused it. *)
Record js_error := JsError {
  err_message : jsval;
  err_response : option (Z * jsval);
}.

(** [new Error(msg)]: the message is [String(msg)]. *)
Definition Error `{Runtime} (msg : jsval) : js_error := JsError (JStr (js_String msg)) None.
Definition TypeError (msg : string) : js_error := JsError (JStr msg) None.
Definition SyntaxError (msg : string) : js_error := JsError (JStr msg) None.

(** [err.response?.data] and [err.response?.status] *)
Definition response_data (e : js_error) : jsval :=
  match err_response e with Some (_, d) => d | None => JUndef end.
Definition response_status (e : js_error) : jsval :=
  match err_response e with Some (st, _) => JNum (inject_Z st) | None => JUndef end.

Inductive outcome (A : Type) : Type :=
| Ret (a : A)
| Throw (e : js_error).
Arguments Ret {A} a.
Arguments Throw {A} e.

#[global] Instance outcome_mret : MRet outcome := @Ret.
#[global] Instance outcome_mbind : MBind outcome :=
  λ A B f m, match m with Ret a => f a | Throw e => Throw e end.

(** Property read [v.k], raising the [TypeError] of reading from
    [undefined] or [null]. *)
Definition get_strict (k : string) (v : jsval) : outcome jsval :=
  if nullish v then Throw (TypeError ("Cannot read properties of undefined (reading '" +:+ k +:+ "')"))
  else Ret (get k v).

(** ** The outside world *)

(** A row of the [orders] table.  [o_id] is the key the store assigns; the
    other columns hold whatever the handlers wrote. *)
Record order := Order {
  o_id : Z;
  customer_name : jsval;
  customer_email : jsval;
  customer_phone : jsval;
  items : jsval;
  subtotal : jsval;
  total_amount : jsval;
  payment : jsval;
  product_id : jsval;
  merchant_order_id : jsval;
  created_at : jsval;
  updated_at : jsval;
}.

(** What an HTTP endpoint answers: a status and a body, or nothing at all
    (connection failure, timeout). *)
Inductive http_reply :=
| Reply (status : Z) (data : jsval)
| NoReply (message : string).

(** [process.env] and the collaborators a request can reach.  Environment
    variables are [JUndef] or a [JStr]; a row of [products] is an object. *)
Record env := Env {
  FRONTEND_URL : jsval;
  BACKEND_URL : jsval;
  NODE_ENV : jsval;
  PRODUCTS_FOLDER : jsval;
  PHONEPE_MERCHANT_ID : jsval;
  PHONEPE_SALT_KEY : jsval;
  PHONEPE_SALT_INDEX : jsval;
  cwd : string;
  oauth_api : http_reply;
  pay_api : jsval → http_reply;
  status_api : string → http_reply;
  products : list jsval;
  fs_exists : string → bool;
  storage_sign : jsval → jsval → Z → option jsval;
}.

(** Every effect that leaves the process, in the order it happens. *)
Inductive event :=
| EvOauthToken
| EvPay (payload : jsval) (token : string)
| EvStatusCheck (merchantOrderId : string) (token : string)
| EvOrderInsert (o : order)
| EvOrderFind (transactionId : jsval)
| EvOrderFindByMerchantOrderId (orderId : string)
| EvOrderUpdate (id : Z) (payment : jsval)
| EvProductFind (productId : string)
| EvFsExists (path : string)
| EvFsRead (path : string)
| EvSignUrl (bucket fileName : jsval) (expiresIn : Z).

Definition is_order_update (e : event) : bool :=
  match e with EvOrderUpdate _ _ => true | _ => false end.

Definition is_status_check (e : event) : bool :=
  match e with EvStatusCheck _ _ => true | _ => false end.

Definition is_file_access (e : event) : bool :=
  match e with EvFsExists _ | EvFsRead _ => true | _ => false end.

Definition is_pay (e : event) : bool :=
  match e with EvPay _ _ => true | _ => false end.

(** The mutable state: the [orders] table, the key the store assigns next,
    the gateway client's cached credential, the clock ([Date.now()], moved by
    the environment between requests), the next value of
    [Math.floor(Math.random() * 9000 + 1000)], and the effects so far. *)
Record world := World {
  orders : list order;
  next_id : Z;
  accessToken : jsval;
  tokenExpiry : jsval;
  clock : Z;
  random4 : Z;
  trace : list event;
}.

Definition M (A : Type) : Type := world → outcome A * world.

Definition M_ret {A} (a : A) : M A := λ w, (Ret a, w).
Definition M_bind {A B} (f : A → M B) (m : M A) : M B :=
  λ w, match m w with
       | (Ret a, w') => f a w'
       | (Throw e, w') => (Throw e, w')
       end.

#[global] Instance M_mret : MRet M := @M_ret.
#[global] Instance M_mbind : MBind M := @M_bind.

Definition throw {A} (e : js_error) : M A := λ w, (Throw e, w).
Definition lift {A} (o : outcome A) : M A := λ w, (o, w).

(** [try { body } catch (e) { handler e }] *)
Definition try_catch {A} (body : M A) (handler : js_error → M A) : M A :=
  λ w, match body w with
       | (Ret a, w') => (Ret a, w')
       | (Throw e, w') => handler e w'
       end.

Definition emit (e : event) : M unit :=
  λ w, (Ret tt, World (orders w) (next_id w) (accessToken w) (tokenExpiry w)
                      (clock w) (random4 w) (trace w ++ [e])).

Definition read {A} (f : world → A) : M A := λ w, (Ret (f w), w).

Definition set_orders (os : list order) : M unit :=
  λ w, (Ret tt, World os (next_id w) (accessToken w) (tokenExpiry w)
                      (clock w) (random4 w) (trace w)).

Definition set_next_id (n : Z) : M unit :=
  λ w, (Ret tt, World (orders w) n (accessToken w) (tokenExpiry w)
                      (clock w) (random4 w) (trace w)).

Definition set_token (tok expiry : jsval) : M unit :=
  λ w, (Ret tt, World (orders w) (next_id w) tok expiry
                      (clock w) (random4 w) (trace w)).

(** [new Date()] *)
Definition new_Date : M jsval := read (λ w, JDate (clock w)).

(** The environment moves the clock between two requests. *)
Definition at_time (t : Z) (w : world) : world :=
  World (orders w) (next_id w) (accessToken w) (tokenExpiry w) t (random4 w) (trace w).

(** What a handler sends back. [Redirect] is Express's [res.redirect] (302),
    [File] the piped read stream (200) with its download name. *)
Inductive response :=
| Redirect (url : string)
| Json (status : Z) (body : jsval)
| Text (status : Z) (body : string)
| File (path : string) (downloadName : string)
| Next.

Definition status_of (r : response) : Z :=
  match r with
  | Redirect _ => 302
  | Json st _ | Text st _ => st
  | File _ _ => 200
  | Next => 0
  end.

(** The HTTP client: a 2xx reply resolves, anything else rejects. *)
Definition axios (r : http_reply) : outcome (Z * jsval) :=
  match r with
  | Reply st d =>
      if (200 <=? st) && (st <? 300) then Ret (st, d)
      else Throw (JsError (JStr ("Request failed with status code " +:+ pretty st))
                          (Some (st, d)))
  | NoReply msg => Throw (JsError (JStr msg) None)
  end.

(** ** The gateway client: src/server/services/phonepeService.js *)

Module PhonePe.
Section PhonePe.
Context `{Runtime} (E : env).

(** The constructor's configuration, with its sandbox defaults. *)
Definition merchantId : jsval := js_or (PHONEPE_MERCHANT_ID E) (JStr "PGTESTPAYUAT86").
Definition saltKey : jsval :=
  js_or (PHONEPE_SALT_KEY E) (JStr "96434309-7796-489d-8924-ab56988a6076").
Definition saltIndex : jsval := js_or (PHONEPE_SALT_INDEX E) (JStr "1").

(** [getAccessToken]: the cached credential while it is fresh, otherwise a
    credential exchange; outside production a failed exchange yields [null]. *)
Definition getAccessToken : M jsval :=
  tok ← read accessToken;
  expiry ← read tokenExpiry;
  now ← read clock;
  if truthy tok && js_lt (JNum (inject_Z now)) expiry then mret tok
  else
    try_catch
      (emit EvOauthToken;;
       '(_, data) ← lift (axios (oauth_api E));
       access_token ← lift (get_strict "access_token" data);
       if negb (truthy access_token) then throw (Error (JStr "No access_token in response"))
       else
         now' ← read clock;
         set_token access_token
           (of_number
              (num_add (Some (inject_Z now'))
                 (num_mul (num_sub (to_number (get "expires_in" data)) (Some 300%Q))
                          (Some 1000%Q))));;
         mret access_token)
      (λ err,
         if negb (is_str (NODE_ENV E) "production") then mret JNull
         else throw err).

(** [validatePaymentData] *)
Definition validatePaymentData (amount customerPhone customerName : jsval)
  : outcome unit :=
  if negb (truthy amount) || js_le amount (JNum 0) then
    Throw (Error (JStr "Invalid amount"))
  else if negb (truthy customerPhone) || js_lt (get "length" customerPhone) (JNum 10) then
    Throw (Error (JStr "Invalid phone number"))
  else
    match customerName with
    | JUndef | JNull => Throw (Error (JStr "Customer name required"))
    | JStr s =>
        if negb (truthy (JStr (trim s))) then Throw (Error (JStr "Customer name required"))
        else Ret tt
    | _ => Throw (TypeError "customerName?.trim is not a function")
    end.

(** [getErrorMessage] *)
Definition getErrorMessage (err : js_error) : jsval :=
  js_or (opt_get "message" (response_data err))
    (js_or (opt_get "error" (response_data err))
       (js_or (err_message err) (JStr "Unexpected error"))).

(** The request body [initiatePayment] posts to the provider. *)
Definition paymentPayload
  (amount customerPhone customerName customerEmail
   merchantTransactionId merchantOrderId : jsval) : jsval :=
  let BACKEND := js_or (BACKEND_URL E) (JStr "https://api.thefloo.shop") in
  obj [
    ("merchantTransactionId", merchantTransactionId);
    ("merchantOrderId", merchantOrderId);
    ("merchantId", merchantId);
    ("amount", of_number (Math_round (js_mul amount (JNum 100))));
    ("expireAfter", JNum 1200);
    ("metaInfo", obj [
       ("udf1", js_or customerName (JStr "NA"));
       ("udf2", js_or customerEmail (JStr "NA"));
       ("udf3", js_or customerPhone (JStr "NA"));
       ("udf4", JStr "bundle-buy-bliss");
       ("udf5", merchantTransactionId)]);
    ("paymentFlow", obj [
       ("type", JStr "PG_CHECKOUT");
       ("message", JStr "Redirecting to PhonePe");
       ("merchantUrls", obj [
          ("redirectUrl",
           JStr (js_String BACKEND +:+ "/api/phonepe/callback/"
                 +:+ js_String merchantTransactionId))])])
  ].

(** [initiatePayment]: no exception crosses this boundary. *)
Definition initiatePayment (paymentData : jsval) : M jsval :=
  let amount := get "amount" paymentData in
  let customerPhone := get "customerPhone" paymentData in
  let customerName := get "customerName" paymentData in
  let customerEmail := get "customerEmail" paymentData in
  let merchantTransactionId := get "merchantTransactionId" paymentData in
  let merchantOrderId := get "merchantOrderId" paymentData in
  try_catch
    (lift (validatePaymentData amount customerPhone customerName);;
     let payload :=
       paymentPayload amount customerPhone customerName customerEmail
         merchantTransactionId merchantOrderId in
     tok ← getAccessToken;
     if negb (truthy tok) then
       throw (Error (JStr "Access token required for PhonePe v2 payment"))
     else
       emit (EvPay payload (js_String tok));;
       '(status, data) ← lift (axios (pay_api E payload));
       if (status =? 200) && truthy (opt_get "redirectUrl" data) then
         mret (obj [
           ("success", JBool true);
           ("paymentUrl", get "redirectUrl" data);
           ("merchantTransactionId", merchantTransactionId);
           ("merchantOrderId", merchantOrderId);
           ("state", get "state" data)])
       else
         throw (Error (js_or (opt_get "message" data) (JStr "Unexpected API response"))))
    (λ error,
       mret (obj [
         ("success", JBool false);
         ("error", getErrorMessage error);
         ("debug", obj [
            ("responseData", response_data error);
            ("statusCode", response_status error)])])).

(** [checkPaymentStatus]: the provider's raw status payload, or an [Error]. *)
Definition checkPaymentStatus (merchantOrderId : jsval) : M jsval :=
  try_catch
    (if negb (truthy merchantOrderId) then throw (Error (JStr "merchantOrderId required"))
     else
       tok ← getAccessToken;
       if negb (truthy tok) then throw (Error (JStr "Missing PhonePe OAuth token"))
       else
         emit (EvStatusCheck (js_String merchantOrderId) (js_String tok));;
         '(_, data) ← lift (axios (status_api E (js_String merchantOrderId)));
         mret data)
    (λ error,
       throw (Error (js_or (opt_get "message" (response_data error))
                           (JStr "Status check failed")))).

(** [verifyCallback({ response, checksum })] *)
Definition expectedChecksum (response : jsval) : string :=
  sha256_hex (js_String response +:+ js_String saltKey) +:+ "###" +:+ js_String saltIndex.

Definition verifyCallback (response checksum : jsval) : outcome jsval :=
  if negb (truthy response) || negb (truthy checksum) then
    Ret (obj [("isValid", JBool false); ("error", JStr "Missing response or checksum")])
  else if negb (is_str checksum (expectedChecksum response)) then
    Ret (obj [("isValid", JBool false); ("error", JStr "Checksum mismatch")])
  else
    match base64_utf8 response with
    | None => Throw (TypeError "The first argument must be of type string or an instance of Buffer")
    | Some text =>
        match JSON_parse text with
        | None => Throw (SyntaxError "Unexpected token in JSON")
        | Some decoded => Ret (obj [("isValid", JBool true); ("data", decoded)])
        end
    end.

End PhonePe.
End PhonePe.

(** ** Request validation: src/server/middleware/security.js *)

Module Security.
Section Security.
Context `{Runtime}.

Definition bad (message : string) : response :=
  Json 400 (obj [("success", JBool false); ("message", JStr message)]).

(** [isValidEmail]: the pattern [^[^\s@]+@[^\s@]+\.[^\s@]+$], that is: no
    white space, exactly one [@] with something before it, and after it a dot
    that is neither the first nor the last character. *)
Fixpoint no_space (s : string) : bool :=
  match s with
  | EmptyString => true
  | String c s' => negb (is_space c) && no_space s'
  end.

Fixpoint no_at (s : string) : bool :=
  match s with
  | EmptyString => true
  | String c s' => negb (Ascii.eqb c "@") && no_at s'
  end.

(** A dot with a non-empty rest, looked for in a non-empty string's tail. *)
Fixpoint inner_dot (s : string) : bool :=
  match s with
  | String c (String _ _ as s') => Ascii.eqb c "." || inner_dot s'
  | _ => false
  end.

Definition domain_ok (s : string) : bool :=
  match s with
  | String _ s' => no_at s && inner_dot s'
  | EmptyString => false
  end.

Fixpoint local_then_domain (seen : bool) (s : string) : bool :=
  match s with
  | EmptyString => false
  | String c s' =>
      if Ascii.eqb c "@" then seen && domain_ok s'
      else local_then_domain true s'
  end.

Definition isValidEmail (email : jsval) : bool :=
  let s := js_String email in
  no_space s && local_then_domain false s.

(** The per-item checks of the [for ... of] loop: the first failing item
    decides the response; an item that is [null] raises. *)
Fixpoint check_items (l : list jsval) : outcome (option response) :=
  match l with
  | [] => Ret None
  | item :: rest =>
      if nullish item then Throw (TypeError "Cannot read properties of null (reading 'id')")
      else if negb (truthy (get "id" item)) || negb (truthy (get "name" item))
              || negb (truthy (get "price" item)) || negb (truthy (get "quantity" item))
      then Ret (Some (bad "Invalid order item data"))
      else if js_le (get "price" item) (JNum 0) || js_le (get "quantity" item) (JNum 0)
      then Ret (Some (bad "Item price and quantity must be positive"))
      else check_items rest
  end.

(** [orderItems.reduce((sum, item) => sum + item.price * item.quantity, 0)] *)
Definition calculatedTotal (l : list jsval) : option Q :=
  foldl (λ sum item, num_add sum (js_mul (get "price" item) (get "quantity" item)))
        (Some 0%Q) l.

(** [validatePaymentRequest]: a 400 response, or [Next] when the request is
    handed to the next handler. *)
Definition validatePaymentRequest (body : jsval) : outcome response :=
  customerName ← get_strict "customerName" body;
  let customerEmail := get "customerEmail" body in
  let orderItems := get "orderItems" body in
  let totalAmount := get "totalAmount" body in
  if negb (truthy customerName)
     || negb (String.eqb (typeof customerName) "string")
     || js_lt (get "length" (JStr (trim (js_String customerName)))) (JNum 2)
  then Ret (bad "Valid customer name is required")
  else if negb (truthy customerEmail) || negb (isValidEmail customerEmail)
  then Ret (bad "Valid email address is required")
  else
    match orderItems with
    | JArr ((_ :: _) as l) =>
        if negb (truthy totalAmount)
           || negb (String.eqb (typeof totalAmount) "number")
           || js_le totalAmount (JNum 0)
        then Ret (bad "Valid total amount is required")
        else if js_lt totalAmount (JNum 1) || js_gt totalAmount (JNum 200000)
        then Ret (bad "Amount must be between ₹1 and ₹2,00,000")
        else
          r ← check_items l;
          match r with
          | Some resp => Ret resp
          | None =>
              if num_gt (num_abs (num_sub (calculatedTotal l) (to_number totalAmount)))
                        (Some (1 # 100)%Q)
              then Ret (bad "Total amount mismatch")
              else Ret Next
          end
    | _ => Ret (bad "Order items are required")
    end.

End Security.
End Security.

(** ** The order store (the [orders] table behind both server revisions)

    The store answers every query; rows keep the payment object exactly as it
    was passed to the update. *)

Module Store.

Definition json_eq_scalar (a b : jsval) : bool :=
  match a, b with
  | JStr s, JStr t => String.eqb s t
  | JNum p, JNum q => Qeq_bool p q
  | JBool x, JBool y => Bool.eqb x y
  | JNull, JNull => true
  | _, _ => false
  end.

(** [.contains("payment", { transactionId })]: the payment column is an object
    whose [transactionId] is the given scalar.  With an [undefined] id the
    filter object serialises to [{}], which every object contains. *)
Definition payment_contains (transactionId p : jsval) : bool :=
  match p with
  | JObj _ =>
      match transactionId with
      | JUndef => true
      | _ => json_eq_scalar (get "transactionId" p) transactionId
      end
  | _ => false
  end.

Definition with_payment (p t : jsval) (o : order) : order :=
  Order (o_id o) (customer_name o) (customer_email o) (customer_phone o)
        (items o) (subtotal o) (total_amount o) p (product_id o)
        (merchant_order_id o) (created_at o) t.

(** [.update({ payment, updated_at }).eq("id", orderId)] *)
Definition update_where_id (orderId : Z) (p t : jsval) (os : list order) : list order :=
  List.map (λ o, if o_id o =? orderId then with_payment p t o else o) os.

End Store.

(** ** The routes of src/server/api/index.js *)

Module ApiIndex.
Section ApiIndex.
Context `{Runtime} (E : env).

Definition findOrderByTransactionId (merchantTransactionId : jsval) : M (option order) :=
  emit (EvOrderFind merchantTransactionId);;
  os ← read orders;
  mret (List.find (λ o, Store.payment_contains merchantTransactionId (payment o)) os).

(** [createOrder]: the insert returns the row with the key the store assigned. *)
Definition createOrder (row : Z → order) : M order :=
  n ← read next_id;
  os ← read orders;
  emit (EvOrderInsert (row n));;
  set_orders (os ++ [row n]);;
  set_next_id (n + 1);;
  mret (row n).

(** [updateOrderPaymentById]: replaces the payment object of the row and
    returns the row; [.single()] fails unless exactly one row was updated. *)
Definition updateOrderPaymentById (orderId : Z) (paymentUpdates : jsval) : M order :=
  now ← new_Date;
  os ← read orders;
  emit (EvOrderUpdate orderId paymentUpdates);;
  let os' := Store.update_where_id orderId paymentUpdates now os in
  set_orders os';;
  match List.filter (λ o, o_id o =? orderId) os' with
  | [o] => mret o
  | _ => throw (Error (JStr "JSON object requested, multiple (or no) rows returned"))
  end.

(** [generateMerchantOrderId]: [ORDER_<code>_<last 4 of phone>_<ms>_<random>] *)
Definition generateMerchantOrderId (customerPhone : jsval) (productCode : string)
  : M string :=
  timestamp ← read clock;
  random ← read random4;
  phoneSuffix ← lift
    match customerPhone with
    | JStr s => Ret (slice_last 4 s)
    | JArr l => Ret (js_String (JArr (drop (length l - 4)%nat l)))
    | _ => Throw (TypeError "customerPhone.slice is not a function")
    end;
  mret ("ORDER_" +:+ productCode +:+ "_" +:+ phoneSuffix +:+ "_"
        +:+ pretty timestamp +:+ "_" +:+ pretty random).

(** POST /api/phonepe/create-order *)
Definition post_phonepe_create_order (body : jsval) : M response :=
  try_catch
    (customerName ← lift (get_strict "customerName" body);
     let customerEmail := get "customerEmail" body in
     let customerPhone := get "customerPhone" body in
     let orderItems := get "orderItems" body in
     let totalAmount := get "totalAmount" body in
     if negb (truthy customerName) || negb (truthy customerEmail)
        || negb (truthy customerPhone) || negb (isArray orderItems)
        || negb (truthy totalAmount)
     then mret (Json 400 (obj [("success", JBool false);
                               ("message", JStr "Missing required fields")]))
     else
       now ← read clock;
       let merchantTransactionId := JStr ("TX_" +:+ pretty now) in
       moid ← generateMerchantOrderId customerPhone "BUNDLE";
       let merchantOrderId := JStr moid in
       created ← new_Date;
       savedOrder ← createOrder (λ n,
         Order n customerName customerEmail customerPhone orderItems
               totalAmount totalAmount
               (obj [("transactionId", merchantTransactionId);
                     ("merchantOrderId", merchantOrderId);
                     ("gateway", JStr "phonepe");
                     ("amount", totalAmount);
                     ("status", JStr "pending")])
               JNull JNull created created);
       paymentResponse ← PhonePe.initiatePayment E (obj [
         ("amount", totalAmount);
         ("customerPhone", customerPhone);
         ("customerName", customerName);
         ("customerEmail", customerEmail);
         ("merchantTransactionId", merchantTransactionId);
         ("merchantOrderId", merchantOrderId)]);
       if truthy (js_and (get "success" paymentResponse) (get "paymentUrl" paymentResponse))
       then
         let finalPayment :=
           spread (payment savedOrder) (obj [
             ("transactionId",
              js_or (get "merchantTransactionId" paymentResponse) merchantTransactionId);
             ("paymentUrl", get "paymentUrl" paymentResponse)]) in
         updateOrderPaymentById (o_id savedOrder) finalPayment;;
         mret (Json 200 (obj [("success", JBool true);
                              ("orderId", JNum (inject_Z (o_id savedOrder)));
                              ("paymentUrl", get "paymentUrl" paymentResponse)]))
       else
         updateOrderPaymentById (o_id savedOrder)
           (spread (payment savedOrder) (obj [
              ("status", JStr "failed");
              ("failureReason",
               js_or (get "error" paymentResponse) (JStr "Payment failed"))]));;
         mret (Json 502 (obj [("success", JBool false);
                              ("message", js_or (get "error" paymentResponse)
                                                (JStr "Payment initiation failed"))])))
    (λ error,
       mret (Json 500 (obj [("success", JBool false);
                            ("message", JStr "Internal server error");
                            ("error", err_message error)]))).

(** The test [/^TX_|BBB_/]: starts with [TX_], or contains [BBB_]. *)
Definition transaction_id_ok (s : string) : bool :=
  startsWith "TX_" s || includes "BBB_" s.

(** GET /api/phonepe/callback/:merchantTransactionId *)
Definition get_phonepe_callback (merchantTransactionId : string) : M response :=
  let FRONTEND := js_String (js_or (FRONTEND_URL E) (JStr "https://www.thefloo.shop")) in
  try_catch
    (if negb (truthy (JStr merchantTransactionId))
        || negb (transaction_id_ok merchantTransactionId)
     then mret (Redirect (FRONTEND +:+ "/payment-error?error=invalid-transaction"))
     else
       found ← findOrderByTransactionId (JStr merchantTransactionId);
       match found with
       | None => mret (Redirect (FRONTEND +:+ "/payment-error?error=order-not-found"))
       | Some order =>
           merchantOrderId ← lift (get_strict "merchantOrderId" (payment order));
           statusResponse ← PhonePe.checkPaymentStatus E merchantOrderId;
           let updateOrderStatus (updates : jsval) :=
             updateOrderPaymentById (o_id order)
               (spread (js_or (payment order) (obj [])) updates) in
           let state := opt_get "state" statusResponse in
           if is_str state "COMPLETED" then
             paidAt ← new_Date;
             updateOrderStatus (obj [
               ("status", JStr "completed");
               ("gatewayTransactionId", get "transactionId" statusResponse);
               ("paymentMethod",
                js_or (opt_get "type" (get "paymentInstrument" statusResponse))
                      (JStr "UPI"));
               ("paidAt", paidAt)]);;
             mret (Redirect (FRONTEND +:+ "/payment-success?orderId="
                             +:+ pretty (o_id order) +:+ "&transactionId="
                             +:+ merchantTransactionId))
           else if is_str state "FAILED" then
             updateOrderStatus (obj [
               ("status", JStr "failed");
               ("failureReason",
                js_or (get "error" statusResponse) (JStr "Payment failed"))]);;
             mret (Redirect (FRONTEND +:+ "/payment-failed?orderId="
                             +:+ pretty (o_id order)))
           else
             lastCheckedAt ← new_Date;
             updateOrderStatus (obj [
               ("status", JStr "pending");
               ("lastCheckedAt", lastCheckedAt)]);;
             mret (Redirect (FRONTEND
                             +:+ "/payment-error?error=cancelled-or-timeout&transactionId="
                             +:+ merchantTransactionId))
       end)
    (λ _, mret (Redirect (FRONTEND +:+ "/payment-error?error=callback-failed"))).

(** [.from("products").select("*").eq("id", productId).limit(1).single()] *)
Definition findProduct (productId : string) : M (option jsval) :=
  emit (EvProductFind productId);;
  mret (List.find (λ row, String.eqb (js_String (get "id" row)) productId) (products E)).

(** The line-item test of the download route. *)
Definition item_matches (productId : string) (it : jsval) : bool :=
  if negb (truthy it) then false
  else String.eqb
         (js_String (js_or (get "productId" it) (js_or (get "product_id" it) (get "id" it))))
         productId.

Definition productIncluded (productId : string) (o : order) : bool :=
  let inItems :=
    match items o with
    | JArr l => existsb (item_matches productId) l
    | _ => false
    end in
  if negb inItems && truthy (product_id o)
  then String.eqb (js_String (product_id o)) productId
  else inItems.

(** [s.replace(/[^a-z0-9_\-\. ]/gi, "_")], byte by byte. *)
Definition safe_char (c : ascii) : ascii :=
  let n := nat_of_ascii c in
  if (Nat.leb 97 n && Nat.leb n 122) || (Nat.leb 65 n && Nat.leb n 90)
     || (Nat.leb 48 n && Nat.leb n 57)
     || Nat.eqb n 95 || Nat.eqb n 45 || Nat.eqb n 46 || Nat.eqb n 32
  then c else "_"%char.

Fixpoint sanitize (s : string) : string :=
  match s with
  | EmptyString => EmptyString
  | String c s' => String (safe_char c) (sanitize s')
  end.

Definition json_fail (status : Z) (message : string) : response :=
  Json status (obj [("success", JBool false); ("message", JStr message)]).

(** The storage root and the path the route resolves inside it. *)
Definition productsFolder : string :=
  js_String (js_or (PRODUCTS_FOLDER E) (JStr (path_join (cwd E) "products"))).

Definition finalFilename (rawFilename : string) : string :=
  let basename := path_basename rawFilename in
  let ext := toLowerCase (path_extname basename) in
  if String.eqb ext ".pdf" then basename else basename +:+ ".pdf".

Definition absolutePath (rawFilename : string) : string :=
  path_resolve2 productsFolder (finalFilename rawFilename).

Definition insideProductsFolder (p : string) : bool :=
  startsWith (path_resolve1 productsFolder +:+ path_sep) p.

(** GET /api/downloads/:productId?transactionId=... *)
Definition get_downloads (productId : string) (transactionId : jsval) : M response :=
  try_catch
    (if negb (truthy (JStr productId)) then mret (json_fail 400 "productId required")
     else if negb (truthy transactionId) then mret (json_fail 400 "transactionId required")
     else
       found ← findOrderByTransactionId (JStr (js_String transactionId));
       match found with
       | None => mret (json_fail 404 "Order not found")
       | Some order =>
           let pay := js_or (payment order) (obj []) in
           if negb (truthy (get "status" pay))
              || negb (String.eqb (toLowerCase (js_String (get "status" pay))) "completed")
           then mret (json_fail 403 "Payment is not completed for this order")
           else if negb (productIncluded productId order)
           then mret (json_fail 403 "Product not found in this order")
           else
             row ← findProduct productId;
             match row with
             | None => mret (json_fail 404 "Product not found")
             | Some product =>
                 let rawFilename :=
                   js_or (get "file_name" product)
                     (js_or (get "local_file_name" product)
                        (if truthy (get "name" product)
                         then JStr (js_String (get "name" product) +:+ ".pdf")
                         else JNull)) in
                 if negb (truthy rawFilename)
                 then mret (json_fail 400 "No file configured for product")
                 else
                   raw ← lift
                     match rawFilename with
                     | JStr s => Ret s
                     | _ => Throw (TypeError "The path argument must be of type string")
                     end;
                   let final := finalFilename raw in
                   let absolute := absolutePath raw in
                   if negb (insideProductsFolder absolute)
                   then mret (json_fail 400 "Invalid file path")
                   else
                     emit (EvFsExists absolute);;
                     if negb (fs_exists E absolute)
                     then mret (json_fail 404 "File not found")
                     else
                       name ← lift
                         match js_or (get "name" product) (JStr (path_parse_name final)) with
                         | JStr s => Ret (trim (sanitize s) +:+ ".pdf")
                         | _ => Throw (TypeError "replace is not a function")
                         end;
                       emit (EvFsRead absolute);;
                       mret (File absolute name)
             end
       end)
    (λ _, mret (json_fail 500 "Internal server error")).

End ApiIndex.
End ApiIndex.

(** ** The routes of src/unnamed/part_001 (the later server revision) *)

Module Unnamed001.
Section Unnamed001.
Context `{Runtime} (E : env).

Definition findOrderByTransactionId (transactionId : jsval) : M (option order) :=
  emit (EvOrderFind transactionId);;
  os ← read orders;
  mret (List.find (λ o, Store.payment_contains transactionId (payment o)) os).

(** [updateOrderPaymentById]: no row is read back, so updating nothing is not
    an error here. *)
Definition updateOrderPaymentById (orderId : Z) (payment : jsval) : M unit :=
  now ← new_Date;
  os ← read orders;
  emit (EvOrderUpdate orderId payment);;
  set_orders (Store.update_where_id orderId payment now os).

(** The global error handler behind [asyncHandler]. *)
Definition asyncHandler (h : M response) : world → response * world :=
  λ w, match h w with
       | (Ret r, w') => (r, w')
       | (Throw _, w') => (Json 500 (obj [("message", JStr "Internal server error")]), w')
       end.

(** POST /api/phonepe/callback *)
Definition post_phonepe_callback (body : jsval) : M response :=
  responseBase64 ← lift (get_strict "response" body);
  if negb (truthy responseBase64) then mret (Text 400 "Invalid callback")
  else
    text ← lift
      match base64_utf8 responseBase64 with
      | Some t => Ret t
      | None => Throw (TypeError "The first argument must be of type string or an instance of Buffer")
      end;
    decoded ← lift
      match JSON_parse text with
      | Some d => Ret d
      | None => Throw (SyntaxError "Unexpected token in JSON")
      end;
    data ← lift (get_strict "data" decoded);
    merchantTransactionId ← lift (get_strict "merchantTransactionId" data);
    found ← findOrderByTransactionId merchantTransactionId;
    match found with
    | None => mret (Text 404 "Order not found")
    | Some order =>
        if is_str (get "code" decoded) "PAYMENT_SUCCESS" then
          paidAt ← new_Date;
          updateOrderPaymentById (o_id order)
            (spread (payment order) (obj [
               ("status", JStr "completed");
               ("gatewayTransactionId", get "transactionId" data);
               ("paidAt", paidAt)]));;
          mret (Redirect (js_String (FRONTEND_URL E) +:+ "/payment-success?orderId="
                          +:+ pretty (o_id order)))
        else if is_str (get "code" decoded) "PAYMENT_FAILED" then
          updateOrderPaymentById (o_id order)
            (spread (payment order) (obj [
               ("status", JStr "failed");
               ("failureReason", get "message" decoded)]));;
          mret (Redirect (js_String (FRONTEND_URL E) +:+ "/payment-failed?orderId="
                          +:+ pretty (o_id order)))
        else
          mret (Redirect (js_String (FRONTEND_URL E) +:+ "/payment-pending?orderId="
                          +:+ pretty (o_id order)))
    end.

(** [.from("orders").select(...).eq("merchant_order_id", orderId).single()]:
    an answer only when exactly one row matches. *)
Definition findOrderByMerchantOrderId (orderId : string) : M (option order) :=
  emit (EvOrderFindByMerchantOrderId orderId);;
  os ← read orders;
  mret match List.filter (λ o, is_str (merchant_order_id o) orderId) os with
       | [o] => Some o
       | _ => None
       end.

(** [.from("products").select(...).eq("id", productId).single()] *)
Definition findProduct (productId : string) : M (option jsval) :=
  emit (EvProductFind productId);;
  mret match List.filter (λ row, String.eqb (js_String (get "id" row)) productId)
                         (products E) with
       | [row] => Some row
       | _ => None
       end.

(** [order.items.some(it => String(it.id || it.productId || it.product_id)
    === String(productId))]; a [null] item met before a match raises. *)
Fixpoint some_item (productId : string) (l : list jsval) : outcome bool :=
  match l with
  | [] => Ret false
  | it :: rest =>
      if nullish it then Throw (TypeError "Cannot read properties of null (reading 'id')")
      else if String.eqb
                (js_String (js_or (get "id" it) (js_or (get "productId" it) (get "product_id" it))))
                productId
      then Ret true
      else some_item productId rest
  end.

Definition json_fail (status : Z) (message : string) : response :=
  Json status (obj [("success", JBool false); ("message", JStr message)]).

(** GET /api/signed-download/:productId?orderId=... *)
Definition get_signed_download (productId : string) (query_orderId : jsval) : M response :=
  try_catch
    (let orderId := js_String (js_or query_orderId (JStr "")) in
     if negb (truthy (JStr productId)) then mret (json_fail 400 "productId required")
     else if negb (truthy (JStr orderId)) then mret (json_fail 400 "orderId required")
     else
       found ← findOrderByMerchantOrderId orderId;
       match found with
       | None => mret (json_fail 404 "Order not found")
       | Some order =>
           if negb (truthy (payment order))
              || negb (String.eqb
                         (toLowerCase (js_String (get "status" (payment order))))
                         "completed")
           then mret (json_fail 403 "Payment not completed")
           else
             included ← lift
               match items order with
               | JArr l => some_item productId l
               | _ => Ret false
               end;
             if negb included then mret (json_fail 403 "Product not part of this order")
             else
               row ← findProduct productId;
               match row with
               | None => mret (json_fail 404 "Product not found")
               | Some product =>
                   if negb (truthy (get "file_name" product))
                   then mret (json_fail 400 "file_name missing")
                   else
                     let bucket := js_or (get "storage_path" product) (JStr "products") in
                     let expiresIn := 60 in
                     emit (EvSignUrl bucket (get "file_name" product) expiresIn);;
                     match storage_sign E bucket (get "file_name" product) expiresIn with
                     | Some signedData =>
                         if negb (truthy (opt_get "signedUrl" signedData))
                         then mret (json_fail 500 "Could not create signed URL")
                         else mret (Json 200 (obj [
                                ("success", JBool true);
                                ("signedUrl", get "signedUrl" signedData);
                                ("expiresIn", JNum (inject_Z expiresIn))]))
                     | None => mret (json_fail 500 "Could not create signed URL")
                     end
               end
       end)
    (λ _, mret (json_fail 500 "Internal server error")).

End Unnamed001.
End Unnamed001.

(** ** A concrete runtime and environment for the worked examples

    The library functions are given at the arguments the examples use: the
    digests and encodings below are the real SHA-256 and base64 values, the
    [path] functions are the POSIX ones on slash-free file names. *)

Module Sample.

Definition quoted (s : string) : string :=
  String (ascii_of_nat 34) (s +:+ String (ascii_of_nat 34) EmptyString).

(** The provider's notification for transaction [TX_1700000000000]. *)
Definition callback_text : string :=
  "{" +:+ quoted "code" +:+ ":" +:+ quoted "PAYMENT_SUCCESS" +:+ ","
  +:+ quoted "message" +:+ ":" +:+ quoted "Your payment is successful." +:+ ","
  +:+ quoted "data" +:+ ":{" +:+ quoted "merchantTransactionId" +:+ ":"
  +:+ quoted "TX_1700000000000" +:+ "," +:+ quoted "transactionId" +:+ ":"
  +:+ quoted "T2311150001" +:+ "}}".

Definition callback_decoded : jsval :=
  obj [("code", JStr "PAYMENT_SUCCESS");
       ("message", JStr "Your payment is successful.");
       ("data", obj [("merchantTransactionId", JStr "TX_1700000000000");
                     ("transactionId", JStr "T2311150001")])].

Definition callback_base64 : string :=
  "eyJjb2RlIjoiUEFZTUVOVF9TVUNDRVNTIiwibWVzc2FnZSI6IllvdXIgcGF5bWVudCBpcyBzdWNjZXNzZnVsLiIsImRhdGEiOnsibWVyY2hhbnRUcmFuc2FjdGlvbklkIjoiVFhfMTcwMDAwMDAwMDAwMCIsInRyYW5zYWN0aW9uSWQiOiJUMjMxMTE1MDAwMSJ9fQ==".

Definition callback_checksum : string :=
  "0caa9e614b4d3a48b792c492b5ac7732a39e2cbf27f096f006ed63fba01656e4###1".

(** A notification nobody signed, naming transaction [TX_1700000000010]. *)
Definition forged_text : string :=
  "{" +:+ quoted "code" +:+ ":" +:+ quoted "PAYMENT_SUCCESS" +:+ ","
  +:+ quoted "data" +:+ ":{" +:+ quoted "merchantTransactionId" +:+ ":"
  +:+ quoted "TX_1700000000010" +:+ "," +:+ quoted "transactionId" +:+ ":"
  +:+ quoted "FORGED" +:+ "}}".

Definition forged_decoded : jsval :=
  obj [("code", JStr "PAYMENT_SUCCESS");
       ("data", obj [("merchantTransactionId", JStr "TX_1700000000010");
                     ("transactionId", JStr "FORGED")])].

Definition forged_base64 : string :=
  "eyJjb2RlIjoiUEFZTUVOVF9TVUNDRVNTIiwiZGF0YSI6eyJtZXJjaGFudFRyYW5zYWN0aW9uSWQiOiJUWF8xNzAwMDAwMDAwMDEwIiwidHJhbnNhY3Rpb25JZCI6IkZPUkdFRCJ9fQ==".

(** A truncated notification: valid base64, not valid JSON. *)
Definition truncated_text : string := "{" +:+ quoted "code" +:+ ":".
Definition truncated_base64 : string := "eyJjb2RlIjo=".
Definition truncated_checksum : string :=
  "6934ff7b09f5b8d1aacf66c33ec352902d9112b3785302affff0755755e754e1###1".

Definition default_salt : string := "96434309-7796-489d-8924-ab56988a6076".

Fixpoint after_last_slash (s acc : string) : string :=
  match s with
  | EmptyString => rev_string acc
  | String c s' =>
      if Ascii.eqb c "/" then after_last_slash s' EmptyString
      else after_last_slash s' (String c acc)
  end.

Fixpoint from_last_dot (s : string) (found : option string) : string :=
  match s with
  | EmptyString => default EmptyString found
  | String c s' =>
      if Ascii.eqb c "." then from_last_dot s' (Some s) else from_last_dot s' found
  end.

(** [dir/name] for an absolute, normalised [dir] and a slash-free [name]. *)
Definition under (dir name : string) : string :=
  if String.eqb dir "/" then dir +:+ name else dir +:+ "/" +:+ name.

#[local] Instance runtime : Runtime := {|
  sha256_hex := λ s,
    if String.eqb s (callback_base64 +:+ default_salt)
    then "0caa9e614b4d3a48b792c492b5ac7732a39e2cbf27f096f006ed63fba01656e4"
    else if String.eqb s (truncated_base64 +:+ default_salt)
    then "6934ff7b09f5b8d1aacf66c33ec352902d9112b3785302affff0755755e754e1"
    else EmptyString;
  base64_utf8 := λ v,
    match v with
    | JStr s =>
        if String.eqb s callback_base64 then Some callback_text
        else if String.eqb s forged_base64 then Some forged_text
        else if String.eqb s truncated_base64 then Some truncated_text
        else Some EmptyString
    | _ => None
    end;
  JSON_parse := λ s,
    if String.eqb s callback_text then Some callback_decoded
    else if String.eqb s forged_text then Some forged_decoded
    else None;
  Number_toString := λ q, pretty (Qnum q);
  Number_ofString := λ _, None;
  Date_toString := λ t, pretty t;
  path_sep := "/";
  path_basename := λ p, after_last_slash p EmptyString;
  path_extname := λ p,
    match p with
    | String _ rest => from_last_dot rest None
    | EmptyString => EmptyString
    end;
  path_join := under;
  path_resolve1 := λ p, p;
  path_resolve2 := under;
  path_parse_name := λ p, p;
  encodeURIComponent := λ s, s;
|}.

(** The one product of the catalogue, and a line item for a product. *)
Definition guide : jsval :=
  obj [("id", JStr "P1"); ("name", JStr "Guide"); ("file_name", JStr "guide.pdf")].

Definition line_item (product : string) : jsval :=
  obj [("productId", JStr product); ("name", JStr "Guide");
       ("price", JNum 500); ("quantity", JNum 2)].

(** The provider: orders [ORDER_A] completed, [ORDER_F] failed, anything else
    still pending; the credential exchange and the checkout both succeed. *)
Definition environment_at (root : string) : env := {|
  FRONTEND_URL := JStr "https://www.thefloo.shop";
  BACKEND_URL := JUndef;
  NODE_ENV := JStr "production";
  PRODUCTS_FOLDER := JStr root;
  PHONEPE_MERCHANT_ID := JUndef;
  PHONEPE_SALT_KEY := JUndef;
  PHONEPE_SALT_INDEX := JUndef;
  cwd := "/srv";
  oauth_api := Reply 200 (obj [("access_token", JStr "tok-1"); ("expires_in", JNum 3600)]);
  pay_api := λ _, Reply 200 (obj [("redirectUrl", JStr "https://pay.example/abc");
                                  ("state", JStr "PENDING")]);
  status_api := λ id,
    if String.eqb id "ORDER_A"
    then Reply 200 (obj [("state", JStr "COMPLETED"); ("transactionId", JStr "G-77")])
    else if String.eqb id "ORDER_F"
    then Reply 200 (obj [("state", JStr "FAILED")])
    else Reply 200 (obj [("state", JStr "PENDING")]);
  products := [guide];
  fs_exists := λ p, String.eqb p (under root "guide.pdf");
  storage_sign := λ _ file _,
    Some (obj [("signedUrl", JStr ("https://storage.example/" +:+ Conv.js_String file))]);
|}.

Definition environment : env := environment_at "/srv/products".

(** An order for one product at 500 x 2, with a given payment object and a
    given order-level [product_id] column. *)
Definition order_for (product : string) (pid : jsval) (id : Z) (moid : string)
    (pay : jsval) : order := {|
  o_id := id;
  customer_name := JStr "Asha";
  customer_email := JStr "asha@example.com";
  customer_phone := JStr "9876543210";
  items := JArr [line_item product];
  subtotal := JNum 1000;
  total_amount := JNum 1000;
  payment := pay;
  product_id := pid;
  merchant_order_id := JStr moid;
  created_at := JDate 1700000000000;
  updated_at := JDate 1700000000000;
|}.

Definition order_with : Z → string → jsval → order := order_for "P1" JNull.

Definition payment_with (txid moid status : string) : jsval :=
  obj [("transactionId", JStr txid); ("merchantOrderId", JStr moid);
       ("gateway", JStr "phonepe"); ("amount", JNum 1000); ("status", JStr status)].

Definition world_with (os : list order) (now : Z) : world := {|
  orders := os;
  next_id := 100;
  accessToken := JNull;
  tokenExpiry := JNull;
  clock := now;
  random4 := 4711;
  trace := [];
|}.

End Sample.

(** * The vocabulary of the properties *)

(** The payment object of the row with key [id]. *)
Definition payment_of (id : Z) (w : world) : jsval :=
  match List.find (λ o, o_id o =? id) (orders w) with
  | Some o => payment o
  | None => JUndef
  end.

(** The two results [verifyCallback] returns. *)
Definition invalid (reason : string) : jsval :=
  obj [("isValid", JBool false); ("error", JStr reason)].
Definition valid (decoded : jsval) : jsval :=
  obj [("isValid", JBool true); ("data", decoded)].

(** The reconciliation table, as the specification words it: the order status
    for a provider state, and the fields written on that branch. *)
Definition mapped_status (sr : jsval) : string :=
  if is_str (opt_get "state" sr) "COMPLETED" then "completed"
  else if is_str (opt_get "state" sr) "FAILED" then "failed"
  else "pending".

Definition branch_fields (sr : jsval) (now : Z) : jsval :=
  if is_str (opt_get "state" sr) "COMPLETED" then
    obj [("status", JStr "completed");
         ("gatewayTransactionId", get "transactionId" sr);
         ("paymentMethod",
          js_or (opt_get "type" (get "paymentInstrument" sr)) (JStr "UPI"));
         ("paidAt", JDate now)]
  else if is_str (opt_get "state" sr) "FAILED" then
    obj [("status", JStr "failed");
         ("failureReason", js_or (get "error" sr) (JStr "Payment failed"))]
  else
    obj [("status", JStr "pending"); ("lastCheckedAt", JDate now)].

Definition branch_keys (sr : jsval) : gset string :=
  if is_str (opt_get "state" sr) "COMPLETED" then
    {["status"; "gatewayTransactionId"; "paymentMethod"; "paidAt"]}
  else if is_str (opt_get "state" sr) "FAILED" then
    {["status"; "failureReason"]}
  else
    {["status"; "lastCheckedAt"]}.

Section Vocabulary.
Context `{Runtime} (E : env).

(** A callback for [mtid] in world [w] resolves to the order [o] and the status
    check made for it returns the provider payload [sr]. *)
Definition observes (mtid : string) (w : world) (o : order) (sr : jsval) : Prop :=
  List.find (λ o, Store.payment_contains (JStr mtid) (payment o)) (orders w) = Some o
  ∧ ∃ moid,
      get_strict "merchantOrderId" (payment o) = Ret moid
      ∧ fst (PhonePe.checkPaymentStatus E moid
               (snd (ApiIndex.findOrderByTransactionId (JStr mtid) w))) = Ret sr.

(** The notification [body] decodes to [decoded] with payload [data], and its
    correlation id resolves to the order [o]. *)
Definition notified (body : jsval) (w : world) (o : order) (decoded data : jsval) : Prop :=
  ∃ r text mtid,
    get_strict "response" body = Ret r ∧ truthy r = true
    ∧ base64_utf8 r = Some text ∧ JSON_parse text = Some decoded
    ∧ get_strict "data" decoded = Ret data
    ∧ get_strict "merchantTransactionId" data = Ret mtid
    ∧ List.find (λ o, Store.payment_contains mtid (payment o)) (orders w) = Some o.

(** A file access that stays inside the storage root. *)
Definition file_access_inside (e : event) : Prop :=
  match e with
  | EvFsExists p | EvFsRead p => ApiIndex.insideProductsFolder E p = true
  | _ => True
  end.

(** The file name the streaming route reads off a catalogue row. *)
Definition rawFilename_of (product : jsval) : jsval :=
  js_or (get "file_name" product)
    (js_or (get "local_file_name" product)
       (if truthy (get "name" product)
        then JStr (js_String (get "name" product) +:+ ".pdf")
        else JNull)).

(** The request is authorized and the file name configured for its product is [raw]. *)
Definition authorized_for (productId : string) (transactionId : jsval) (w : world)
    (raw : string) : Prop :=
  truthy (JStr productId) = true ∧ truthy transactionId = true
  ∧ ∃ o product,
      List.find (λ o, Store.payment_contains (JStr (js_String transactionId)) (payment o))
                (orders w) = Some o
      ∧ truthy (get "status" (payment o)) = true
      ∧ String.eqb (toLowerCase (js_String (get "status" (payment o)))) "completed" = true
      ∧ ApiIndex.productIncluded productId o = true
      ∧ List.find (λ row, String.eqb (js_String (get "id" row)) productId) (products E)
        = Some product
      ∧ rawFilename_of product = JStr raw ∧ truthy (JStr raw) = true.

(** The request [initiatePayment] builds from its argument. *)
Definition payload_of (pd : jsval) : jsval :=
  PhonePe.paymentPayload E (get "amount" pd) (get "customerPhone" pd)
    (get "customerName" pd) (get "customerEmail" pd)
    (get "merchantTransactionId" pd) (get "merchantOrderId" pd).

End Vocabulary.

(** The fields the notification handler merges, if it writes at all. *)
Definition notification_fields (decoded data : jsval) (now : Z) : option jsval :=
  if is_str (get "code" decoded) "PAYMENT_SUCCESS" then
    Some (obj [("status", JStr "completed");
               ("gatewayTransactionId", get "transactionId" data);
               ("paidAt", JDate now)])
  else if is_str (get "code" decoded) "PAYMENT_FAILED" then
    Some (obj [("status", JStr "failed"); ("failureReason", get "message" decoded)])
  else None.

(** ** Worked runs *)

Module PollingRuns.

(** Order 7 is pending and the provider reports it COMPLETED; order 8 is
    stored as completed and the provider reports it FAILED. *)
Definition order7 : order :=
  Sample.order_with 7 "ORDER_A" (Sample.payment_with "TX_1700000000000" "ORDER_A" "pending").
Definition order8 : order :=
  Sample.order_with 8 "ORDER_F" (Sample.payment_with "TX_1700000000008" "ORDER_F" "completed").
Definition order9 : order :=
  Sample.order_with 9 "ORDER_P" (Sample.payment_with "TX_1700000000009" "ORDER_P" "completed").
Definition order10 : order :=
  Sample.order_with 10 "ORDER_Q" (Sample.payment_with "TX_1700000000010" "ORDER_Q" "pending").
Definition w0 : world :=
  Sample.world_with [order7; order8; order9; order10] 1700000100000.

Definition reply_completed : jsval :=
  obj [("state", JStr "COMPLETED"); ("transactionId", JStr "G-77")].
Definition reply_failed : jsval := obj [("state", JStr "FAILED")].

Definition callback (mtid : string) (w : world) : outcome response * world :=
  ApiIndex.get_phonepe_callback (H := Sample.runtime) Sample.environment mtid w.

Definition notify (body : jsval) (w : world) : response * world :=
  Unnamed001.asyncHandler
    (Unnamed001.post_phonepe_callback (H := Sample.runtime) Sample.environment body) w.

End PollingRuns.

Module DownloadRuns.

(** Order 13 is paid and holds [P1]; order 14 holds [P1] and is pending; order
    11 is paid and holds [P2], which the catalogue does not list; order 12 is
    paid, holds [P9] and carries [P1] in its order-level [product_id]. *)
Definition order13 : order :=
  Sample.order_with 13 "ORDER_13" (Sample.payment_with "TX_1700000000013" "ORDER_13" "completed").
Definition order14 : order :=
  Sample.order_with 14 "ORDER_14" (Sample.payment_with "TX_1700000000014" "ORDER_14" "pending").
Definition order11 : order :=
  Sample.order_for "P2" JNull 11 "ORDER_11"
    (Sample.payment_with "TX_1700000000011" "ORDER_11" "completed").
Definition order12 : order :=
  Sample.order_for "P9" (JStr "P1") 12 "ORDER_12"
    (Sample.payment_with "TX_1700000000012" "ORDER_12" "completed").
Definition shop : world :=
  Sample.world_with [order11; order12; order13; order14] 1700000300000.

Definition downloads (root productId transactionId : string) : outcome response * world :=
  ApiIndex.get_downloads (H := Sample.runtime) (Sample.environment_at root)
    productId (JStr transactionId) shop.


End DownloadRuns.

Module CreateRuns.

(** A checkout of one guide at 500 x 2, declaring the given total. *)
Definition cart : list jsval :=
  [obj [("id", JStr "P1"); ("name", JStr "Guide"); ("price", JNum 500); ("quantity", JNum 2)]].

Definition checkout (total : Q) : jsval :=
  obj [("customerName", JStr "Asha");
       ("customerEmail", JStr "asha@example.com");
       ("customerPhone", JStr "9876543210");
       ("orderItems", JArr cart);
       ("totalAmount", JNum total)].

Definition till : world := Sample.world_with [] 1700000400000.

Definition create (body : jsval) : outcome response * world :=
  ApiIndex.post_phonepe_create_order (H := Sample.runtime) Sample.environment body till.

Definition created : response :=
  Json 200 (obj [("success", JBool true); ("orderId", JNum 100);
                 ("paymentUrl", JStr "https://pay.example/abc")]).

(** The amount of the pay request in a trace, if there is one. *)
Definition paid_amount (t : list event) : list jsval :=
  flat_map (λ e, match e with EvPay payload _ => [get "amount" payload] | _ => [] end) t.

End CreateRuns.

(** ** The other middleware of src/server/middleware/security.js *)

Module Middleware.
Section Middleware.
Context `{Runtime} (E : env).




(** The pattern [/^ORDER_[A-Z0-9]+_\d{4}_\d{13}_\d{4}$/], piece by piece; each
    piece takes the matcher of what follows it. *)
Definition is_digit (c : ascii) : bool :=
  let n := nat_of_ascii c in Nat.leb 48 n && Nat.leb n 57.

Definition is_upper_alnum (c : ascii) : bool :=
  let n := nat_of_ascii c in
  (Nat.leb 65 n && Nat.leb n 90) || (Nat.leb 48 n && Nat.leb n 57).

(** [\d{n}] *)
Fixpoint digits (n : nat) (rest : string → bool) (s : string) : bool :=
  match n, s with
  | O, _ => rest s
  | S n', String c s' => is_digit c && digits n' rest s'
  | S _, EmptyString => false
  end.

(** [_] *)
Definition underscore (rest : string → bool) (s : string) : bool :=
  match s with
  | String c s' => Ascii.eqb c "_" && rest s'
  | EmptyString => false
  end.

(** [$] *)
Definition at_end (s : string) : bool :=
  match s with EmptyString => true | String _ _ => false end.

(** [[A-Z0-9]+]: what follows starts with [_], which is outside the class, so
    the only run that can be followed is the longest one. *)
Fixpoint upper_alnums (seen : bool) (rest : string → bool) (s : string) : bool :=
  match s with
  | String c s' =>
      if is_upper_alnum c then upper_alnums true rest s' else seen && rest s
  | EmptyString => false
  end.

Definition merchantOrderId_pattern (s : string) : bool :=
  startsWith "ORDER_" s
  && upper_alnums false
       (underscore (digits 4 (underscore (digits 13 (underscore (digits 4 at_end))))))
       (drop_string 6 s).

(** [validateMerchantOrderId], on the route parameter. *)
Definition validateMerchantOrderId (merchantOrderId : jsval) : outcome response :=
  if negb (truthy merchantOrderId)
  then Ret (Security.bad "Invalid merchantOrderId format")
  else
    match merchantOrderId with
    | JStr s =>
        if merchantOrderId_pattern s then Ret Next
        else Ret (Security.bad "Invalid merchantOrderId format")
    | _ => Throw (TypeError "merchantOrderId.match is not a function")
    end.

Section Webhook.
(** [JSON.stringify], which answers a string, or [undefined] for a body that
    is [undefined], or throws. *)
Variable JSON_stringify : jsval → outcome jsval.

(** [generateWebhookSignature]: no sandbox default for the salt key here, and
    the default salt index is the number 1. *)
Definition generateWebhookSignature (body : jsval) : string :=
  let saltKey := PHONEPE_SALT_KEY E in
  let saltIndex := js_or (PHONEPE_SALT_INDEX E) (JNum 1) in
  let string := js_String body +:+ "/pg/v1/webhook" +:+ js_String saltKey in
  sha256_hex string +:+ "###" +:+ js_String saltIndex.

Definition unauthorized (message : string) : response :=
  Json 401 (obj [("success", JBool false); ("message", JStr message)]).

(** [validateWebhookSignature], on the [X-VERIFY] header and the parsed body. *)
Definition validateWebhookSignature (x_verify req_body : jsval) : response :=
  match JSON_stringify req_body with
  | Ret body =>
      if negb (truthy x_verify) then unauthorized "Missing webhook signature"
      else if negb (is_str x_verify (generateWebhookSignature body))
      then unauthorized "Invalid webhook signature"
      else Next
  | Throw _ =>
      Json 500 (obj [("success", JBool false); ("message", JStr "Webhook validation failed")])
  end.

End Webhook.

End Middleware.
End Middleware.

(** ** The other order routes of src/server/api/index.js *)

Module ApiOrders.
Section ApiOrders.
Context `{Runtime} (E : env).

(** A row of [orders] as the store hands it to [res.json]. *)
Definition row_json (o : order) : jsval :=
  obj [("id", JNum (inject_Z (o_id o)));
       ("customer_name", customer_name o);
       ("customer_email", customer_email o);
       ("customer_phone", customer_phone o);
       ("items", items o);
       ("subtotal", subtotal o);
       ("total_amount", total_amount o);
       ("payment", payment o);
       ("product_id", product_id o);
       ("merchant_order_id", merchant_order_id o);
       ("created_at", created_at o);
       ("updated_at", updated_at o)].

(** GET /api/orders/:transactionId *)
Definition get_orders (transactionId : string) : M response :=
  try_catch
    (found ← ApiIndex.findOrderByTransactionId (JStr transactionId);
     match found with
     | None => mret (Json 404 (obj [("message", JStr "Order not found")]))
     | Some order => mret (Json 200 (row_json order))
     end)
    (λ err, mret (Json 500 (obj [("message", JStr "Server error");
                                 ("error", err_message err)]))).

(** [order.items.some(it => String(it.productId || it.product_id || it.id)
    === String(productId))], without the route's guard against a [null]
    item. *)
Fixpoint some_item (productId : string) (l : list jsval) : outcome bool :=
  match l with
  | [] => Ret false
  | it :: rest =>
      if nullish it then Throw (TypeError "Cannot read properties of null (reading 'productId')")
      else if String.eqb
                (js_String (js_or (get "productId" it) (js_or (get "product_id" it) (get "id" it))))
                productId
      then Ret true
      else some_item productId rest
  end.

(** GET /api/signed-download/:productId?transactionId=... *)
Definition get_signed_download (productId : string) (query_transactionId : jsval)
  : M response :=
  try_catch
    (let transactionId := js_String (js_or query_transactionId (JStr "")) in
     if negb (truthy (JStr productId)) then mret (ApiIndex.json_fail 400 "productId required")
     else if negb (truthy (JStr transactionId))
     then mret (ApiIndex.json_fail 400 "transactionId required")
     else
       found ← ApiIndex.findOrderByTransactionId (JStr transactionId);
       match found with
       | None => mret (ApiIndex.json_fail 404 "Order not found")
       | Some order =>
           if negb (truthy (payment order))
              || negb (String.eqb
                         (toLowerCase (js_String (get "status" (payment order))))
                         "completed")
           then mret (ApiIndex.json_fail 403 "Payment not completed")
           else
             inItems ← lift
               match items order with
               | JArr l => some_item productId l
               | _ => Ret false
               end;
             let included :=
               if negb inItems && truthy (product_id order)
               then String.eqb (js_String (product_id order)) productId
               else inItems in
             if negb included
             then mret (ApiIndex.json_fail 403 "Product not part of this order")
             else
               row ← Unnamed001.findProduct E productId;
               match row with
               | None => mret (ApiIndex.json_fail 404 "Product not found")
               | Some product =>
                   let bucket := js_or (get "storage_path" product) (JStr "products") in
                   let fileName := get "file_name" product in
                   if negb (truthy fileName)
                   then mret (ApiIndex.json_fail 400 "file_name missing for product")
                   else
                     let expiresIn := 60 in
                     emit (EvSignUrl bucket fileName expiresIn);;
                     match storage_sign E bucket fileName expiresIn with
                     | Some signedData =>
                         if negb (truthy signedData)
                         then mret (ApiIndex.json_fail 500 "Could not create signed URL")
                         else mret (Json 200 (obj [
                                ("success", JBool true);
                                ("signedUrl", get "signedUrl" signedData);
                                ("fileName", fileName);
                                ("bucket", bucket);
                                ("expiresIn", JNum (inject_Z expiresIn))]))
                     | None => mret (ApiIndex.json_fail 500 "Could not create signed URL")
                     end
               end
       end)
    (λ _, mret (ApiIndex.json_fail 500 "Internal server error")).

End ApiOrders.
End ApiOrders.

(** ** Order creation and order lookup in src/unnamed/part_001 *)

Module Unnamed001Orders.
Section Unnamed001Orders.
Context `{Runtime} (E : env).

(** [generateMerchantOrderId]: [ORDER_<code>_<last 4 of phone>_<ms>], without
    the random suffix of the earlier revision. *)
Definition generateMerchantOrderId (customerPhone : jsval) (productCode : string)
  : M string :=
  phoneSuffix ← lift
    match customerPhone with
    | JStr s => Ret (slice_last 4 s)
    | JArr l => Ret (js_String (JArr (drop (length l - 4)%nat l)))
    | _ => Throw (TypeError "customerPhone.slice is not a function")
    end;
  timestamp ← read clock;
  mret ("ORDER_" +:+ productCode +:+ "_" +:+ phoneSuffix +:+ "_" +:+ pretty timestamp).

(** [orderItems.map((it) => it.id || it.productId || it.product_id)] *)
Fixpoint item_ids (l : list jsval) : outcome (list jsval) :=
  match l with
  | [] => Ret []
  | it :: rest =>
      if nullish it then Throw (TypeError "Cannot read properties of null (reading 'id')")
      else
        ids ← item_ids rest;
        Ret (js_or (get "id" it) (js_or (get "productId" it) (get "product_id" it)) :: ids)
  end.

(** POST /api/phonepe/create-order *)
Definition post_phonepe_create_order (body : jsval) : M response :=
  customerName ← lift (get_strict "customerName" body);
  let customerEmail := get "customerEmail" body in
  let customerPhone := get "customerPhone" body in
  let orderItems := get "orderItems" body in
  let totalAmount := get "totalAmount" body in
  if negb (truthy customerName) || negb (truthy customerEmail)
     || negb (truthy customerPhone) || negb (truthy (opt_get "length" orderItems))
  then mret (Json 400 (obj [("message", JStr "Invalid payload")]))
  else
    now ← read clock;
    let merchantTransactionId := JStr ("TX_" +:+ pretty now) in
    moid ← generateMerchantOrderId customerPhone "BUNDLE";
    let merchantOrderId := JStr moid in
    created ← new_Date;
    ids ← lift
      match orderItems with
      | JArr l => item_ids l
      | _ => Throw (TypeError "orderItems.map is not a function")
      end;
    order ← ApiIndex.createOrder (λ n,
      Order n customerName customerEmail customerPhone orderItems
            JNull totalAmount
            (obj [("gateway", JStr "phonepe");
                  ("transactionId", merchantTransactionId);
                  ("merchantOrderId", merchantOrderId);
                  ("status", JStr "pending");
                  ("amount", totalAmount)])
            (JArr ids) merchantOrderId created created);
    pay ← PhonePe.initiatePayment E (obj [
      ("amount", totalAmount);
      ("customerName", customerName);
      ("customerEmail", customerEmail);
      ("customerPhone", customerPhone);
      ("merchantOrderId", merchantOrderId)]);
    if negb (truthy (opt_get "success" pay)) then
      Unnamed001.updateOrderPaymentById (o_id order)
        (spread (payment order) (obj [
           ("status", JStr "failed");
           ("failureReason", opt_get "error" pay)]));;
      mret (Json 502 (obj [("message", JStr "PhonePe initiation failed")]))
    else
      Unnamed001.updateOrderPaymentById (o_id order)
        (spread (payment order) (obj [("paymentUrl", get "paymentUrl" pay)]));;
      mret (Json 200 (obj [("success", JBool true);
                           ("orderId", JNum (inject_Z (o_id order)));
                           ("paymentUrl", get "paymentUrl" pay)])).

(** [order.items.map((item) => ({ id, name, price: Number(...), quantity:
    Number(...) }))] *)
Fixpoint shaped_items (l : list jsval) : outcome (list jsval) :=
  match l with
  | [] => Ret []
  | item :: rest =>
      if nullish item then Throw (TypeError "Cannot read properties of null (reading 'id')")
      else
        shaped ← shaped_items rest;
        Ret (obj [("id", get "id" item);
                  ("name", get "name" item);
                  ("price", of_number (to_number (get "price" item)));
                  ("quantity", of_number (to_number (get "quantity" item)))] :: shaped)
  end.

(** GET /api/orders/:orderId *)
Definition get_orders (orderId : string) : M response :=
  if negb (truthy (JStr orderId))
  then mret (Json 400 (obj [("message", JStr "orderId is required")]))
  else
    found ← Unnamed001.findOrderByMerchantOrderId orderId;
    match found with
    | None => mret (Json 404 (obj [("message", JStr "Order not found")]))
    | Some order =>
        shaped ← lift
          match items order with
          | JArr l => shaped_items l
          | _ => Ret []
          end;
        mret (Json 200 (obj [
          ("id", JNum (inject_Z (o_id order)));
          ("customer_name", customer_name order);
          ("customer_email", customer_email order);
          ("total_amount", of_number (to_number (total_amount order)));
          ("items", JArr shaped)]))
    end.

End Unnamed001Orders.
End Unnamed001Orders.

(** ** Vocabulary for the gateway client *)

(** The cache test of [getAccessToken]. *)
Definition fresh `{Runtime} (w : world) : bool :=
  truthy (accessToken w) && js_lt (JNum (inject_Z (clock w))) (tokenExpiry w).

(** What [initiatePayment] returns for an error it caught. *)
Definition failed (error : js_error) : jsval :=
  obj [("success", JBool false);
       ("error", PhonePe.getErrorMessage error);
       ("debug", obj [("responseData", response_data error);
                      ("statusCode", response_status error)])].

(** A sandbox whose credential exchange is refused. *)
Definition offline_sandbox : env := {|
  FRONTEND_URL := JStr "http://localhost:8080";
  BACKEND_URL := JUndef;
  NODE_ENV := JUndef;
  PRODUCTS_FOLDER := JUndef;
  PHONEPE_MERCHANT_ID := JUndef;
  PHONEPE_SALT_KEY := JUndef;
  PHONEPE_SALT_INDEX := JUndef;
  cwd := "/srv";
  oauth_api := Reply 401 (obj [("message", JStr "Unauthorized")]);
  pay_api := λ _, NoReply "socket hang up";
  status_api := λ _, Reply 404 (obj [("message", JStr "Order not found at provider")]);
  products := [];
  fs_exists := λ _, false;
  storage_sign := λ _ _ _, None;
|}.

(** ** Vocabulary for request validation *)

(** A line item the middleware's loop lets through. *)
Definition item_accepted `{Runtime} (item : jsval) : Prop :=
  truthy (get "id" item) = true ∧ truthy (get "name" item) = true
  ∧ truthy (get "price" item) = true ∧ truthy (get "quantity" item) = true
  ∧ (∀ p, get "price" item = JNum p → (0 < p)%Q)
  ∧ (∀ n, get "quantity" item = JNum n → (0 < n)%Q).

(** A line item whose price and quantity are numbers. *)
Definition item_numeric (item : jsval) : Prop :=
  ∃ p n, get "price" item = JNum p ∧ get "quantity" item = JNum n.


(** ** Vocabulary for the order-id pattern *)

(** Every character of [s] passes [f]. *)
Fixpoint all_chars (f : ascii → bool) (s : string) : bool :=
  match s with
  | EmptyString => true
  | String c s' => f c && all_chars f s'
  end.

(** Exactly [n] decimal digits: what [\d{n}] matches. *)
Definition digit_run (n : nat) (s : string) : Prop :=
  String.length s = n ∧ all_chars Middleware.is_digit s = true.

(** ** Vocabulary for the routes *)

(** An effect that reads: a lookup, a look at the disk, a signature. *)
Definition read_only (e : event) : Prop :=
  match e with
  | EvOrderFind _ | EvOrderFindByMerchantOrderId _ | EvProductFind _
  | EvFsExists _ | EvFsRead _ | EvSignUrl _ _ _ => True
  | _ => False
  end.

(** The world [w'] is [w] after the effects [new], none of which writes. *)
Definition only_reads (w w' : world) : Prop :=
  orders w' = orders w ∧ next_id w' = next_id w
  ∧ accessToken w' = accessToken w ∧ tokenExpiry w' = tokenExpiry w
  ∧ ∃ new, trace w' = trace w ++ new ∧ Forall read_only new.

(** The payment status of an order reads [completed], in any letter case. *)
Definition paid `{Runtime} (o : order) : Prop :=
  String.eqb (toLowerCase (js_String (get "status" (payment o)))) "completed" = true.

(** Two rows that differ at most in [payment] and [updated_at]. *)
Definition same_columns (a b : order) : Prop :=
  o_id a = o_id b
  ∧ customer_name a = customer_name b ∧ customer_email a = customer_email b
  ∧ customer_phone a = customer_phone b
  ∧ items a = items b ∧ subtotal a = subtotal b ∧ total_amount a = total_amount b
  ∧ product_id a = product_id b ∧ merchant_order_id a = merchant_order_id b
  ∧ created_at a = created_at b.

(** The order table of [w'] has the rows of [w], in the same order, with at
    most [payment] and [updated_at] changed; no key was handed out. *)
Definition keeps_order_data (w w' : world) : Prop :=
  Forall2 same_columns (orders w) (orders w') ∧ next_id w' = next_id w.

(** A line item as the order-details route answers it. *)
Definition public_item (it : jsval) : Prop :=
  dom (props it) = ({["id"; "name"; "price"; "quantity"]} : gset string).

(** A character a download name may hold: an ASCII letter or digit, or one
    of [_], [-], [.] and the space. *)
Definition plain_char (c : ascii) : bool :=
  let n := nat_of_ascii c in
  (Nat.leb 97 n && Nat.leb n 122) || (Nat.leb 65 n && Nat.leb n 90)
  || (Nat.leb 48 n && Nat.leb n 57)
  || Nat.eqb n 95 || Nat.eqb n 45 || Nat.eqb n 46 || Nat.eqb n 32.

(** * Properties *)

(** ** Symbolic execution of handlers *)

(** Unfolds the monad and the state accessors, nothing else. *)
Ltac mstep :=
  cbv beta iota zeta delta
    [mbind mret M_mbind M_mret outcome_mbind outcome_mret
     M_bind M_ret emit read lift throw try_catch
     set_orders set_next_id set_token new_Date at_time
     orders next_id accessToken tokenExpiry clock random4 trace fst snd] in *;
  cbn [negb orb andb] in *.

Section Facts.
Context `{Runtime} (E : env).

Lemma is_str_eq v s : is_str v s = true ↔ v = JStr s.
Proof.
  destruct v; simpl; try (split; [discriminate | congruence]).
  rewrite String.eqb_eq. split; congruence.
Qed.

Lemma is_str_neq v s : is_str v s = false ↔ v ≠ JStr s.
Proof.
  rewrite <- is_str_eq. destruct (is_str v s); split; congruence.
Qed.

Lemma transaction_id_ok_nonempty s :
  ApiIndex.transaction_id_ok s = true → truthy (JStr s) = true.
Proof. by destruct s. Qed.

Lemma payment_contains_obj t p :
  Store.payment_contains t p = true → ∃ m, p = JObj m.
Proof. destruct p; try discriminate. eauto. Qed.

(** The gateway client touches its credential cache and the trace only. *)
Lemma getAccessToken_frame w :
  let w' := snd (PhonePe.getAccessToken E w) in
  orders w' = orders w ∧ clock w' = clock w ∧ next_id w' = next_id w.
Proof.
  destruct w as [os nid tok ex clk rnd tr].
  unfold PhonePe.getAccessToken. mstep.
  destruct (truthy tok && js_lt (JNum (inject_Z clk)) ex); mstep; [done|].
  destruct (axios (oauth_api E)) as [[st d]|e]; mstep.
  2:{ destruct (negb (is_str (NODE_ENV E) "production")); mstep; done. }
  destruct (get_strict "access_token" d) as [a|e]; mstep.
  2:{ destruct (negb (is_str (NODE_ENV E) "production")); mstep; done. }
  destruct (negb (truthy a)); mstep.
  { destruct (negb (is_str (NODE_ENV E) "production")); mstep; done. }
  done.
Qed.

Lemma checkPaymentStatus_frame moid w :
  let w' := snd (PhonePe.checkPaymentStatus E moid w) in
  orders w' = orders w ∧ clock w' = clock w ∧ next_id w' = next_id w.
Proof.
  unfold PhonePe.checkPaymentStatus. mstep.
  destruct (negb (truthy moid)); mstep; [done|].
  pose proof (getAccessToken_frame w) as Hf.
  destruct (PhonePe.getAccessToken E w) as [[tok|e] w1]; mstep; [|done].
  destruct (negb (truthy tok)); mstep; [done|].
  destruct (axios _) as [[st d]|e]; mstep; done.
Qed.

Lemma getAccessToken_oauth_only w :
  ∃ new, trace (snd (PhonePe.getAccessToken E w)) = trace w ++ new
         ∧ (new = [] ∨ new = [EvOauthToken]).
Proof.
  destruct w as [os nid tok ex clk rnd tr].
  unfold PhonePe.getAccessToken. mstep.
  destruct (truthy tok && js_lt (JNum (inject_Z clk)) ex); mstep.
  { exists []. rewrite app_nil_r. auto. }
  exists [EvOauthToken]. split; [|auto].
  destruct (axios (oauth_api E)) as [[st d]|e]; mstep.
  2:{ destruct (negb (is_str (NODE_ENV E) "production")); mstep; done. }
  destruct (get_strict "access_token" d) as [a|e]; mstep.
  2:{ destruct (negb (is_str (NODE_ENV E) "production")); mstep; done. }
  destruct (negb (truthy a)); mstep.
  { destruct (negb (is_str (NODE_ENV E) "production")); mstep; done. }
  done.
Qed.

End Facts.

(** ** Callback authenticity: [verifyCallback] *)

Section VerifyCallback.
Context `{Runtime} (E : env).

(** C5. [verifyCallback] returns an invalid result, and nothing else, when
    either input is missing or when the checksum differs from
    [sha256(response + saltKey) + "###" + saltIndex]; when the checksum
    matches, the payload is base64-decoded and JSON-parsed, and a malformed
    payload ends in a thrown decode error, which is not an invalid result. *)
Theorem verifyCallback_spec (response checksum : jsval) :
  let expected :=
    sha256_hex (js_String response +:+ js_String (PhonePe.saltKey E))
    +:+ "###" +:+ js_String (PhonePe.saltIndex E) in
  (truthy response = false ∨ truthy checksum = false →
     PhonePe.verifyCallback E response checksum
     = Ret (invalid "Missing response or checksum"))
  ∧ (truthy response = true → truthy checksum = true →
     checksum ≠ JStr expected →
     PhonePe.verifyCallback E response checksum = Ret (invalid "Checksum mismatch"))
  ∧ (truthy response = true → checksum = JStr expected →
     (∀ text decoded,
        base64_utf8 response = Some text → JSON_parse text = Some decoded →
        PhonePe.verifyCallback E response checksum = Ret (valid decoded))
     ∧ (∀ text,
        base64_utf8 response = Some text → JSON_parse text = None →
        (∃ e, PhonePe.verifyCallback E response checksum = Throw e)
        ∧ ∀ reason, PhonePe.verifyCallback E response checksum ≠ Ret (invalid reason))).
Proof.
  intros expected. unfold PhonePe.verifyCallback.
  fold (PhonePe.expectedChecksum E response).
  change (PhonePe.expectedChecksum E response) with expected.
  split; [|split].
  - intros [-> | ->]; [done|]. by rewrite orb_true_r.
  - intros -> -> Hne. apply is_str_neq in Hne. cbn [negb orb]. by rewrite Hne.
  - intros -> ->.
    assert (truthy (JStr expected) = true) as ->.
    { unfold expected. simpl. destruct (sha256_hex _); done. }
    assert (is_str (JStr expected) expected = true) as -> by by apply is_str_eq.
    cbn [negb orb].
    split.
    + intros text decoded -> ->. done.
    + intros text -> ->. split; [eauto|]. intros reason; discriminate.
Qed.

End VerifyCallback.

(** A missing input, a forged checksum, a genuine notification and a truncated
    one, for the sandbox salt. *)
Lemma verifyCallback_spec_witness :
  PhonePe.verifyCallback (H := Sample.runtime) Sample.environment JUndef (JStr "abc")
  = Ret (invalid "Missing response or checksum")
  ∧ PhonePe.verifyCallback (H := Sample.runtime) Sample.environment
      (JStr Sample.callback_base64) (JStr "forged###1")
    = Ret (invalid "Checksum mismatch")
  ∧ PhonePe.verifyCallback (H := Sample.runtime) Sample.environment
      (JStr Sample.callback_base64) (JStr Sample.callback_checksum)
    = Ret (valid Sample.callback_decoded)
  ∧ ∃ e, PhonePe.verifyCallback (H := Sample.runtime) Sample.environment
           (JStr Sample.truncated_base64) (JStr Sample.truncated_checksum)
         = Throw e.
Proof.
  split; [|split; [|split]].
  - apply (verifyCallback_spec (H := Sample.runtime) Sample.environment JUndef (JStr "abc")).
    left; reflexivity.
  - apply (verifyCallback_spec (H := Sample.runtime) Sample.environment
             (JStr Sample.callback_base64) (JStr "forged###1"));
      [reflexivity | reflexivity | vm_compute; discriminate].
  - apply (verifyCallback_spec (H := Sample.runtime) Sample.environment
             (JStr Sample.callback_base64) (JStr Sample.callback_checksum))
      with (text := Sample.callback_text); vm_compute; reflexivity.
  - apply (verifyCallback_spec (H := Sample.runtime) Sample.environment
             (JStr Sample.truncated_base64) (JStr Sample.truncated_checksum))
      with (text := Sample.truncated_text); vm_compute; reflexivity.
Defined.


(** ** Reconciliation from the polling callback *)

Section PollingCallback.
Context `{Runtime} (E : env).

Lemma branch_fields_status sr now :
  props (branch_fields sr now) !! "status" = Some (JStr (mapped_status sr)).
Proof.
  unfold branch_fields, mapped_status, obj, props.
  destruct (is_str _ "COMPLETED"); [|destruct (is_str _ "FAILED")];
    cbn [foldl fst snd]; by simplify_map_eq.
Qed.

Lemma branch_fields_dom sr now :
  dom (props (branch_fields sr now)) = branch_keys sr.
Proof.
  unfold branch_fields, branch_keys, obj, props.
  destruct (is_str _ "COMPLETED"); [|destruct (is_str _ "FAILED")];
    cbn [foldl fst snd]; rewrite !dom_insert_L, dom_empty_L; set_solver.
Qed.

(** What one run of the polling callback does once the order is resolved and
    the provider has answered: one update of that order's payment object. *)
Lemma get_phonepe_callback_run mtid w o sr :
  ApiIndex.transaction_id_ok mtid = true →
  observes E mtid w o sr →
  let w' := snd (ApiIndex.get_phonepe_callback E mtid w) in
  let p' := spread (payment o) (branch_fields sr (clock w)) in
  orders w' = Store.update_where_id (o_id o) p' (JDate (clock w)) (orders w)
  ∧ ∃ before, trace w' = before ++ [EvOrderUpdate (o_id o) p'].
Proof.
  intros Hok (Hfind & moid & Hmoid & Hchk).
  destruct (PhonePe.checkPaymentStatus E moid _) as [r w1] eqn:Hrun.
  simpl in Hchk. subst r.
  pose proof (checkPaymentStatus_frame E moid
                (snd (ApiIndex.findOrderByTransactionId (JStr mtid) w))) as Hfr.
  rewrite Hrun in Hfr.
  apply find_some in Hfind as Hin. destruct Hin as [_ Hc].
  apply payment_contains_obj in Hc as [m Hm].
  pose proof (transaction_id_ok_nonempty _ Hok) as Hne.
  unfold ApiIndex.get_phonepe_callback, ApiIndex.findOrderByTransactionId in *.
  destruct w as [os nid tok ex clk rnd tr].
  mstep.
  rewrite Hne, Hok. mstep. rewrite Hfind. mstep. rewrite Hmoid. mstep. rewrite Hrun. mstep.
  destruct w1 as [os1 nid1 tok1 ex1 clk1 rnd1 tr1]. mstep.
  destruct Hfr as (-> & -> & ->).
  unfold ApiIndex.updateOrderPaymentById, branch_fields.
  rewrite Hm.
  destruct (is_str (opt_get "state" sr) "COMPLETED"); mstep.
  { destruct (List.filter _ _) as [|? [|]]; mstep; eauto. }
  destruct (is_str (opt_get "state" sr) "FAILED"); mstep.
  { destruct (List.filter _ _) as [|? [|]]; mstep; eauto. }
  destruct (List.filter _ _) as [|? [|]]; mstep; eauto.
Qed.

(** After the update, the row keyed [o_id o] carries the written object. *)
Lemma update_where_id_payment id p t os o' :
  In o' (Store.update_where_id id p t os) → o_id o' = id → payment o' = p.
Proof.
  unfold Store.update_where_id. rewrite in_map_iff.
  intros (o & <- & _) Hid.
  destruct (o_id o =? id) eqn:Heq; [done|].
  apply Z.eqb_neq in Heq. done.
Qed.

Lemma get_spread k a b :
  get k (spread a b)
  = match props b !! k with Some v => v | None => default JUndef (props a !! k) end.
Proof.
  unfold get, spread. rewrite lookup_union.
  destruct (props b !! k), (props a !! k); done.
Qed.

(** C8 (amended). A callback whose correlation id does not match the expected
    format is answered with a redirect (302) to the error page
    [payment-error?error=invalid-transaction], and nothing is looked up or
    written before that rejection: the world, trace included, is unchanged. *)
Theorem callback_rejects_malformed_id (mtid : string) (w : world) :
  ApiIndex.transaction_id_ok mtid = false →
  ApiIndex.get_phonepe_callback E mtid w
  = (Ret (Redirect (js_String (js_or (FRONTEND_URL E) (JStr "https://www.thefloo.shop"))
                    +:+ "/payment-error?error=invalid-transaction")), w).
Proof.
  intros Hbad. unfold ApiIndex.get_phonepe_callback. mstep.
  rewrite Hbad. mstep. by rewrite orb_true_r.
Qed.

(** C7 (amended). Reconciliation maps the provider state to the order status by
    a fixed table (COMPLETED to completed, FAILED to failed, anything else to
    pending) and merges into the stored payment object only that branch's
    fields: [gatewayTransactionId], [paymentMethod] and [paidAt] on
    completion, [failureReason] on failure, and [lastCheckedAt] on the
    pending branch only. *)
Theorem callback_writes_branch_fields (mtid : string) (w : world) (o : order) (sr : jsval) :
  ApiIndex.transaction_id_ok mtid = true →
  observes E mtid w o sr →
  let w' := snd (ApiIndex.get_phonepe_callback E mtid w) in
  let written := spread (payment o) (branch_fields sr (clock w)) in
  orders w' = Store.update_where_id (o_id o) written (JDate (clock w)) (orders w)
  ∧ get "status" written = JStr (mapped_status sr)
  ∧ dom (props (branch_fields sr (clock w))) = branch_keys sr
  ∧ ∀ k, k ∉ branch_keys sr → get k written = get k (payment o).
Proof.
  intros Hok Hobs w' written.
  destruct (get_phonepe_callback_run mtid w o sr Hok Hobs) as [Hos _].
  split; [exact Hos|]. split; [|split].
  - unfold written. by rewrite get_spread, branch_fields_status.
  - apply branch_fields_dom.
  - intros k Hk. unfold written. rewrite get_spread.
    rewrite <- (branch_fields_dom sr (clock w)) in Hk.
    apply not_elem_of_dom in Hk. rewrite Hk.
    destruct Hobs as (Hfind & _). apply find_some in Hfind as [_ Hc].
    apply payment_contains_obj in Hc as [m ->]. done.
Qed.

End PollingCallback.

Section PollingExamples.
Import PollingRuns.
#[local] Existing Instance Sample.runtime.

Lemma observes_order7 : observes Sample.environment "TX_1700000000000" w0 order7 reply_completed.
Proof.
  split; [reflexivity|]. exists (JStr "ORDER_A"). split; vm_compute; reflexivity.
Defined.

Lemma observes_order8 : observes Sample.environment "TX_1700000000008" w0 order8 reply_failed.
Proof.
  split; [reflexivity|]. exists (JStr "ORDER_F"). split; vm_compute; reflexivity.
Defined.

(** C8, as stated, fails: the rejection of a malformed id is a redirect. *)
Lemma malformed_id_is_redirected :
  ApiIndex.transaction_id_ok "ORDER_BUNDLE_3210" = false
  ∧ fst (callback "ORDER_BUNDLE_3210" w0)
    = Ret (Redirect "https://www.thefloo.shop/payment-error?error=invalid-transaction")
  ∧ status_of (Redirect "https://www.thefloo.shop/payment-error?error=invalid-transaction")
    = 302.
Proof. repeat split; vm_compute; reflexivity. Qed.

Lemma callback_rejects_malformed_id_witness :
  ApiIndex.transaction_id_ok "ORDER_BUNDLE_3210" = false
  ∧ callback "ORDER_BUNDLE_3210" w0
    = (Ret (Redirect "https://www.thefloo.shop/payment-error?error=invalid-transaction"), w0).
Proof.
  split; [reflexivity|].
  apply (callback_rejects_malformed_id Sample.environment "ORDER_BUNDLE_3210" w0).
  reflexivity.
Defined.

(** C7, as stated, fails: a completion does not write [lastCheckedAt]. *)
Lemma completion_leaves_lastCheckedAt_unset :
  get "status" (payment_of 7 (snd (callback "TX_1700000000000" w0))) = JStr "completed"
  ∧ get "paidAt" (payment_of 7 (snd (callback "TX_1700000000000" w0))) = JDate 1700000100000
  ∧ get "lastCheckedAt" (payment_of 7 (snd (callback "TX_1700000000000" w0))) = JUndef.
Proof. repeat split; vm_compute; reflexivity. Qed.

Lemma callback_writes_branch_fields_witness :
  ApiIndex.transaction_id_ok "TX_1700000000000" = true
  ∧ observes Sample.environment "TX_1700000000000" w0 order7 reply_completed
  ∧ orders (snd (callback "TX_1700000000000" w0))
    = Store.update_where_id 7
        (spread (payment order7) (branch_fields reply_completed 1700000100000))
        (JDate 1700000100000) [order7; order8; order9; order10].
Proof.
  split; [reflexivity|]. split; [exact observes_order7|].
  apply (callback_writes_branch_fields Sample.environment
           "TX_1700000000000" w0 order7 reply_completed);
    [reflexivity | exact observes_order7].
Defined.

End PollingExamples.

(** ** Reconciliation from the provider's POST notification *)

Section Notification.
Context `{Runtime} (E : env).

Lemma post_phonepe_callback_run body w o decoded data :
  notified body w o decoded data →
  let w' := snd (Unnamed001.post_phonepe_callback E body w) in
  match notification_fields decoded data (clock w) with
  | Some fields =>
      orders w' = Store.update_where_id (o_id o) (spread (payment o) fields)
                    (JDate (clock w)) (orders w)
      ∧ ∃ mtid, trace w' = trace w ++ [EvOrderFind mtid;
                                       EvOrderUpdate (o_id o) (spread (payment o) fields)]
  | None => orders w' = orders w ∧ ∃ mtid, trace w' = trace w ++ [EvOrderFind mtid]
  end.
Proof.
  intros (r & text & mtid & Hr & Ht & Hb & Hj & Hd & Hm & Hfind).
  unfold Unnamed001.post_phonepe_callback, Unnamed001.findOrderByTransactionId,
    Unnamed001.updateOrderPaymentById, notification_fields.
  destruct w as [os nid tok ex clk rnd tr]. mstep.
  rewrite Hr. mstep. rewrite Ht. mstep. rewrite Hb. mstep. rewrite Hj. mstep.
  rewrite Hd. mstep. rewrite Hm. mstep. rewrite Hfind. mstep.
  destruct (is_str (get "code" decoded) "PAYMENT_SUCCESS"); mstep.
  { rewrite <- app_assoc. eauto. }
  destruct (is_str (get "code" decoded) "PAYMENT_FAILED"); mstep.
  { rewrite <- app_assoc. eauto. }
  eauto.
Qed.

End Notification.

(** ** The polling callback verifies before it writes *)

Section StatusCheckFirst.
Context `{Runtime} (E : env).

Lemma checkPaymentStatus_events moid w :
  ∃ new, trace (snd (PhonePe.checkPaymentStatus E moid w)) = trace w ++ new
         ∧ existsb is_order_update new = false
         ∧ ∀ sr, fst (PhonePe.checkPaymentStatus E moid w) = Ret sr →
                 existsb is_status_check new = true.
Proof.
  unfold PhonePe.checkPaymentStatus. mstep.
  destruct (negb (truthy moid)); mstep.
  { exists []. rewrite app_nil_r. repeat split; done. }
  destruct (getAccessToken_oauth_only E w) as (new & Hnew & Hcases).
  assert (existsb is_order_update new = false) as Hno
    by (destruct Hcases as [-> | ->]; done).
  destruct (PhonePe.getAccessToken E w) as [[tok|e] w1]; mstep.
  2:{ exists new. repeat split; done. }
  destruct w1 as [os1 nid1 tok1 ex1 clk1 rnd1 tr1]. mstep. subst tr1.
  destruct (negb (truthy tok)); mstep.
  { exists new. repeat split; done. }
  exists (new ++ [EvStatusCheck (js_String moid) (js_String tok)]).
  rewrite app_assoc, !existsb_app, Hno. cbn.
  destruct (axios _) as [[st d]|e]; mstep; repeat split; try done.
  all: intros; by rewrite orb_true_r.
Qed.

(** X24. The polling callback writes an order only after an authenticated
    status check has returned: its effects contain at most one update, it is
    the last effect, and a status check precedes it. *)
Lemma polling_callback_checks_before_writing mtid w :
  ∃ new, trace (snd (ApiIndex.get_phonepe_callback E mtid w)) = trace w ++ new
    ∧ (existsb is_order_update new = false
       ∨ ∃ pre id p, new = pre ++ [EvOrderUpdate id p]
                     ∧ existsb is_order_update pre = false
                     ∧ existsb is_status_check pre = true).
Proof.
  unfold ApiIndex.get_phonepe_callback, ApiIndex.findOrderByTransactionId,
    ApiIndex.updateOrderPaymentById.
  destruct w as [os nid tok ex clk rnd tr]. mstep.
  destruct (negb (truthy (JStr mtid)) || negb (ApiIndex.transaction_id_ok mtid)); mstep.
  { exists []. rewrite app_nil_r. auto. }
  destruct (List.find _ os) as [o|]; mstep.
  2:{ exists [EvOrderFind (JStr mtid)]. auto. }
  destruct (get_strict "merchantOrderId" (payment o)) as [moid|e]; mstep.
  2:{ exists [EvOrderFind (JStr mtid)]. auto. }
  match goal with |- context [PhonePe.checkPaymentStatus E moid ?w] =>
    destruct (checkPaymentStatus_events moid w) as (new & Hnew & Hno & Hchk);
    destruct (PhonePe.checkPaymentStatus E moid w) as [[sr|e] w1]
  end; mstep.
  2:{ exists (EvOrderFind (JStr mtid) :: new). rewrite Hnew, <- app_assoc. split; [done|].
      left. done. }
  specialize (Hchk sr eq_refl).
  destruct w1 as [os1 nid1 tok1 ex1 clk1 rnd1 tr1]. mstep. subst tr1.
  assert (∀ id p, ∃ new0,
             ((tr ++ [EvOrderFind (JStr mtid)]) ++ new) ++ [EvOrderUpdate id p] = tr ++ new0
             ∧ (existsb is_order_update new0 = false
                ∨ ∃ pre id' p', new0 = pre ++ [EvOrderUpdate id' p']
                    ∧ existsb is_order_update pre = false
                    ∧ existsb is_status_check pre = true)) as Hend.
  { intros id p. exists ((EvOrderFind (JStr mtid) :: new) ++ [EvOrderUpdate id p]).
    split; [by rewrite <- !app_assoc|]. right.
    exists (EvOrderFind (JStr mtid) :: new), id, p. repeat split; done. }
  destruct (is_str (opt_get "state" sr) "COMPLETED"); mstep.
  { destruct (List.filter _ _) as [|? [|]]; mstep; apply Hend. }
  destruct (is_str (opt_get "state" sr) "FAILED"); mstep.
  { destruct (List.filter _ _) as [|? [|]]; mstep; apply Hend. }
  destruct (List.filter _ _) as [|? [|]]; mstep; apply Hend.
Qed.

End StatusCheckFirst.

(** ** Monotonicity, idempotence and authenticity of reconciliation *)

Section Reconciliation.
Context `{Runtime} (E : env).

(** C2 (amended). For an order whose [payment.status] is completed, a later
    reconciliation sets the status from the provider status it observes: the
    polling callback writes completed for COMPLETED, failed for FAILED and
    pending for any other state; the POST notification writes completed for
    PAYMENT_SUCCESS, failed for PAYMENT_FAILED and nothing for any other
    code.  The status stays completed only in the cases that write
    completed or nothing. *)
Theorem completed_status_follows_observation :
  (∀ mtid w o sr,
     ApiIndex.transaction_id_ok mtid = true →
     observes E mtid w o sr →
     get "status" (payment o) = JStr "completed" →
     ∀ o', In o' (orders (snd (ApiIndex.get_phonepe_callback E mtid w))) →
           o_id o' = o_id o →
           get "status" (payment o') = JStr (mapped_status sr))
  ∧ (∀ body w o decoded data,
     notified body w o decoded data →
     get "status" (payment o) = JStr "completed" →
     let w' := snd (Unnamed001.post_phonepe_callback E body w) in
     if is_str (get "code" decoded) "PAYMENT_SUCCESS" then
       ∀ o', In o' (orders w') → o_id o' = o_id o →
             get "status" (payment o') = JStr "completed"
     else if is_str (get "code" decoded) "PAYMENT_FAILED" then
       ∀ o', In o' (orders w') → o_id o' = o_id o →
             get "status" (payment o') = JStr "failed"
     else orders w' = orders w).
Proof.
  split.
  - intros mtid w o sr Hok Hobs _ o' Hin Hid.
    destruct (get_phonepe_callback_run E mtid w o sr Hok Hobs) as [Hos _].
    rewrite Hos in Hin.
    rewrite (update_where_id_payment _ _ _ _ _ Hin Hid).
    by rewrite get_spread, branch_fields_status.
  - intros body w o decoded data Hn _ w'.
    pose proof (post_phonepe_callback_run E body w o decoded data Hn) as Hrun.
    unfold notification_fields in Hrun. fold w' in Hrun.
    destruct (is_str (get "code" decoded) "PAYMENT_SUCCESS").
    { destruct Hrun as [Hos _]. intros o' Hin Hid. rewrite Hos in Hin.
      rewrite (update_where_id_payment _ _ _ _ _ Hin Hid).
      rewrite get_spread. unfold obj, props. cbn [foldl fst snd]. by simplify_map_eq. }
    destruct (is_str (get "code" decoded) "PAYMENT_FAILED").
    { destruct Hrun as [Hos _]. intros o' Hin Hid. rewrite Hos in Hin.
      rewrite (update_where_id_payment _ _ _ _ _ Hin Hid).
      rewrite get_spread. unfold obj, props. cbn [foldl fst snd]. by simplify_map_eq. }
    by destruct Hrun.
Qed.

(** Every completion stamps [paidAt] with the time of that run, whatever the
    stored payment object already says. *)
Lemma completion_stamps_the_clock mtid w o sr :
  ApiIndex.transaction_id_ok mtid = true →
  observes E mtid w o sr →
  is_str (opt_get "state" sr) "COMPLETED" = true →
  ∀ o', In o' (orders (snd (ApiIndex.get_phonepe_callback E mtid w))) →
        o_id o' = o_id o →
        get "paidAt" (payment o') = JDate (clock w).
Proof.
  intros Hok Hobs Hstate o' Hin Hid.
  destruct (get_phonepe_callback_run E mtid w o sr Hok Hobs) as [Hos _].
  rewrite Hos in Hin.
  rewrite (update_where_id_payment _ _ _ _ _ Hin Hid), get_spread.
  unfold branch_fields. rewrite Hstate.
  unfold obj, props. cbn [foldl fst snd]. by simplify_map_eq.
Qed.

End Reconciliation.

Section ReconciliationExamples.
Import PollingRuns.
#[local] Existing Instance Sample.runtime.

(** C2, as stated, fails: a completed order is set to failed, or to pending. *)
Lemma completed_order_is_downgraded :
  get "status" (payment order8) = JStr "completed"
  ∧ get "status" (payment_of 8 (snd (callback "TX_1700000000008" w0))) = JStr "failed"
  ∧ get "status" (payment order9) = JStr "completed"
  ∧ get "status" (payment_of 9 (snd (callback "TX_1700000000009" w0))) = JStr "pending".
Proof. repeat split; vm_compute; reflexivity. Qed.

Lemma completed_status_follows_observation_witness :
  ApiIndex.transaction_id_ok "TX_1700000000008" = true
  ∧ observes Sample.environment "TX_1700000000008" w0 order8 reply_failed
  ∧ get "status" (payment order8) = JStr "completed"
  ∧ ∀ o', In o' (orders (snd (callback "TX_1700000000008" w0))) →
          o_id o' = 8 → get "status" (payment o') = JStr "failed".
Proof.
  split; [reflexivity|]. split; [exact observes_order8|]. split; [reflexivity|].
  apply (proj1 (completed_status_follows_observation Sample.environment)
           "TX_1700000000008" w0 order8 reply_failed);
    [reflexivity | exact observes_order8 | reflexivity].
Defined.

(** C3: the same terminal status reconciled twice, one hundred seconds apart.
    The second run moves [paidAt] (and [updated_at]) to its own time, on the
    polling callback and on the POST notification alike. *)
Theorem repeated_completion_moves_paidAt :
  let once := snd (callback "TX_1700000000000" w0) in
  let twice := snd (callback "TX_1700000000000" (at_time 1700000200000 once)) in
  let body := obj [("response", JStr Sample.callback_base64)] in
  let once' := snd (notify body w0) in
  let twice' := snd (notify body (at_time 1700000200000 once')) in
  (get "status" (payment_of 7 once) = JStr "completed"
   ∧ get "paidAt" (payment_of 7 once) = JDate 1700000100000
   ∧ get "status" (payment_of 7 twice) = JStr "completed"
   ∧ get "paidAt" (payment_of 7 twice) = JDate 1700000200000)
  ∧ (get "status" (payment_of 7 once') = JStr "completed"
     ∧ get "paidAt" (payment_of 7 once') = JDate 1700000100000
     ∧ get "status" (payment_of 7 twice') = JStr "completed"
     ∧ get "paidAt" (payment_of 7 twice') = JDate 1700000200000).
Proof. repeat split; vm_compute; reflexivity. Qed.

(** C1: a notification that carries no checksum and that nobody verified, for
    an order the provider still reports as pending.  The handler writes the
    reported status: the only effects are the lookup and the update, no status
    check is made, and the order ends up completed. *)
Theorem unverified_notification_is_written :
  let body := obj [("response", JStr Sample.forged_base64)] in
  let w' := snd (notify body w0) in
  status_api Sample.environment "ORDER_Q" = Reply 200 (obj [("state", JStr "PENDING")])
  ∧ get "status" (payment order10) = JStr "pending"
  ∧ fst (notify body w0)
    = Redirect "https://www.thefloo.shop/payment-success?orderId=10"
  ∧ List.map is_order_update (trace w') = [false; true]
  ∧ existsb is_status_check (trace w') = false
  ∧ get "status" (payment_of 10 w') = JStr "completed"
  ∧ get "gatewayTransactionId" (payment_of 10 w') = JStr "FORGED".
Proof. repeat split; vm_compute; reflexivity. Qed.

End ReconciliationExamples.

(** ** Download authorization and the storage root *)

Section Downloads.
Context `{Runtime} (E : env).

(** C9. On the direct-streaming route every file the handler touches, and the
    file it streams, lies inside the storage root [PRODUCTS_FOLDER]; a
    resolved path outside the root is refused (400) before the disk is
    consulted. *)
Theorem streaming_download_stays_in_root (productId : string) (transactionId : jsval) (w : world) :
  let run := ApiIndex.get_downloads E productId transactionId w in
  (∃ new, trace (snd run) = trace w ++ new ∧ Forall (file_access_inside E) new)
  ∧ match fst run with
    | Ret (File p _) => ApiIndex.insideProductsFolder E p = true
    | Ret _ => True
    | Throw _ => False
    end
  ∧ ∀ raw,
      authorized_for E productId transactionId w raw →
      ApiIndex.insideProductsFolder E (ApiIndex.absolutePath E raw) = false →
      fst run = Ret (ApiIndex.json_fail 400 "Invalid file path")
      ∧ trace (snd run)
        = trace w ++ [EvOrderFind (JStr (js_String transactionId)); EvProductFind productId].
Proof.
  unfold ApiIndex.get_downloads, ApiIndex.findOrderByTransactionId, ApiIndex.findProduct.
  destruct w as [os nid tok ex clk rnd tr]. mstep.
  match goal with
  | |- ?A ∧ ?B ∧ ?C => cut ((A ∧ B) ∧ C); [intros [[? ?] ?]; auto|]
  end.
  split.
  - destruct (negb (truthy (JStr productId))); mstep.
    { split; [exists []; by rewrite app_nil_r|done]. }
    destruct (negb (truthy transactionId)); mstep.
    { split; [exists []; by rewrite app_nil_r|done]. }
    destruct (List.find _ os) as [o|]; mstep.
    2:{ split; [eexists; split; [reflexivity|]|done]. repeat constructor. }
    destruct (_ || _); mstep.
    { split; [eexists; split; [reflexivity|]|done]. repeat constructor. }
    destruct (negb (ApiIndex.productIncluded productId o)); mstep.
    { split; [eexists; split; [reflexivity|]|done]. repeat constructor. }
    destruct (List.find _ (products E)) as [product|]; mstep.
    2:{ split; [eexists; split; [by rewrite <- app_assoc|]|done]. repeat constructor. }
    destruct (negb (truthy _)); mstep.
    { split; [eexists; split; [by rewrite <- app_assoc|]|done]. repeat constructor. }
    destruct (js_or (get "file_name" product) _) as [| | | | |raw| | |]; mstep;
      try (split; [eexists; split; [by rewrite <- app_assoc|]|done]; repeat constructor).
    destruct (ApiIndex.insideProductsFolder E (ApiIndex.absolutePath E raw)) eqn:Hin; mstep.
    2:{ split; [eexists; split; [by rewrite <- app_assoc|]|done]. repeat constructor. }
    destruct (negb (fs_exists E _)); mstep.
    { split; [eexists; split; [by rewrite <- !app_assoc|]|done]. repeat constructor. done. }
    destruct (js_or (get "name" product) _); mstep;
      (split; [eexists; split; [by rewrite <- !app_assoc|]|done]; repeat constructor; done).
  - intros raw (Hp & Ht & o & product & Hfind & Hts & Hst & Hincl & Hprod & Hraw & Hrt) Hout.
    apply find_some in Hfind as Hin. destruct Hin as [_ Hc].
    apply payment_contains_obj in Hc as [m Hm].
    rewrite Hp, Ht. mstep. rewrite Hfind. mstep.
    assert (js_or (payment o) (obj []) = payment o) as -> by by rewrite Hm.
    rewrite Hst, Hts, Hincl. mstep. rewrite Hprod. mstep.
    unfold rawFilename_of in Hraw. rewrite Hraw, Hrt. mstep. rewrite Hout. mstep.
    by rewrite <- app_assoc.
Qed.


End Downloads.

Section DownloadExamples.
Import DownloadRuns.
#[local] Existing Instance Sample.runtime.



(** With the storage root at [/], [path.resolve("/") + path.sep] is [//] and
    no resolved path passes the guard: the request is refused and the disk is
    not touched. *)
Lemma streaming_download_stays_in_root_witness :
  authorized_for (Sample.environment_at "/") "P1" (JStr "TX_1700000000013") shop "guide.pdf"
  ∧ ApiIndex.insideProductsFolder (Sample.environment_at "/") "/guide.pdf" = false
  ∧ fst (downloads "/" "P1" "TX_1700000000013")
    = Ret (ApiIndex.json_fail 400 "Invalid file path")
  ∧ trace (snd (downloads "/" "P1" "TX_1700000000013"))
    = [EvOrderFind (JStr "TX_1700000000013"); EvProductFind "P1"].
Proof.
  assert (authorized_for (Sample.environment_at "/") "P1" (JStr "TX_1700000000013")
            shop "guide.pdf") as Hauth.
  { split; [reflexivity|]. split; [reflexivity|].
    exists order13, Sample.guide.
    repeat split; vm_compute; reflexivity. }
  split; [exact Hauth|]. split; [vm_compute; reflexivity|].
  destruct (streaming_download_stays_in_root (Sample.environment_at "/")
              "P1" (JStr "TX_1700000000013") shop) as (_ & _ & Hrefused).
  apply (Hrefused "guide.pdf"); [exact Hauth | vm_compute; reflexivity].
Defined.

(** The same request with the root at [/srv/products] is served from inside it. *)
Lemma streaming_download_example :
  fst (downloads "/srv/products" "P1" "TX_1700000000013")
  = Ret (File "/srv/products/guide.pdf" "Guide.pdf")
  ∧ trace (snd (downloads "/srv/products" "P1" "TX_1700000000013"))
    = [EvOrderFind (JStr "TX_1700000000013"); EvProductFind "P1";
       EvFsExists "/srv/products/guide.pdf"; EvFsRead "/srv/products/guide.pdf"].
Proof. split; vm_compute; reflexivity. Qed.

End DownloadExamples.

(** ** Payment initiation *)

Section Initiation.
Context `{Runtime} (E : env).

Lemma initiatePayment_run pd w :
  let run := PhonePe.initiatePayment E pd w in
  orders (snd run) = orders w ∧ next_id (snd run) = next_id w ∧ clock (snd run) = clock w
  ∧ ∃ r, fst run = Ret r
      ∧ (truthy (js_and (get "success" r) (get "paymentUrl" r)) = true →
         ∃ before tok, trace (snd run) = trace w ++ before ++ [EvPay (payload_of E pd) tok]
                       ∧ existsb is_pay before = false)
      ∧ (truthy (js_and (get "success" r) (get "paymentUrl" r)) = false →
         get "success" r = JBool false).
Proof.
  unfold PhonePe.initiatePayment, payload_of.
  pose proof (getAccessToken_frame E w) as Hfr.
  destruct (getAccessToken_oauth_only E w) as (new & Hnew & Hcases).
  destruct w as [os nid tok0 ex clk rnd tr]. mstep.
  destruct (PhonePe.validatePaymentData _ _ _) as [[]|e]; mstep.
  2:{ repeat split; try done. eexists. split; [reflexivity|]. split; intros Hs; vm_compute in Hs; done. }
  destruct (PhonePe.getAccessToken E _) as [[tok|e] w1]; mstep.
  2:{ repeat split; try tauto. eexists. split; [reflexivity|]. split; intros Hs; vm_compute in Hs; done. }
  destruct Hfr as (Ho & Hc & Hn).
  destruct (negb (truthy tok)); mstep.
  { repeat split; try tauto. eexists. split; [reflexivity|]. split; intros Hs; vm_compute in Hs; done. }
  destruct w1 as [os1 nid1 tok1 ex1 clk1 rnd1 tr1]. mstep. subst.
  destruct (axios _) as [[st d]|e]; mstep.
  2:{ repeat split; try tauto. eexists. split; [reflexivity|]. split; intros Hs; vm_compute in Hs; done. }
  destruct ((st =? 200) && truthy (opt_get "redirectUrl" d)) eqn:Hok; mstep.
  2:{ repeat split; try tauto. eexists. split; [reflexivity|]. split; intros Hs; vm_compute in Hs; done. }
  repeat split; try done. eexists. split; [reflexivity|]. split.
  - intros _. exists new, (js_String tok). rewrite <- app_assoc. split; [done|].
    destruct Hcases as [-> | ->]; done.
  - intros Hs. exfalso.
    apply andb_prop in Hok as [_ Hurl].
    unfold opt_get in Hurl. destruct (nullish d); [done|].
    unfold js_and, obj, get in Hs. cbn [foldl fst snd] in Hs.
    simplify_map_eq. cbn [default truthy] in Hs. unfold get in Hurl.
    destruct d; cbn in Hurl, Hs; congruence.
Qed.



End Initiation.

(** ** Total validation: the middleware, and the route that does not use it *)

Section TotalValidation.
Context `{Runtime}.

Lemma check_items_ok_or_400 l r :
  Security.check_items l = Ret (Some r) → status_of r = 400.
Proof.
  induction l as [|item rest IH]; [done|]. cbn [Security.check_items].
  destruct (nullish item); [done|].
  destruct (_ || _); [by intros [= <-]|].
  destruct (_ || _); [by intros [= <-]|]. done.
Qed.

(** The middleware does what the specification asks of order creation: a
    request whose items sum to [s] and whose total [t] is more than 0.01 away
    is never passed on; it is answered 400. *)
Lemma validatePaymentRequest_rejects_mismatch body l s t r :
  get "orderItems" body = JArr l →
  Security.calculatedTotal l = Some s →
  get "totalAmount" body = JNum t →
  (1 # 100 < Qabs (s - t))%Q →
  Security.validatePaymentRequest body = Ret r →
  status_of r = 400.
Proof.
  intros Hitems Hsum Htotal Hfar.
  unfold Security.validatePaymentRequest. rewrite Hitems, Htotal.
  unfold mbind, outcome_mbind.
  destruct (get_strict "customerName" body) as [name|e]; [|done].
  destruct (_ || _); [by intros [= <-]|].
  destruct (_ || _); [by intros [= <-]|].
  destruct l as [|i l']; [by intros [= <-]|].
  destruct (_ || _); [by intros [= <-]|].
  destruct (_ || _); [by intros [= <-]|].
  destruct (Security.check_items (i :: l')) as [[r'|]|e] eqn:Hchk.
  - intros [= <-]. by eapply check_items_ok_or_400.
  - rewrite Hsum. cbn [to_number num_sub num_abs num_gt num_lt].
    destruct (Qle_bool (Qabs (s - t)) (1 # 100)) eqn:Hle.
    + apply Qle_bool_iff in Hle. exfalso. by eapply Qlt_not_le.
    + by intros [= <-].
  - done.
Qed.

End TotalValidation.

Section CreateExamples.
Import CreateRuns.
#[local] Existing Instance Sample.runtime.


(** Rounding to paise: 499.99 rupees are 49999 paise, 0.125 rupees are 13. *)
Lemma paise_examples :
  paid_amount (trace (snd (create (checkout (49999 # 100))))) = [JNum 49999]
  ∧ paid_amount (trace (snd (create (checkout (1 # 8))))) = [JNum 13].
Proof. split; vm_compute; reflexivity. Qed.

(** C6: the cart sums to 1000 and the request declares a total of 1.  The
    middleware would answer 400; the route, which does not mount it, stores
    the order with total 1 and asks the provider for 100 paise. *)
Theorem mismatched_total_is_persisted :
  Security.calculatedTotal cart = Some 1000%Q
  ∧ Security.validatePaymentRequest (checkout 1) = Ret (Security.bad "Total amount mismatch")
  ∧ fst (create (checkout 1)) = Ret created
  ∧ List.map total_amount (orders (snd (create (checkout 1)))) = [JNum 1]
  ∧ List.map (λ o, get "status" (payment o)) (orders (snd (create (checkout 1))))
    = [JStr "pending"]
  ∧ paid_amount (trace (snd (create (checkout 1)))) = [JNum 100].
Proof. repeat split; vm_compute; reflexivity. Qed.

End CreateExamples.

(** ** The gateway client's credential cache *)

Section TokenCache.
Context `{Runtime} (E : env).

Lemma Qle_bool_false x y : Qle_bool x y = false ↔ (y < x)%Q.
Proof.
  split.
  - intros Hf. apply Qnot_le_lt. intros Hle. apply Qle_bool_iff in Hle. congruence.
  - intros Hlt. destruct (Qle_bool x y) eqn:Hle; [|done].
    apply Qle_bool_iff in Hle. exfalso. by eapply Qlt_not_le.
Qed.

(** X1. A credential obtained from the exchange is cached together with an
    expiry five minutes (300 s) short of the lifetime the provider granted:
    until that moment [getAccessToken] answers from the cache without any
    request, and from that moment on it asks the provider again. *)
Theorem token_is_reused_until_early_refresh (w : world) (st : Z) (d tok : jsval) (n : Q) :
  fresh w = false →
  oauth_api E = Reply st d → 200 ≤ st < 300 →
  get_strict "access_token" d = Ret tok → truthy tok = true →
  get "expires_in" d = JNum n →
  let expiry := (inject_Z (clock w) + (n - 300) * 1000)%Q in
  let w1 := snd (PhonePe.getAccessToken E w) in
  fst (PhonePe.getAccessToken E w) = Ret tok
  ∧ accessToken w1 = tok ∧ tokenExpiry w1 = JNum expiry
  ∧ trace w1 = trace w ++ [EvOauthToken]
  ∧ (∀ t, (inject_Z t < expiry)%Q →
          PhonePe.getAccessToken E (at_time t w1) = (Ret tok, at_time t w1))
  ∧ (∀ t, (expiry <= inject_Z t)%Q →
          trace (snd (PhonePe.getAccessToken E (at_time t w1)))
          = trace w1 ++ [EvOauthToken]).
Proof.
  intros Hstale Hapi Hst Hget Htok Hn expiry w1.
  assert (axios (oauth_api E) = Ret (st, d)) as Hax.
  { rewrite Hapi. unfold axios.
    assert ((200 <=? st) = true) as -> by lia. assert ((st <? 300) = true) as -> by lia. done. }
  assert (PhonePe.getAccessToken E w
          = (Ret tok, World (orders w) (next_id w) tok (JNum expiry) (clock w) (random4 w)
                            (trace w ++ [EvOauthToken]))) as Hrun.
  { unfold fresh in Hstale. unfold PhonePe.getAccessToken.
    destruct w as [os nid tok0 ex clk rnd tr]. mstep.
    rewrite Hstale. mstep. rewrite Hax. mstep. rewrite Hget. mstep. rewrite Htok. mstep.
    rewrite Hn. done. }
  unfold w1. rewrite Hrun. cbn [fst snd accessToken tokenExpiry trace].
  repeat split.
  - intros t Ht. unfold PhonePe.getAccessToken, at_time. mstep.
    rewrite Htok. cbn [js_lt to_number num_lt andb].
    apply Qle_bool_false in Ht. rewrite Ht. done.
  - intros t Ht. unfold PhonePe.getAccessToken, at_time. mstep.
    rewrite Htok. cbn [js_lt to_number num_lt andb].
    apply Qle_bool_iff in Ht. rewrite Ht. mstep.
    rewrite Hax. mstep. rewrite Hget. mstep. rewrite Htok. mstep. done.
Qed.

(** X2. In production [getAccessToken] returns a usable credential or
    throws; outside production it never throws and answers [null] when the
    exchange fails.  A call that does not end with a usable credential leaves
    the cached one as it was. *)
Theorem token_exchange_failures (w : world) :
  let run := PhonePe.getAccessToken E w in
  match fst run with
  | Ret tok =>
      truthy tok = true
      ∨ (tok = JNull ∧ is_str (NODE_ENV E) "production" = false
         ∧ accessToken (snd run) = accessToken w
         ∧ tokenExpiry (snd run) = tokenExpiry w)
  | Throw _ =>
      is_str (NODE_ENV E) "production" = true
      ∧ accessToken (snd run) = accessToken w
      ∧ tokenExpiry (snd run) = tokenExpiry w
  end.
Proof.
  unfold PhonePe.getAccessToken.
  destruct w as [os nid tok0 ex clk rnd tr]. mstep.
  destruct (truthy tok0 && js_lt (JNum (inject_Z clk)) ex) eqn:Hfresh; mstep.
  { left. by apply andb_prop in Hfresh as [? _]. }
  destruct (axios (oauth_api E)) as [[st d]|e]; mstep.
  2:{ destruct (is_str (NODE_ENV E) "production"); mstep; auto. }
  destruct (get_strict "access_token" d) as [a|e]; mstep.
  2:{ destruct (is_str (NODE_ENV E) "production"); mstep; auto. }
  destruct (truthy a) eqn:Ha; mstep; [by left|].
  destruct (is_str (NODE_ENV E) "production"); mstep; auto.
Qed.

End TokenCache.

Section TokenCacheExamples.
#[local] Existing Instance Sample.runtime.

Lemma token_is_reused_until_early_refresh_witness :
  fst (PhonePe.getAccessToken Sample.environment (Sample.world_with [] 1700000000000))
  = Ret (JStr "tok-1")
  ∧ tokenExpiry (snd (PhonePe.getAccessToken Sample.environment
                        (Sample.world_with [] 1700000000000)))
    = JNum (inject_Z 1700000000000 + (3600 - 300) * 1000)
  ∧ fst (PhonePe.getAccessToken Sample.environment
           (at_time 1700003299999
              (snd (PhonePe.getAccessToken Sample.environment
                      (Sample.world_with [] 1700000000000)))))
    = Ret (JStr "tok-1")
  ∧ trace (snd (PhonePe.getAccessToken Sample.environment
                  (at_time 1700003299999
                     (snd (PhonePe.getAccessToken Sample.environment
                             (Sample.world_with [] 1700000000000))))))
    = [EvOauthToken]
  ∧ trace (snd (PhonePe.getAccessToken Sample.environment
                  (at_time 1700003300000
                     (snd (PhonePe.getAccessToken Sample.environment
                             (Sample.world_with [] 1700000000000))))))
    = [EvOauthToken; EvOauthToken].
Proof.
  destruct (token_is_reused_until_early_refresh Sample.environment
              (Sample.world_with [] 1700000000000) 200
              (obj [("access_token", JStr "tok-1"); ("expires_in", JNum 3600)])
              (JStr "tok-1") 3600)
    as (Hfst & _ & Hexp & Htr & Hhit & Hmiss);
    [reflexivity | reflexivity | lia | reflexivity | reflexivity | reflexivity |].
  split; [exact Hfst|]. split; [exact Hexp|].
  pose proof (Hhit 1700003299999 ltac:(vm_compute; reflexivity)) as Hh.
  pose proof (Hmiss 1700003300000 ltac:(vm_compute; discriminate)) as Hm.
  rewrite Hh, Hm, Htr. repeat split.
Defined.

End TokenCacheExamples.

(** ** Payment initiation and status checks: what reaches the caller *)

Section ServiceErrors.
Context `{Runtime} (E : env).

Lemma truthy_js_or a b : truthy (js_or a b) = truthy a || truthy b.
Proof. unfold js_or. destruct (truthy a) eqn:Ha; [by rewrite Ha|done]. Qed.

Lemma getErrorMessage_truthy e : truthy (PhonePe.getErrorMessage e) = true.
Proof.
  unfold PhonePe.getErrorMessage. rewrite !truthy_js_or.
  cbn [truthy String.eqb negb]. by rewrite !orb_true_r.
Qed.

Lemma failed_shape e :
  get "success" (failed e) = JBool false
  ∧ get "error" (failed e) = PhonePe.getErrorMessage e
  ∧ get "paymentUrl" (failed e) = JUndef.
Proof. unfold failed, obj, get. cbn [foldl fst snd]. repeat split; by simplify_map_eq. Qed.

(** Every way [initiatePayment] can end. *)
Lemma initiatePayment_result pd w :
  let run := PhonePe.initiatePayment E pd w in
  orders (snd run) = orders w ∧ next_id (snd run) = next_id w ∧ clock (snd run) = clock w
  ∧ ∃ r, fst run = Ret r
      ∧ ((get "success" r = JBool true
          ∧ truthy (get "paymentUrl" r) = true
          ∧ get "merchantTransactionId" r = get "merchantTransactionId" pd
          ∧ get "merchantOrderId" r = get "merchantOrderId" pd)
         ∨ (get "success" r = JBool false ∧ truthy (get "error" r) = true
            ∧ get "paymentUrl" r = JUndef)).
Proof.
  assert (∀ e, get "success" (failed e) = JBool false
               ∧ truthy (get "error" (failed e)) = true
               ∧ get "paymentUrl" (failed e) = JUndef) as Hfailed.
  { intros e. destruct (failed_shape e) as (-> & -> & ->). by rewrite getErrorMessage_truthy. }
  unfold PhonePe.initiatePayment.
  pose proof (getAccessToken_frame E w) as Hfr.
  destruct w as [os nid tok0 ex clk rnd tr]. mstep.
  destruct (PhonePe.validatePaymentData _ _ _) as [[]|e]; mstep.
  2:{ repeat split; try done. eexists. split; [reflexivity|]. right. apply Hfailed. }
  destruct (PhonePe.getAccessToken E _) as [[tok|e] w1]; mstep.
  2:{ repeat split; try tauto. eexists. split; [reflexivity|]. right. apply Hfailed. }
  destruct Hfr as (Ho & Hc & Hn).
  destruct (negb (truthy tok)); mstep.
  { repeat split; try done. eexists. split; [reflexivity|]. right. apply Hfailed. }
  destruct w1 as [os1 nid1 tok1 ex1 clk1 rnd1 tr1]. mstep. subst os1 nid1 clk1.
  destruct (axios _) as [[st d]|e]; mstep.
  2:{ repeat split; try done. eexists. split; [reflexivity|]. right. apply Hfailed. }
  destruct ((st =? 200) && truthy (opt_get "redirectUrl" d)) eqn:Hok; mstep.
  2:{ repeat split; try done. eexists. split; [reflexivity|]. right. apply Hfailed. }
  repeat split; try done. eexists. split; [reflexivity|]. left.
  apply andb_prop in Hok as [_ Hurl].
  unfold opt_get in Hurl. destruct (nullish d); [done|].
  unfold obj, get at 1 2 3 4. cbn [foldl fst snd]. simplify_map_eq. done.
Qed.

(** X3. No exception crosses [initiatePayment]: it always returns an object,
    either [success: true] with the provider's redirect URL and the ids it
    was given, or [success: false] with a non-empty error message; and it
    never touches the order table. *)
Theorem initiatePayment_never_throws (paymentData : jsval) (w : world) :
  ∃ r, fst (PhonePe.initiatePayment E paymentData w) = Ret r
    ∧ orders (snd (PhonePe.initiatePayment E paymentData w)) = orders w
    ∧ ((get "success" r = JBool true
        ∧ truthy (get "paymentUrl" r) = true
        ∧ get "merchantTransactionId" r = get "merchantTransactionId" paymentData
        ∧ get "merchantOrderId" r = get "merchantOrderId" paymentData)
       ∨ (get "success" r = JBool false ∧ truthy (get "error" r) = true)).
Proof.
  destruct (initiatePayment_result paymentData w) as (Ho & _ & _ & r & Hr & Hcases).
  exists r. split; [exact Hr|]. split; [exact Ho|].
  destruct Hcases as [Hok | (Hs & He & _)]; [by left|by right].
Qed.

(** X4. Payment data that fails [validatePaymentData] is reported as
    [success: false] with the validation message, and nothing at all has
    happened: no credential exchange, no pay request, the world is as before. *)
Theorem invalid_payment_data_sends_nothing (paymentData : jsval) (w : world) :
  let amount := get "amount" paymentData in
  let phone := get "customerPhone" paymentData in
  let name := get "customerName" paymentData in
  let refused message :=
    PhonePe.initiatePayment E paymentData w = (Ret (failed (Error (JStr message))), w) in
  (truthy amount = false ∨ js_le amount (JNum 0) = true → refused "Invalid amount")
  ∧ (truthy amount = true → js_le amount (JNum 0) = false →
     truthy phone = false ∨ js_lt (get "length" phone) (JNum 10) = true →
     refused "Invalid phone number")
  ∧ (truthy amount = true → js_le amount (JNum 0) = false →
     truthy phone = true → js_lt (get "length" phone) (JNum 10) = false →
     name = JUndef ∨ name = JNull ∨ (∃ s, name = JStr s ∧ trim s = "") →
     refused "Customer name required").
Proof.
  intros amount phone name refused. unfold refused, PhonePe.initiatePayment.
  fold amount phone name. unfold PhonePe.validatePaymentData.
  destruct w as [os nid tok0 ex clk rnd tr].
  split; [|split].
  - intros Ha. mstep.
    assert (negb (truthy amount) || js_le amount (JNum 0) = true) as ->.
    { destruct Ha as [-> | ->]; [done|by rewrite orb_true_r]. }
    mstep. done.
  - intros Ha Hpos Hp. mstep. rewrite Ha, Hpos. mstep.
    assert (negb (truthy phone) || js_lt (get "length" phone) (JNum 10) = true) as ->.
    { destruct Hp as [-> | ->]; [done|by rewrite orb_true_r]. }
    mstep. done.
  - intros Ha Hpos Hp Hlen Hn. mstep. rewrite Ha, Hpos, Hp, Hlen. mstep.
    destruct Hn as [-> | [-> | (s & -> & Hs)]]; mstep; [done..|].
    rewrite Hs. mstep. done.
Qed.

(** X5. Without a credential there is no pay request: when [getAccessToken]
    answers [null] (a failed exchange outside production), [initiatePayment]
    reports that an access token is required, and its only effect is that of
    the credential exchange. *)
Theorem no_token_no_payment (paymentData : jsval) (w : world) (tok : jsval) :
  PhonePe.validatePaymentData (get "amount" paymentData)
    (get "customerPhone" paymentData) (get "customerName" paymentData) = Ret tt →
  fst (PhonePe.getAccessToken E w) = Ret tok → truthy tok = false →
  PhonePe.initiatePayment E paymentData w
  = (Ret (failed (Error (JStr "Access token required for PhonePe v2 payment"))),
     snd (PhonePe.getAccessToken E w))
  ∧ existsb is_pay (trace (snd (PhonePe.initiatePayment E paymentData w)))
    = existsb is_pay (trace w).
Proof.
  intros Hvalid Htok Hfalsy.
  destruct (getAccessToken_oauth_only E w) as (new & Hnew & Hcases).
  unfold PhonePe.initiatePayment.
  destruct w as [os nid tok0 ex clk rnd tr]. mstep.
  rewrite Hvalid. mstep.
  destruct (PhonePe.getAccessToken E _) as [[tok'|e] w1]; [|done].
  simpl in Htok. injection Htok as ->. mstep. rewrite Hfalsy. mstep.
  split; [done|].
  rewrite Hnew, existsb_app. destruct Hcases as [-> | ->]; cbn; by rewrite ?orb_false_r.
Qed.

Lemma axios_throws r e :
  axios r = Throw e →
  err_response e = None ∨ ∃ st d, r = Reply st d ∧ err_response e = Some (st, d).
Proof.
  destruct r as [st d|msg]; cbn.
  - destruct ((200 <=? st) && (st <? 300)); [done|]. intros [= <-]. right. eauto.
  - intros [= <-]. by left.
Qed.

Lemma getAccessToken_throws w e :
  fst (PhonePe.getAccessToken E w) = Throw e →
  err_response e = None
  ∨ ∃ st d, oauth_api E = Reply st d ∧ err_response e = Some (st, d).
Proof.
  unfold PhonePe.getAccessToken.
  destruct w as [os nid tok0 ex clk rnd tr]. mstep.
  destruct (truthy tok0 && js_lt (JNum (inject_Z clk)) ex); mstep; [done|].
  destruct (axios (oauth_api E)) as [[st d]|e0] eqn:Hax; mstep.
  2:{ destruct (is_str (NODE_ENV E) "production"); mstep; [|done].
      intros [= <-]. by apply axios_throws. }
  destruct (get_strict "access_token" d) as [a|e0] eqn:Hget; mstep.
  2:{ destruct (is_str (NODE_ENV E) "production"); mstep; [|done].
      intros [= <-]. left. unfold get_strict in Hget.
      destruct (nullish d); [|done]. by injection Hget as <-. }
  destruct (truthy a); mstep; [done|].
  destruct (is_str (NODE_ENV E) "production"); mstep; [|done].
  intros [= <-]. by left.
Qed.

(** X6. Whatever goes wrong in [checkPaymentStatus], the caller sees a plain
    [Error] without a response attached, whose message is the [message] of
    the provider's reply (to the status request, or to the credential
    exchange before it) when there is one, and ["Status check failed"]
    otherwise; a missing id is refused before any request is made. *)
Theorem status_check_errors_are_normalised (merchantOrderId : jsval) (w : world) :
  (truthy merchantOrderId = false →
     PhonePe.checkPaymentStatus E merchantOrderId w
     = (Throw (Error (JStr "Status check failed")), w))
  ∧ (∀ e, fst (PhonePe.checkPaymentStatus E merchantOrderId w) = Throw e →
       err_response e = None
       ∧ (err_message e = JStr "Status check failed"
          ∨ ∃ st d, (status_api E (js_String merchantOrderId) = Reply st d
                     ∨ oauth_api E = Reply st d)
                    ∧ truthy (get "message" d) = true
                    ∧ err_message e = JStr (js_String (get "message" d)))).
Proof.
  assert (∀ e0 : js_error, ∀ r,
            (err_response e0 = None ∨ ∃ st d, r = Reply st d ∧ err_response e0 = Some (st, d)) →
            let m := js_or (opt_get "message" (response_data e0)) (JStr "Status check failed") in
            JStr (js_String m) = JStr "Status check failed"
            ∨ ∃ st d, r = Reply st d ∧ truthy (get "message" d) = true
                      ∧ JStr (js_String m) = JStr (js_String (get "message" d))) as Hnorm.
  { intros e0 r [Hr | (st & d & -> & Hr)] m; unfold m, response_data; rewrite Hr.
    - by left.
    - unfold opt_get, js_or. destruct (nullish d) eqn:Hd; [by left|].
      destruct (truthy (get "message" d)) eqn:Hm; [|by left].
      right. eauto. }
  unfold PhonePe.checkPaymentStatus.
  pose proof (getAccessToken_throws w) as Htok.
  destruct w as [os nid tok0 ex clk rnd tr]. mstep.
  split.
  - intros ->. mstep. done.
  - intros e.
    destruct (negb (truthy merchantOrderId)); mstep.
    { intros [= <-]. split; [done|]. by left. }
    destruct (PhonePe.getAccessToken E _) as [[tok|e0] w1]; mstep.
    2:{ intros [= <-]. split; [done|]. cbn [err_message Error].
        destruct (Hnorm e0 (oauth_api E) (Htok e0 eq_refl)) as [Hm | (st & d & Hr & Ht & Hm)];
          [by left|right]. exists st, d. auto. }
    destruct (negb (truthy tok)); mstep.
    { intros [= <-]. split; [done|]. by left. }
    destruct (axios _) as [[st d]|e0] eqn:Hax; mstep; [done|].
    intros [= <-]. split; [done|]. cbn [err_message Error].
    destruct (Hnorm e0 _ (axios_throws _ _ Hax)) as [Hm | (st & d & Hr & Ht & Hm)];
      [by left|right]. exists st, d. auto.
Qed.

End ServiceErrors.

Section ServiceExamples.
#[local] Existing Instance Sample.runtime.

(** A payment of 1000 rupees for a customer of the offline sandbox. *)
Lemma no_token_no_payment_witness :
  PhonePe.initiatePayment offline_sandbox
    (obj [("amount", JNum 1000); ("customerPhone", JStr "9876543210");
          ("customerName", JStr "Asha")])
    (Sample.world_with [] 1700000000000)
  = (Ret (failed (Error (JStr "Access token required for PhonePe v2 payment"))),
     snd (PhonePe.getAccessToken offline_sandbox (Sample.world_with [] 1700000000000)))
  ∧ trace (snd (PhonePe.getAccessToken offline_sandbox (Sample.world_with [] 1700000000000)))
    = [EvOauthToken].
Proof.
  split; [|vm_compute; reflexivity].
  apply (no_token_no_payment offline_sandbox _ (Sample.world_with [] 1700000000000) JNull);
    vm_compute; reflexivity.
Defined.

End ServiceExamples.

(** ** Rupees to paise *)

Section Paise.
Context `{Runtime} (E : env).



End Paise.

(** ** What [validatePaymentRequest] guarantees about a request it passes on *)

Section AcceptedRequests.
Context `{Runtime}.

Lemma check_items_accepted l :
  Security.check_items l = Ret None → Forall item_accepted l.
Proof.
  induction l as [|item rest IH]; [constructor|]. cbn [Security.check_items].
  destruct (nullish item); [done|].
  destruct (negb (truthy (get "id" item))) eqn:Hid; [done|].
  destruct (negb (truthy (get "name" item))) eqn:Hname; [done|].
  destruct (negb (truthy (get "price" item))) eqn:Hprice; [done|].
  destruct (negb (truthy (get "quantity" item))) eqn:Hqty; [done|].
  cbn [orb].
  destruct (js_le (get "price" item) (JNum 0)) eqn:Hp; [done|].
  destruct (js_le (get "quantity" item) (JNum 0)) eqn:Hq; [done|].
  cbn [orb]. intros Hrest. constructor; [|by apply IH].
  apply negb_false_iff in Hid, Hname, Hprice, Hqty.
  repeat split; try done.
  - intros p Hnum. rewrite Hnum in Hp. cbn in Hp. by apply Qle_bool_false in Hp.
  - intros n Hnum. rewrite Hnum in Hq. cbn in Hq. by apply Qle_bool_false in Hq.
Qed.

Lemma calculatedTotal_numeric l :
  Forall item_numeric l → ∃ s, Security.calculatedTotal l = Some s.
Proof.
  unfold Security.calculatedTotal. generalize 0%Q as acc.
  induction l as [|item rest IH]; intros acc Hall; [by eexists|].
  inversion Hall as [|? ? (p & n & Hp & Hn) Hrest]; subst.
  cbn [foldl]. rewrite Hp, Hn. cbn [js_mul to_number num_mul num_add].
  by apply IH.
Qed.

(** X8. A request that [validatePaymentRequest] hands to the next handler
    has a string name of at least two characters after trimming, an email
    that matches the pattern, a non-empty array of items each with id, name,
    and positive price and quantity, and a numeric total between 1 and
    200000 that is within 0.01 of the sum of price times quantity whenever
    that sum is a number (it always is when prices and quantities are). *)
Theorem accepted_requests_are_consistent (body : jsval) :
  Security.validatePaymentRequest body = Ret Next →
  ∃ name l t,
    get "customerName" body = JStr name
    ∧ (2 ≤ String.length (trim name))%nat
    ∧ Security.isValidEmail (get "customerEmail" body) = true
    ∧ get "orderItems" body = JArr l ∧ l ≠ []
    ∧ get "totalAmount" body = JNum t ∧ (1 <= t)%Q ∧ (t <= 200000)%Q
    ∧ Forall item_accepted l
    ∧ (∀ s, Security.calculatedTotal l = Some s → (Qabs (s - t) <= 1 # 100)%Q)
    ∧ (Forall item_numeric l →
       ∃ s, Security.calculatedTotal l = Some s ∧ (Qabs (s - t) <= 1 # 100)%Q).
Proof.
  unfold Security.validatePaymentRequest, mbind, outcome_mbind.
  destruct (get_strict "customerName" body) as [customerName|e] eqn:Hname; [|done].
  assert (get "customerName" body = customerName) as Hget.
  { unfold get_strict in Hname. destruct (nullish body); [done|]. by injection Hname. }
  destruct (negb (truthy customerName)); [done|].
  destruct (negb (String.eqb (typeof customerName) "string")) eqn:Htype; [done|].
  destruct (js_lt _ (JNum 2)) eqn:Hlen; [done|]. cbn [orb].
  destruct (negb (truthy (get "customerEmail" body))); [done|].
  destruct (negb (Security.isValidEmail (get "customerEmail" body))) eqn:Hemail; [done|].
  cbn [orb].
  destruct (get "orderItems" body) as [| | | | | | |l|]; try done.
  destruct l as [|i l']; [done|].
  destruct (negb (truthy (get "totalAmount" body))) eqn:Htruthy; [done|].
  destruct (negb (String.eqb (typeof (get "totalAmount" body)) "number")) eqn:Hnum; [done|].
  destruct (js_le (get "totalAmount" body) (JNum 0)); [done|]. cbn [orb].
  destruct (js_lt (get "totalAmount" body) (JNum 1)) eqn:Hlow; [done|].
  destruct (js_gt (get "totalAmount" body) (JNum 200000)) eqn:Hhigh; [done|]. cbn [orb].
  destruct (Security.check_items (i :: l')) as [[r|]|e] eqn:Hitems; [| |done].
  { intros [= ->]. by apply check_items_ok_or_400 in Hitems. }
  destruct (num_gt _ _) eqn:Hsum; [done|]. intros _.
  destruct customerName as [| | | | |name| | |]; try done.
  destruct (get "totalAmount" body) as [| | |t| | | | |]; try done.
  exists name, (i :: l'), t.
  assert (∀ s, Security.calculatedTotal (i :: l') = Some s → (Qabs (s - t) <= 1 # 100)%Q)
    as Htotal.
  { intros s Hs. rewrite Hs in Hsum. cbn in Hsum.
    apply negb_false_iff in Hsum. by apply Qle_bool_iff in Hsum. }
  split; [done|]. split.
  { change (js_String (JStr name)) with name in Hlen.
    change (get "length" (JStr (trim name)))
      with (JNum (inject_Z (Z.of_nat (String.length (trim name))))) in Hlen.
    unfold js_lt, to_number, num_lt in Hlen.
    apply negb_false_iff, Qle_bool_iff in Hlen.
    change 2%Q with (inject_Z 2) in Hlen. rewrite <- Zle_Qle in Hlen. lia. }
  split; [by apply negb_false_iff in Hemail|].
  split; [done|]. split; [done|]. split; [done|].
  split. { cbn in Hlow. by apply negb_false_iff, Qle_bool_iff in Hlow. }
  split. { cbn in Hhigh. by apply negb_false_iff, Qle_bool_iff in Hhigh. }
  split; [by apply check_items_accepted|].
  split; [exact Htotal|].
  intros Hall. destruct (calculatedTotal_numeric _ Hall) as [s Hs]. eauto.
Qed.

End AcceptedRequests.

(** The checkout of one guide at 500 x 2 for a total of 1000 passes. *)
Lemma accepted_requests_are_consistent_witness :
  Security.validatePaymentRequest (H := Sample.runtime) (CreateRuns.checkout 1000) = Ret Next
  ∧ ∃ name l t,
      get "customerName" (CreateRuns.checkout 1000) = JStr name
      ∧ get "orderItems" (CreateRuns.checkout 1000) = JArr l
      ∧ get "totalAmount" (CreateRuns.checkout 1000) = JNum t
      ∧ Forall (item_accepted (H := Sample.runtime)) l
      ∧ ∀ s, Security.calculatedTotal (H := Sample.runtime) l = Some s →
             (Qabs (s - t) <= 1 # 100)%Q.
Proof.
  split; [vm_compute; reflexivity|].
  destruct (accepted_requests_are_consistent (H := Sample.runtime) (CreateRuns.checkout 1000))
    as (name & l & t & Hn & _ & _ & Hl & _ & Ht & _ & _ & Hitems & Hsum & _);
    [vm_compute; reflexivity|].
  exists name, l, t. auto.
Defined.

(** ** The email pattern *)

Section EmailPattern.
Context `{Runtime}.

Lemma append_cons c a b : String c a +:+ b = String c (a +:+ b).
Proof. reflexivity. Qed.








End EmailPattern.

(** ** Input sanitising *)

Section SanitizeInput.







End SanitizeInput.


(** ** The order-id pattern, and the ids the create-order route generates *)

Section OrderIdPattern.

Lemma append_assoc (a b c : string) : (a +:+ b) +:+ c = a +:+ (b +:+ c).
Proof. induction a as [|x a IH]; [done|]. rewrite !append_cons. by rewrite IH. Qed.

Lemma append_nil_r (s : string) : s +:+ "" = s.
Proof. induction s as [|x s IH]; [done|]. by rewrite append_cons, IH. Qed.

Lemma digits_split n rest s :
  Middleware.digits n rest s = true →
  ∃ a r, s = a +:+ r ∧ digit_run n a ∧ rest r = true.
Proof.
  revert s. induction n as [|n IH]; intros s.
  - intros Hr. by exists "", s.
  - destruct s as [|c s]; [done|]. cbn [Middleware.digits].
    intros [Hc (a & r & -> & [Hlen Hall] & Hr)%IH]%andb_prop.
    exists (String c a), r. repeat split; [by cbn; rewrite Hlen| |done].
    cbn [all_chars]. by rewrite Hc, Hall.
Qed.

Lemma digits_join n rest a r :
  digit_run n a → Middleware.digits n rest (a +:+ r) = rest r.
Proof.
  revert a. induction n as [|n IH]; intros a [Hlen Hall].
  - by destruct a.
  - destruct a as [|c a]; [done|]. rewrite append_cons. cbn [Middleware.digits].
    cbn [all_chars] in Hall. apply andb_prop in Hall as [-> Hall].
    apply IH. split; [|done]. cbn in Hlen. by injection Hlen.
Qed.

Lemma upper_alnums_split seen rest s :
  Middleware.upper_alnums seen rest s = true →
  ∃ code r, s = code +:+ r ∧ all_chars Middleware.is_upper_alnum code = true
            ∧ (seen = true ∨ code ≠ "") ∧ rest r = true.
Proof.
  revert seen. induction s as [|c s IH]; intros seen; [done|].
  cbn [Middleware.upper_alnums].
  destruct (Middleware.is_upper_alnum c) eqn:Hc.
  - intros (code & r & -> & Hall & _ & Hr)%IH. exists (String c code), r.
    repeat split; [|by right|done]. cbn [all_chars]. by rewrite Hc.
  - intros [-> Hr]%andb_prop. exists "", (String c s). auto.
Qed.

Lemma upper_alnums_join seen rest code c r :
  all_chars Middleware.is_upper_alnum code = true → seen = true ∨ code ≠ "" →
  Middleware.is_upper_alnum c = false →
  Middleware.upper_alnums seen rest (code +:+ String c r) = rest (String c r).
Proof.
  revert seen. induction code as [|x code IH]; intros seen Hall Hseen Hc.
  - change ("" +:+ String c r) with (String c r). cbn [Middleware.upper_alnums].
    rewrite Hc. by destruct Hseen as [-> | ?].
  - rewrite append_cons. cbn [Middleware.upper_alnums all_chars] in Hall |- *.
    apply andb_prop in Hall as [-> Hall]. apply IH; auto.
Qed.

Lemma startsWith_drop p s :
  startsWith p s = true → s = p +:+ drop_string (String.length p) s.
Proof.
  revert s. induction p as [|x p IH]; intros s; [done|].
  destruct s as [|c s]; [done|]. cbn [startsWith String.length drop_string].
  intros [Hx Hp]%andb_prop. apply Ascii.eqb_eq in Hx as ->.
  rewrite append_cons. f_equal. by apply IH.
Qed.

Lemma startsWith_append p r : startsWith p (p +:+ r) = true.
Proof.
  induction p as [|x p IH]; [done|]. rewrite append_cons. cbn [startsWith].
  by rewrite Ascii.eqb_refl, IH.
Qed.

Lemma drop_string_append p r : drop_string (String.length p) (p +:+ r) = r.
Proof. induction p as [|x p IH]; [done|]. by rewrite append_cons. Qed.

(** The pattern accepts a string put together from the four parts. *)
Lemma pattern_of_parts code a b c :
  code ≠ "" → all_chars Middleware.is_upper_alnum code = true →
  digit_run 4 a → digit_run 13 b → digit_run 4 c →
  Middleware.merchantOrderId_pattern
    ("ORDER_" +:+ code +:+ "_" +:+ a +:+ "_" +:+ b +:+ "_" +:+ c) = true.
Proof.
  intros Hne Hcode Ha Hb Hc. unfold Middleware.merchantOrderId_pattern.
  rewrite startsWith_append.
  change 6%nat with (String.length "ORDER_"). rewrite drop_string_append.
  cbn [andb].
  change ("_" +:+ a +:+ "_" +:+ b +:+ "_" +:+ c)
    with (String "_" (a +:+ String "_" (b +:+ String "_" c))).
  rewrite upper_alnums_join by (done || auto).
  cbn [Middleware.underscore]. rewrite Ascii.eqb_refl. cbn [andb].
  rewrite digits_join by done.
  cbn [Middleware.underscore]. rewrite Ascii.eqb_refl. cbn [andb].
  rewrite digits_join by done.
  cbn [Middleware.underscore]. rewrite Ascii.eqb_refl. cbn [andb].
  replace c with (c +:+ "") by apply append_nil_r.
  by rewrite digits_join.
Qed.

Lemma underscore_split rest s :
  Middleware.underscore rest s = true → ∃ r, s = String "_" r ∧ rest r = true.
Proof.
  destruct s as [|c s]; [done|]. cbn [Middleware.underscore].
  intros [->%Ascii.eqb_eq Hr]%andb_prop. eauto.
Qed.

(** X11. The check of [validateMerchantOrderId] accepts exactly the strings
    [ORDER_<code>_<4 digits>_<13 digits>_<4 digits>] with a non-empty code of
    capital letters and digits, which is what the pattern
    [^ORDER_[A-Z0-9]+_\d{4}_\d{13}_\d{4}$] says. *)
Theorem merchantOrderId_pattern_iff (s : string) :
  Middleware.merchantOrderId_pattern s = true
  ↔ ∃ code a b c,
      s = "ORDER_" +:+ code +:+ "_" +:+ a +:+ "_" +:+ b +:+ "_" +:+ c
      ∧ code ≠ "" ∧ all_chars Middleware.is_upper_alnum code = true
      ∧ digit_run 4 a ∧ digit_run 13 b ∧ digit_run 4 c.
Proof.
  split.
  - unfold Middleware.merchantOrderId_pattern.
    intros [Hstart Hrest]%andb_prop.
    apply startsWith_drop in Hstart. change (String.length "ORDER_") with 6%nat in Hstart.
    apply upper_alnums_split in Hrest as (code & r0 & Hs0 & Hcode & [?|Hne] & Hr0); [done|].
    apply underscore_split in Hr0 as (r1 & -> & Hr1).
    apply digits_split in Hr1 as (a & r2 & -> & Ha & Hr2).
    apply underscore_split in Hr2 as (r3 & -> & Hr3).
    apply digits_split in Hr3 as (b & r4 & -> & Hb & Hr4).
    apply underscore_split in Hr4 as (r5 & -> & Hr5).
    apply digits_split in Hr5 as (c & r6 & -> & Hc & Hr6).
    destruct r6; [|done].
    exists code, a, b, c. split; [|done].
    rewrite Hstart, Hs0. do 2 f_equal.
    by rewrite append_nil_r.
  - intros (code & a & b & c & -> & Hne & Hcode & Ha & Hb & Hc).
    by apply pattern_of_parts.
Qed.

(** Decimal numerals. *)
Lemma pretty_N_char_digit x : Middleware.is_digit (pretty_N_char x) = true.
Proof. unfold pretty_N_char. by repeat case_match. Qed.

Lemma pretty_N_go_digits k x s :
  (10 ^ N.of_nat k ≤ x < 10 ^ N.of_nat (S k))%N →
  ∃ ds, pretty_N_go x s = ds +:+ s ∧ digit_run (S k) ds.
Proof.
  revert x s. induction k as [|k IH]; intros x s Hx.
  - rewrite pretty_N_go_step by lia.
    assert (x `div` 10 = 0)%N as -> by (apply N.div_small; lia).
    rewrite pretty_N_go_0. exists (String (pretty_N_char (x `mod` 10)) "").
    split; [done|]. split; [done|]. cbn [all_chars]. by rewrite pretty_N_char_digit.
  - rewrite pretty_N_go_step by lia.
    rewrite !Nat2N.inj_succ, !N.pow_succ_r' in Hx.
    destruct (IH (x `div` 10)%N (String (pretty_N_char (x `mod` 10)) s)) as (ds & -> & Hlen & Hall).
    { rewrite Nat2N.inj_succ, N.pow_succ_r'. split.
      - apply N.div_le_lower_bound; lia.
      - apply N.Div0.div_lt_upper_bound. lia. }
    exists (ds +:+ String (pretty_N_char (x `mod` 10)) "").
    split; [by rewrite append_assoc|]. split.
    + clear -Hlen. revert Hlen. generalize (S k). induction ds as [|c ds IH]; intros n.
      * by intros <-.
      * rewrite append_cons. cbn [String.length]. destruct n; [done|].
        intros [= Hlen]. by rewrite (IH n).
    + clear -Hall. induction ds as [|c ds IH]; cbn [all_chars] in *.
      * change ("" +:+ String (pretty_N_char (x `mod` 10)) "")
          with (String (pretty_N_char (x `mod` 10)) "").
        cbn [all_chars]. by rewrite pretty_N_char_digit.
      * rewrite append_cons. cbn [all_chars].
        apply andb_prop in Hall as [-> Hall]. by apply IH.
Qed.

Lemma pretty_Z_digits k z :
  10 ^ Z.of_nat k ≤ z < 10 ^ Z.of_nat (S k) → digit_run (S k) (pretty z).
Proof.
  intros Hz. destruct z as [|p|p]; [lia| |lia].
  unfold pretty, pretty_Z, pretty, pretty_positive, pretty, pretty_N.
  destruct (decide (N.pos p = 0%N)); [done|].
  destruct (pretty_N_go_digits k (N.pos p) "") as (ds & -> & Hrun).
  { change (N.pos p) with (Z.to_N (Z.pos p)).
    split.
    - apply N2Z.inj_le. rewrite N2Z.inj_pow, Z2N.id, nat_N_Z by lia. cbn. lia.
    - apply N2Z.inj_lt. rewrite N2Z.inj_pow, Z2N.id, nat_N_Z by lia. cbn. lia. }
  by rewrite append_nil_r.
Qed.

Lemma slice_last_length n s :
  (n ≤ String.length s)%nat → String.length (slice_last n s) = n.
Proof.
  unfold slice_last. intros Hn.
  assert (∀ k t, (k ≤ String.length t)%nat →
                 String.length (drop_string k t) = (String.length t - k)%nat) as Hdrop.
  { induction k as [|k IH]; intros t Hk; [cbn; lia|].
    destruct t as [|c t]; [cbn in Hk; lia|]. cbn [drop_string String.length] in *.
    rewrite IH by lia. lia. }
  rewrite Hdrop by lia. lia.
Qed.

End OrderIdPattern.

Section GeneratedIds.
Context `{Runtime}.

(** X12. The ids that [generateMerchantOrderId] of the index server issues
    pass [validateMerchantOrderId]: for a product code of capital letters and
    digits, a phone number that ends in four digits, a clock that shows 13
    digits and a random part between 1000 and 9999. *)
Theorem generated_order_ids_pass_validation
    (phone code : string) (w : world) :
  code ≠ "" → all_chars Middleware.is_upper_alnum code = true →
  (4 ≤ String.length phone)%nat →
  all_chars Middleware.is_digit (slice_last 4 phone) = true →
  10 ^ 12 ≤ clock w < 10 ^ 13 →
  1000 ≤ random4 w ≤ 9999 →
  ∃ id, ApiIndex.generateMerchantOrderId (JStr phone) code w = (Ret id, w)
        ∧ Middleware.validateMerchantOrderId (JStr id) = Ret Next.
Proof.
  intros Hne Hcode Hlen Hdigits Hclock Hrandom.
  unfold ApiIndex.generateMerchantOrderId.
  destruct w as [os nid tok ex clk rnd tr]. mstep.
  eexists. split; [reflexivity|].
  unfold Middleware.validateMerchantOrderId.
  assert (Middleware.merchantOrderId_pattern
            ("ORDER_" +:+ code +:+ "_" +:+ slice_last 4 phone +:+ "_"
             +:+ pretty clk +:+ "_" +:+ pretty rnd) = true) as Hpat.
  { apply pattern_of_parts; try done.
    - split; [by apply slice_last_length|done].
    - apply (pretty_Z_digits 12). cbn in Hclock |- *. lia.
    - apply (pretty_Z_digits 3). cbn in Hrandom |- *. lia. }
  rewrite Hpat. cbn [truthy negb]. done.
Qed.

End GeneratedIds.

Lemma generated_order_ids_pass_validation_witness :
  ApiIndex.generateMerchantOrderId (H := Sample.runtime) (JStr "9876543210") "BUNDLE"
    CreateRuns.till
  = (Ret "ORDER_BUNDLE_3210_1700000400000_4711", CreateRuns.till)
  ∧ ∃ id, ApiIndex.generateMerchantOrderId (H := Sample.runtime) (JStr "9876543210") "BUNDLE"
            CreateRuns.till = (Ret id, CreateRuns.till)
          ∧ Middleware.validateMerchantOrderId (JStr id) = Ret Next.
Proof.
  split; [vm_compute; reflexivity|].
  apply (generated_order_ids_pass_validation (H := Sample.runtime)
           "9876543210" "BUNDLE" CreateRuns.till);
    first [done | vm_compute; (reflexivity || lia || (split; discriminate))].
Defined.

(** ** The webhook guard *)

Section WebhookGuard.
Context `{Runtime} (E : env).
Variable JSON_stringify : jsval → outcome jsval.

(** X13. [validateWebhookSignature] hands a request on exactly when its
    [X-VERIFY] header is the string
    [sha256(JSON body + "/pg/v1/webhook" + salt key) + "###" + salt index];
    a request without the header or with any other value is answered 401,
    and 500 is answered only when the body cannot be serialised. *)
Theorem webhook_guard (x_verify req_body : jsval) :
  let answer := Middleware.validateWebhookSignature E JSON_stringify x_verify req_body in
  match JSON_stringify req_body with
  | Ret body =>
      (answer = Next ↔ x_verify = JStr (Middleware.generateWebhookSignature E body))
      ∧ (answer ≠ Next → status_of answer = 401)
      ∧ (truthy x_verify = false →
         answer = Middleware.unauthorized "Missing webhook signature")
  | Throw _ => status_of answer = 500
  end.
Proof.
  intros answer. unfold answer, Middleware.validateWebhookSignature.
  destruct (JSON_stringify req_body) as [body|e]; [|done].
  set (sig := Middleware.generateWebhookSignature E body).
  assert (truthy (JStr sig) = true) as Hsig.
  { unfold sig, Middleware.generateWebhookSignature. cbn [truthy].
    destruct (sha256_hex _); done. }
  split; [|split].
  - split.
    + destruct (truthy x_verify); [|done]. cbn [negb].
      destruct (is_str x_verify sig) eqn:Heq; [|done].
      intros _. by apply is_str_eq.
    + intros ->. rewrite Hsig. cbn [negb].
      assert (is_str (JStr sig) sig = true) as -> by by apply is_str_eq. done.
  - destruct (truthy x_verify); [|done]. cbn [negb].
    by destruct (is_str x_verify sig).
  - by intros ->.
Qed.

End WebhookGuard.

(** ** The download routes: what they touch and whom they serve *)

Ltac reads :=
  eexists; split; [reflexivity|];
  repeat split; try done;
  first [ exists []; split; [by rewrite app_nil_r | constructor]
        | eexists; split; [by rewrite <- ?app_assoc | by repeat constructor] ].

Section DownloadEffects.
Context `{Runtime} (E : env).

(** X14. The three download routes always answer, and they only read: the
    order table, the key counter and the cached credential are as before,
    and every effect is a lookup, a look at the disk or a signature request;
    no order is inserted or updated and the payment provider is not
    contacted. *)
Theorem downloads_only_read :
  (∀ productId transactionId w,
     ∃ r, fst (ApiIndex.get_downloads E productId transactionId w) = Ret r
          ∧ only_reads w (snd (ApiIndex.get_downloads E productId transactionId w)))
  ∧ (∀ productId transactionId w,
     ∃ r, fst (ApiOrders.get_signed_download E productId transactionId w) = Ret r
          ∧ only_reads w (snd (ApiOrders.get_signed_download E productId transactionId w)))
  ∧ (∀ productId orderId w,
     ∃ r, fst (Unnamed001.get_signed_download E productId orderId w) = Ret r
          ∧ only_reads w (snd (Unnamed001.get_signed_download E productId orderId w))).
Proof.
  unfold only_reads. split; [|split].
  - intros productId transactionId w.
    unfold ApiIndex.get_downloads, ApiIndex.findOrderByTransactionId, ApiIndex.findProduct.
    destruct w as [os nid tok ex clk rnd tr]. mstep.
    destruct (negb (truthy (JStr productId))); mstep; [reads|].
    destruct (negb (truthy transactionId)); mstep; [reads|].
    destruct (List.find _ os) as [o|]; mstep; [|reads].
    destruct (_ || _); mstep; [reads|].
    destruct (negb (ApiIndex.productIncluded productId o)); mstep; [reads|].
    destruct (List.find _ (products E)) as [product|]; mstep; [|reads].
    destruct (negb (truthy _)); mstep; [reads|].
    destruct (js_or (get "file_name" product) _) as [| | | | |raw| | |]; mstep; try reads.
    destruct (negb (ApiIndex.insideProductsFolder E _)); mstep; [reads|].
    destruct (negb (fs_exists E _)); mstep; [reads|].
    destruct (js_or (get "name" product) _); mstep; reads.
  - intros productId transactionId w.
    unfold ApiOrders.get_signed_download, ApiIndex.findOrderByTransactionId,
      Unnamed001.findProduct.
    destruct w as [os nid tok ex clk rnd tr]. mstep.
    destruct (negb (truthy (JStr productId))); mstep; [reads|].
    destruct (negb (truthy (JStr _))); mstep; [reads|].
    destruct (List.find _ os) as [o|]; mstep; [|reads].
    destruct (_ || _); mstep; [reads|].
    destruct (match items o with JArr _ => _ | _ => _ end) as [inItems|e]; mstep; [|reads].
    destruct (negb _); mstep; [reads|].
    destruct (List.filter _ (products E)) as [|product [|]]; mstep; try reads.
    destruct (negb (truthy _)); mstep; [reads|].
    destruct (storage_sign E _ _ _) as [sd|]; mstep; [|reads].
    destruct (negb (truthy _)); mstep; reads.
  - intros productId orderId w.
    unfold Unnamed001.get_signed_download, Unnamed001.findOrderByMerchantOrderId,
      Unnamed001.findProduct.
    destruct w as [os nid tok ex clk rnd tr]. mstep.
    destruct (negb (truthy (JStr productId))); mstep; [reads|].
    destruct (negb (truthy (JStr _))); mstep; [reads|].
    destruct (List.filter _ os) as [|o [|]]; mstep; try reads.
    destruct (_ || _); mstep; [reads|].
    destruct (match items o with JArr _ => _ | _ => _ end) as [included|e]; mstep; [|reads].
    destruct (negb included); mstep; [reads|].
    destruct (List.filter _ (products E)) as [|product [|]]; mstep; try reads.
    destruct (negb (truthy _)); mstep; [reads|].
    destruct (storage_sign E _ _ _) as [sd|]; mstep; [|reads].
    destruct (negb (truthy _)); mstep; reads.
Qed.

(** X15. A download is granted only for a paid order that includes the
    product: whenever one of the three routes answers 200 (the streamed file,
    or the signed URL), the request resolved to an order whose payment status
    reads completed and which contains the product, by the test of that
    route. *)
Theorem downloads_are_granted_only_when_paid :
  (∀ productId transactionId w resp,
     fst (ApiIndex.get_downloads E productId transactionId w) = Ret resp →
     status_of resp = 200 →
     ∃ o, List.find (λ o, Store.payment_contains (JStr (js_String transactionId)) (payment o))
                    (orders w) = Some o
          ∧ paid o ∧ ApiIndex.productIncluded productId o = true)
  ∧ (∀ productId transactionId w resp,
     fst (ApiOrders.get_signed_download E productId transactionId w) = Ret resp →
     status_of resp = 200 →
     ∃ o, List.find (λ o, Store.payment_contains
                            (JStr (js_String (js_or transactionId (JStr "")))) (payment o))
                    (orders w) = Some o
          ∧ paid o
          ∧ ((∃ l, items o = JArr l ∧ ApiOrders.some_item productId l = Ret true)
             ∨ js_String (product_id o) = productId))
  ∧ (∀ productId orderId w resp,
     fst (Unnamed001.get_signed_download E productId orderId w) = Ret resp →
     status_of resp = 200 →
     ∃ o l, List.filter (λ o, is_str (merchant_order_id o)
                                (js_String (js_or orderId (JStr "")))) (orders w) = [o]
            ∧ paid o ∧ items o = JArr l
            ∧ Unnamed001.some_item productId l = Ret true).
Proof.
  unfold paid. split; [|split].
  - intros productId transactionId w resp.
    unfold ApiIndex.get_downloads, ApiIndex.findOrderByTransactionId, ApiIndex.findProduct.
    destruct w as [os nid tok ex clk rnd tr]. mstep.
    destruct (negb (truthy (JStr productId))); mstep; [by intros [= <-]|].
    destruct (negb (truthy transactionId)); mstep; [by intros [= <-]|].
    destruct (List.find _ os) as [o|] eqn:Hfind; mstep; [|by intros [= <-]].
    destruct (negb (truthy (get "status" (js_or (payment o) (obj []))))) eqn:Ht;
      mstep; [by intros [= <-]|].
    destruct (negb (String.eqb _ "completed")) eqn:Hst; mstep; [by intros [= <-]|].
    destruct (negb (ApiIndex.productIncluded productId o)) eqn:Hincl; mstep;
      [by intros [= <-]|].
    intros _ _. exists o. split; [done|].
    apply negb_false_iff in Hst, Hincl. split; [|done].
    apply find_some in Hfind as [_ Hc]. apply payment_contains_obj in Hc as [m Hm].
    by rewrite Hm in Hst |- *.
  - intros productId transactionId w resp.
    unfold ApiOrders.get_signed_download, ApiIndex.findOrderByTransactionId,
      Unnamed001.findProduct.
    destruct w as [os nid tok ex clk rnd tr]. mstep.
    destruct (negb (truthy (JStr productId))); mstep; [by intros [= <-]|].
    destruct (negb (truthy (JStr _))); mstep; [by intros [= <-]|].
    destruct (List.find _ os) as [o|] eqn:Hfind; mstep; [|by intros [= <-]].
    destruct (negb (truthy (payment o))); mstep; [by intros [= <-]|].
    destruct (negb (String.eqb _ "completed")) eqn:Hst; mstep; [by intros [= <-]|].
    destruct (match items o with JArr _ => _ | _ => _ end) as [inItems|e] eqn:Hitems;
      mstep; [|by intros [= <-]].
    destruct (if negb inItems && truthy (product_id o)
              then String.eqb (js_String (product_id o)) productId
              else inItems) eqn:Hincl; mstep; [|by intros [= <-]].
    intros _ _. exists o. split; [done|].
    apply negb_false_iff in Hst. split; [done|].
    destruct inItems.
    + left. destruct (items o); try done. eauto.
    + right. cbn [negb andb] in Hincl.
      destruct (truthy (product_id o)); [|done]. by apply String.eqb_eq.
  - intros productId orderId w resp.
    unfold Unnamed001.get_signed_download, Unnamed001.findOrderByMerchantOrderId,
      Unnamed001.findProduct.
    destruct w as [os nid tok ex clk rnd tr]. mstep.
    destruct (negb (truthy (JStr productId))); mstep; [by intros [= <-]|].
    destruct (negb (truthy (JStr _))); mstep; [by intros [= <-]|].
    destruct (List.filter _ os) as [|o [|]] eqn:Hfind; mstep; try by intros [= <-].
    destruct (negb (truthy (payment o))); mstep; [by intros [= <-]|].
    destruct (negb (String.eqb _ "completed")) eqn:Hst; mstep; [by intros [= <-]|].
    destruct (match items o with JArr _ => _ | _ => _ end) as [included|e] eqn:Hitems;
      mstep; [|by intros [= <-]].
    destruct included; mstep; [|by intros [= <-]].
    intros _ _. destruct (items o) as [| | | | | | |l|] eqn:Hl; try done.
    exists o, l. apply negb_false_iff in Hst. done.
Qed.

End DownloadEffects.

Section DownloadEffectExamples.
Import DownloadRuns.
#[local] Existing Instance Sample.runtime.

Lemma downloads_are_granted_only_when_paid_witness :
  fst (downloads "/srv/products" "P1" "TX_1700000000013")
  = Ret (File "/srv/products/guide.pdf" "Guide.pdf")
  ∧ ∃ o, List.find (λ o, Store.payment_contains (JStr "TX_1700000000013") (payment o))
                   (orders shop) = Some o
         ∧ paid o ∧ ApiIndex.productIncluded "P1" o = true.
Proof.
  split; [vm_compute; reflexivity|].
  apply (proj1 (downloads_are_granted_only_when_paid (Sample.environment_at "/srv/products"))
           "P1" (JStr "TX_1700000000013") shop (File "/srv/products/guide.pdf" "Guide.pdf"));
    vm_compute; reflexivity.
Defined.

End DownloadEffectExamples.

(** ** Reconciliation: what the two callbacks leave alone *)

Section ReconciliationFrame.
Context `{Runtime} (E : env).

Lemma same_columns_refl os : Forall2 same_columns os os.
Proof. induction os; constructor; [by repeat split|done]. Qed.

Lemma update_where_id_same_columns id p t os :
  Forall2 same_columns os (Store.update_where_id id p t os).
Proof.
  unfold Store.update_where_id.
  induction os as [|o os IH]; cbn [List.map]; constructor; [|done].
  destruct (o_id o =? id); by repeat split.
Qed.

(** X16. The polling callback always answers with a redirect, whatever
    the provider or the store do; and it never adds, removes or reorders
    orders: every row keeps its key, customer, items, totals and creation
    time, only [payment] and [updated_at] can change. *)
Theorem polling_callback_redirects_and_keeps_order_data (mtid : string) (w : world) :
  (∃ url, fst (ApiIndex.get_phonepe_callback E mtid w) = Ret (Redirect url))
  ∧ keeps_order_data w (snd (ApiIndex.get_phonepe_callback E mtid w)).
Proof.
  unfold keeps_order_data, ApiIndex.get_phonepe_callback, ApiIndex.findOrderByTransactionId,
    ApiIndex.updateOrderPaymentById.
  destruct w as [os nid tok ex clk rnd tr]. mstep.
  destruct (negb (truthy (JStr mtid)) || negb (ApiIndex.transaction_id_ok mtid)); mstep.
  { split; [eauto|]. split; [apply same_columns_refl|done]. }
  destruct (List.find _ os) as [o|]; mstep.
  2:{ split; [eauto|]. split; [apply same_columns_refl|done]. }
  destruct (get_strict "merchantOrderId" (payment o)) as [moid|e]; mstep.
  2:{ split; [eauto|]. split; [apply same_columns_refl|done]. }
  match goal with |- context [PhonePe.checkPaymentStatus E moid ?w] =>
    pose proof (checkPaymentStatus_frame E moid w) as Hfr;
    destruct (PhonePe.checkPaymentStatus E moid w) as [[sr|e] w1]
  end; mstep.
  2:{ destruct Hfr as (-> & _ & ->).
      split; [eauto|]. split; [apply same_columns_refl|done]. }
  destruct w1 as [os1 nid1 tok1 ex1 clk1 rnd1 tr1]. mstep.
  destruct Hfr as (-> & _ & ->).
  destruct (is_str (opt_get "state" sr) "COMPLETED"); mstep.
  { destruct (List.filter _ _) as [|? [|]]; mstep;
      (split; [eauto|]; split; [apply update_where_id_same_columns|done]). }
  destruct (is_str (opt_get "state" sr) "FAILED"); mstep.
  { destruct (List.filter _ _) as [|? [|]]; mstep;
      (split; [eauto|]; split; [apply update_where_id_same_columns|done]). }
  destruct (List.filter _ _) as [|? [|]]; mstep;
    (split; [eauto|]; split; [apply update_where_id_same_columns|done]).
Qed.

(** X17. When the transaction is unknown, or when the status check
    fails, the polling callback redirects to the error page and writes
    nothing: an unknown transaction costs one lookup and no status check, a
    failed check leaves every order exactly as it was. *)
Theorem callback_failures_write_nothing (mtid : string) (w : world) :
  ApiIndex.transaction_id_ok mtid = true →
  let frontend := js_String (js_or (FRONTEND_URL E) (JStr "https://www.thefloo.shop")) in
  let run := ApiIndex.get_phonepe_callback E mtid w in
  let looked_up := snd (ApiIndex.findOrderByTransactionId (JStr mtid) w) in
  (List.find (λ o, Store.payment_contains (JStr mtid) (payment o)) (orders w) = None →
   run = (Ret (Redirect (frontend +:+ "/payment-error?error=order-not-found")), looked_up)
   ∧ trace looked_up = trace w ++ [EvOrderFind (JStr mtid)])
  ∧ (∀ o moid e,
       List.find (λ o, Store.payment_contains (JStr mtid) (payment o)) (orders w) = Some o →
       get_strict "merchantOrderId" (payment o) = Ret moid →
       fst (PhonePe.checkPaymentStatus E moid looked_up) = Throw e →
       run = (Ret (Redirect (frontend +:+ "/payment-error?error=callback-failed")),
              snd (PhonePe.checkPaymentStatus E moid looked_up))
       ∧ orders (snd run) = orders w
       ∧ existsb is_order_update (trace (snd run)) = existsb is_order_update (trace w)).
Proof.
  intros Hok frontend run looked_up.
  pose proof (transaction_id_ok_nonempty _ Hok) as Hne.
  unfold run, looked_up, frontend, ApiIndex.get_phonepe_callback,
    ApiIndex.findOrderByTransactionId.
  destruct w as [os nid tok ex clk rnd tr]. mstep. rewrite Hne, Hok. mstep.
  split.
  - intros ->. mstep. done.
  - intros o moid e -> Hmoid. mstep. rewrite Hmoid. mstep.
    match goal with |- context [PhonePe.checkPaymentStatus E moid ?w] =>
      pose proof (checkPaymentStatus_frame E moid w) as Hfr;
      destruct (checkPaymentStatus_events E moid w) as (new & Hnew & Hno & _);
      destruct (PhonePe.checkPaymentStatus E moid w) as [[sr|e'] w1]
    end; [done|].
    intros _. mstep. destruct Hfr as (Hos & _ & _).
    split; [done|]. split; [done|].
    destruct w1 as [os1 nid1 tok1 ex1 clk1 rnd1 tr1]. mstep. subst tr1.
    rewrite <- app_assoc, !existsb_app. cbn [existsb is_order_update orb].
    by rewrite Hno, orb_false_r.
Qed.

End ReconciliationFrame.

Section ReconciliationFrameExamples.
Import PollingRuns.
#[local] Existing Instance Sample.runtime.

(** An unknown transaction in the sample shop; and order 7 while the provider
    cannot be reached. *)
Lemma callback_failures_write_nothing_witness :
  fst (callback "TX_1700000000999" w0)
  = Ret (Redirect "https://www.thefloo.shop/payment-error?error=order-not-found")
  ∧ trace (snd (callback "TX_1700000000999" w0)) = [EvOrderFind (JStr "TX_1700000000999")]
  ∧ fst (ApiIndex.get_phonepe_callback offline_sandbox "TX_1700000000000" w0)
    = Ret (Redirect "http://localhost:8080/payment-error?error=callback-failed")
  ∧ orders (snd (ApiIndex.get_phonepe_callback offline_sandbox "TX_1700000000000" w0))
    = orders w0.
Proof.
  destruct (callback_failures_write_nothing Sample.environment "TX_1700000000999" w0)
    as [Hunknown _]; [reflexivity|].
  destruct (Hunknown ltac:(vm_compute; reflexivity)) as [Hrun Htr].
  destruct (callback_failures_write_nothing offline_sandbox "TX_1700000000000" w0)
    as [_ Hfailed]; [reflexivity|].
  destruct (Hfailed order7 (JStr "ORDER_A") (Error (JStr "Status check failed")))
    as (Hrun' & Hos & _); [vm_compute; reflexivity..|].
  unfold callback. rewrite Hrun, Hrun'. cbn [fst snd].
  split; [vm_compute; reflexivity|]. split; [exact Htr|].
  split; [vm_compute; reflexivity|]. rewrite Hrun' in Hos. exact Hos.
Defined.

End ReconciliationFrameExamples.

(** ** The POST notification: every way it can end *)

Section NotificationEffects.
Context `{Runtime} (E : env).

(** X18. The POST notification answers 302, 400, 404 or 500 and never
    adds, removes or reorders orders.  Its effects are at most one order
    lookup followed by at most one order update; an update writes the status
    completed or failed and is answered with a redirect; a body without
    [response] is answered 400 with no effect at all. *)
Theorem notification_effects (body : jsval) (w : world) :
  let run := Unnamed001.asyncHandler (Unnamed001.post_phonepe_callback E body) w in
  keeps_order_data w (snd run)
  ∧ status_of (fst run) ∈ [302; 400; 404; 500]
  ∧ (∃ new, trace (snd run) = trace w ++ new
       ∧ (new = []
          ∨ (∃ mtid, new = [EvOrderFind mtid])
          ∨ (∃ mtid id p, new = [EvOrderFind mtid; EvOrderUpdate id p]
               ∧ (get "status" p = JStr "completed" ∨ get "status" p = JStr "failed")
               ∧ status_of (fst run) = 302)))
  ∧ (nullish body = false → truthy (get "response" body) = false →
     run = (Text 400 "Invalid callback", w)).
Proof.
  intros run. unfold run, keeps_order_data, Unnamed001.asyncHandler,
    Unnamed001.post_phonepe_callback, Unnamed001.findOrderByTransactionId,
    Unnamed001.updateOrderPaymentById.
  assert (∀ st : Z, st = 302 ∨ st = 400 ∨ st = 404 ∨ st = 500 → st ∈ [302; 400; 404; 500])
    as Hin by (intros st [-> | [-> | [-> | ->]]]; set_solver).
  destruct w as [os nid tok ex clk rnd tr]. mstep.
  destruct (get_strict "response" body) as [responseBase64|e] eqn:Hgs; mstep.
  2:{ repeat split; [apply same_columns_refl|apply Hin; auto| |].
      - exists []. rewrite app_nil_r. auto.
      - intros Hnb. unfold get_strict in Hgs. by rewrite Hnb in Hgs. }
  assert (responseBase64 = get "response" body) as ->.
  { unfold get_strict in Hgs. destruct (nullish body); [done|]. by injection Hgs. }
  destruct (truthy (get "response" body)) eqn:Hresp; mstep.
  2:{ repeat split; [apply same_columns_refl|apply Hin; auto|].
      exists []. rewrite app_nil_r. auto. }
  destruct (base64_utf8 _) as [text|]; mstep.
  2:{ repeat split; [apply same_columns_refl|apply Hin; auto| |done].
      exists []. rewrite app_nil_r. auto. }
  destruct (JSON_parse text) as [decoded|]; mstep.
  2:{ repeat split; [apply same_columns_refl|apply Hin; auto| |done].
      exists []. rewrite app_nil_r. auto. }
  destruct (get_strict "data" decoded) as [data|e]; mstep.
  2:{ repeat split; [apply same_columns_refl|apply Hin; auto| |done].
      exists []. rewrite app_nil_r. auto. }
  destruct (get_strict "merchantTransactionId" data) as [mtid|e]; mstep.
  2:{ repeat split; [apply same_columns_refl|apply Hin; auto| |done].
      exists []. rewrite app_nil_r. auto. }
  destruct (List.find _ os) as [o|]; mstep.
  2:{ repeat split; [apply same_columns_refl|apply Hin; auto| |done].
      exists [EvOrderFind mtid]. eauto. }
  destruct (is_str (get "code" decoded) "PAYMENT_SUCCESS"); mstep.
  { repeat split; [apply update_where_id_same_columns|apply Hin; auto| |done].
    eexists. split; [by rewrite <- app_assoc|]. right. right.
    eexists _, _, _. split; [reflexivity|]. split; [|done].
    left. rewrite get_spread. unfold obj, props. cbn [foldl fst snd]. by simplify_map_eq. }
  destruct (is_str (get "code" decoded) "PAYMENT_FAILED"); mstep.
  { repeat split; [apply update_where_id_same_columns|apply Hin; auto| |done].
    eexists. split; [by rewrite <- app_assoc|]. right. right.
    eexists _, _, _. split; [reflexivity|]. split; [|done].
    right. rewrite get_spread. unfold obj, props. cbn [foldl fst snd]. by simplify_map_eq. }
  repeat split; [apply same_columns_refl|apply Hin; auto| |done].
  exists [EvOrderFind mtid]. eauto.
Qed.

End NotificationEffects.

(** ** Order creation: rejected, failed and successful requests *)

Section CreateOrderOutcomes.
Context `{Runtime} (E : env).

Lemma payment_of_update id p t os w :
  (∃ o, In o os ∧ o_id o = id) →
  orders w = Store.update_where_id id p t os →
  payment_of id w = p.
Proof.
  intros Hex Hos. unfold payment_of. rewrite Hos. clear Hos.
  unfold Store.update_where_id.
  induction os as [|o os IH]; [by destruct Hex as (? & [] & _)|].
  cbn [List.map List.find].
  destruct (o_id o =? id) eqn:Hid.
  - cbn [Store.with_payment o_id]. by rewrite Hid.
  - rewrite Hid. apply IH. destruct Hex as (o' & [-> | Hin] & Ho'); [|eauto].
    apply Z.eqb_neq in Hid. done.
Qed.

(** X19. Order creation always answers, with 200, 400, 500 or 502.  A
    request that lacks a name, an email, a phone number or a total, or whose
    items are not an array, is answered 400 and nothing has happened.  When
    the payment could not be initiated the answer is 502 with the gateway
    client's error message, and the order that was stored beforehand is
    marked failed with that message as its failure reason. *)
Theorem create_order_outcomes (body : jsval) (w : world) :
  let run := ApiIndex.post_phonepe_create_order E body w in
  ∃ resp, fst run = Ret resp
    ∧ status_of resp ∈ [200; 400; 500; 502]
    ∧ (status_of resp = 400 → snd run = w)
    ∧ (nullish body = false →
       truthy (get "customerName" body) = false ∨ truthy (get "customerEmail" body) = false
       ∨ truthy (get "customerPhone" body) = false ∨ isArray (get "orderItems" body) = false
       ∨ truthy (get "totalAmount" body) = false →
       status_of resp = 400)
    ∧ (status_of resp = 502 →
       ∃ reason, truthy reason = true
         ∧ resp = Json 502 (obj [("success", JBool false); ("message", reason)])
         ∧ get "status" (payment_of (next_id w) (snd run)) = JStr "failed"
         ∧ get "failureReason" (payment_of (next_id w) (snd run)) = reason).
Proof.
  intros run. unfold run, ApiIndex.post_phonepe_create_order,
    ApiIndex.createOrder, ApiIndex.generateMerchantOrderId, ApiIndex.updateOrderPaymentById.
  assert (∀ st : Z, st = 200 ∨ st = 400 ∨ st = 500 ∨ st = 502 → st ∈ [200; 400; 500; 502])
    as Hin by (intros st [-> | [-> | [-> | ->]]]; set_solver).
  destruct w as [os nid tok0 ex clk rnd tr]. mstep.
  destruct (get_strict "customerName" body) as [customerName|e] eqn:Hgs; mstep.
  { assert (customerName = get "customerName" body) as ->.
    { unfold get_strict in Hgs. destruct (nullish body); [done|]. by injection Hgs. }
    destruct (negb (truthy (get "customerName" body)) || negb (truthy (get "customerEmail" body))
              || negb (truthy (get "customerPhone" body))
              || negb (isArray (get "orderItems" body))
              || negb (truthy (get "totalAmount" body))) eqn:Hmissing; mstep.
    { eexists. split; [reflexivity|]. split; [apply Hin; auto|]. done. }
    assert (∀ resp : response,
      (truthy (get "customerName" body) = false ∨ truthy (get "customerEmail" body) = false
       ∨ truthy (get "customerPhone" body) = false ∨ isArray (get "orderItems" body) = false
       ∨ truthy (get "totalAmount" body) = false →
       status_of resp = 400)) as Hpresent.
    { intros resp Hm. exfalso. revert Hmissing.
      destruct Hm as [-> | [-> | [-> | [-> | ->]]]]; cbn [negb orb];
        rewrite ?orb_true_r; done. }
    destruct (match get "customerPhone" body with JStr _ => _ | _ => _ end) as [suffix|e];
      mstep.
    2:{ eexists. split; [reflexivity|]. split; [apply Hin; auto|].
        split; [done|]. split; [intros _; by apply Hpresent|done]. }
    match goal with |- context [PhonePe.initiatePayment E ?pd ?w0] =>
      pose proof (initiatePayment_result E pd w0) as Hres;
      destruct (PhonePe.initiatePayment E pd w0) as [r0 w1]
    end.
    mstep. destruct Hres as (Ho & Hn & Hc & r & -> & Hcases).
    destruct w1 as [os1 nid1 tok1 ex1 clk1 rnd1 tr1]. mstep. subst os1 nid1 clk1.
    destruct Hcases as [(Hs & Hurl & _) | (Hs & Herr & Hnourl)].
    - assert (truthy (js_and (get "success" r) (get "paymentUrl" r)) = true) as ->.
      { unfold js_and. by rewrite Hs. }
      mstep.
      destruct (List.filter _ _) as [|? [|]]; mstep;
        (eexists; split; [reflexivity|]; split; [apply Hin; auto|];
         split; [done|]; split; [intros _; by apply Hpresent|done]).
    - assert (truthy (js_and (get "success" r) (get "paymentUrl" r)) = false) as ->.
      { unfold js_and. by rewrite Hs. }
      mstep. cbn [o_id payment].
      match goal with |- context [Store.update_where_id nid ?p ?t ?l] =>
        pose proof (payment_of_update nid p t l) as Hpay
      end.
      destruct (List.filter _ _) as [|? [|]]; mstep;
        (eexists; split; [reflexivity|]; split; [apply Hin; auto|];
         split; [done|]; split; [intros _; by apply Hpresent|]); [done| |done].
      intros _. exists (get "error" r). split; [done|].
      assert (js_or (get "error" r) (JStr "Payment initiation failed") = get "error" r) as ->.
      { unfold js_or. by rewrite Herr. }
      split; [done|].
      erewrite Hpay; [|eexists; split; [apply in_or_app; right; left; reflexivity|done]
                      |reflexivity].
      rewrite !get_spread. unfold obj, props. cbn [foldl fst snd]. simplify_map_eq.
      unfold js_or. by rewrite Herr. }
  eexists. split; [reflexivity|]. split; [apply Hin; auto|]. split; [done|].
  split; [|done].
  intros Hnb. unfold get_strict in Hgs. by rewrite Hnb in Hgs.
Qed.

End CreateOrderOutcomes.

Section CreateOrderOutcomeExamples.
Import CreateRuns.
#[local] Existing Instance Sample.runtime.

(** A checkout while the provider cannot be reached. *)
Lemma create_order_fails_offline :
  fst (ApiIndex.post_phonepe_create_order offline_sandbox (checkout 1000) till)
  = Ret (Json 502 (obj [("success", JBool false);
                        ("message", JStr "Access token required for PhonePe v2 payment")]))
  ∧ get "status"
      (payment_of 100 (snd (ApiIndex.post_phonepe_create_order offline_sandbox
                              (checkout 1000) till)))
    = JStr "failed".
Proof. split; vm_compute; reflexivity. Qed.

End CreateOrderOutcomeExamples.

(** ** From order creation to the callback *)

Section CreateThenLookup.
Context `{Runtime} (E : env).

Lemma find_app_none {A} (f : A → bool) l1 l2 :
  Forall (λ x, f x = false) l1 → List.find f (l1 ++ l2) = List.find f l2.
Proof.
  induction 1 as [|x l1 Hx _ IH]; [done|]. cbn [app List.find]. by rewrite Hx.
Qed.

Lemma update_where_id_fresh id p t os row :
  Forall (λ o, o_id o ≠ id) os → o_id row = id →
  Store.update_where_id id p t (os ++ [row]) = os ++ [Store.with_payment p t row].
Proof.
  intros Hfresh Hrow. unfold Store.update_where_id. rewrite map_app. f_equal.
  - induction Hfresh as [|o os Ho _ IH]; [done|]. cbn [List.map].
    apply Z.eqb_neq in Ho. by rewrite Ho, IH.
  - cbn [List.map]. apply Z.eqb_eq in Hrow. by rewrite Hrow.
Qed.

(** X20. An order that was created with answer 200 at clock time [t] is
    found again under the transaction id [TX_t], by the lookup helper and by
    the order route alike, provided the key the store hands out is new and
    no earlier order carries that transaction id.  The row found holds what
    the request submitted, is pending, and carries the
    payment URL that was answered; its transaction id passes the callback's
    format check, and its [merchantOrderId] is the one that went to the
    provider in the pay request, so that the callback asks the provider
    about the very payment that was initiated. *)
Theorem created_order_is_found_by_its_transaction_id
    (body : jsval) (w : world) (answer : jsval) :
  Forall (λ o, o_id o ≠ next_id w) (orders w) →
  Forall (λ o, Store.payment_contains (JStr ("TX_" +:+ pretty (clock w))) (payment o) = false)
         (orders w) →
  fst (ApiIndex.post_phonepe_create_order E body w) = Ret (Json 200 answer) →
  let tx := "TX_" +:+ pretty (clock w) in
  let w' := snd (ApiIndex.post_phonepe_create_order E body w) in
  ApiIndex.transaction_id_ok tx = true
  ∧ ∃ o, fst (ApiIndex.findOrderByTransactionId (JStr tx) w') = Ret (Some o)
      ∧ fst (ApiOrders.get_orders tx w') = Ret (Json 200 (ApiOrders.row_json o))
      ∧ o_id o = next_id w ∧ get "orderId" answer = JNum (inject_Z (next_id w))
      ∧ customer_name o = get "customerName" body
      ∧ customer_email o = get "customerEmail" body
      ∧ items o = get "orderItems" body
      ∧ total_amount o = get "totalAmount" body
      ∧ get "status" (payment o) = JStr "pending"
      ∧ get "paymentUrl" (payment o) = get "paymentUrl" answer
      ∧ ∃ payload tok,
          In (EvPay payload tok) (trace w')
          ∧ get "merchantTransactionId" payload = JStr tx
          ∧ get "merchantOrderId" payload = get "merchantOrderId" (payment o).
Proof.
  intros Hfresh Hnew Hanswer. cbv zeta. split; [done|]. revert Hfresh Hnew Hanswer.
  unfold ApiOrders.get_orders, ApiIndex.post_phonepe_create_order,
    ApiIndex.findOrderByTransactionId,
    ApiIndex.createOrder, ApiIndex.generateMerchantOrderId, ApiIndex.updateOrderPaymentById.
  destruct w as [os nid tok0 ex clk rnd tr]. mstep. intros Hfresh Hnew.
  destruct (get_strict "customerName" body) as [customerName|e] eqn:Hgs; mstep; [|done].
  assert (customerName = get "customerName" body) as ->.
  { unfold get_strict in Hgs. destruct (nullish body); [done|]. by injection Hgs. }
  destruct (_ || _); mstep; [done|].
  destruct (match get "customerPhone" body with JStr _ => _ | _ => _ end) as [suffix|e];
    mstep; [|done].
  match goal with |- context [PhonePe.initiatePayment E ?pd ?w0] =>
    pose proof (initiatePayment_result E pd w0) as Hres;
    pose proof (initiatePayment_run E pd w0) as Hrun;
    destruct (PhonePe.initiatePayment E pd w0) as [r0 w1]
  end.
  mstep. destruct Hres as (Ho & Hn & Hc & r & -> & Hcases).
  destruct Hrun as (_ & _ & _ & r' & [= <-] & Hsent & _).
  destruct w1 as [os1 nid1 tok1 ex1 clk1 rnd1 tr1]. mstep. subst os1 nid1 clk1.
  destruct Hcases as [(Hs & Hurl & Hmtid & Hmoid) | (Hs & _ & _)].
  2:{ assert (truthy (js_and (get "success" r) (get "paymentUrl" r)) = false) as ->.
      { unfold js_and. by rewrite Hs. }
      mstep. destruct (List.filter _ _) as [|? [|]]; mstep; done. }
  assert (truthy (js_and (get "success" r) (get "paymentUrl" r)) = true) as Hboth.
  { unfold js_and. by rewrite Hs. }
  assert (get "merchantTransactionId" r = JStr ("TX_" +:+ pretty clk)) as Htx.
  { rewrite Hmtid. unfold obj, get. cbn [foldl fst snd]. by simplify_map_eq. }
  clear Hmtid Hmoid.
  rewrite Hboth in Hsent |- *. mstep. cbn [o_id payment].
  destruct (Hsent eq_refl) as (before & tok & Htr & _). clear Hsent. subst tr1.
  rewrite update_where_id_fresh by done.
  match goal with |- context [EvPay ?pl tok] => set (payload := pl) end.
  match goal with |- context [EvOrderInsert ?x] => set (row := x) end.
  match goal with |- context [Store.with_payment ?x _ row] => set (p := x) end.
  destruct (List.filter _ _) as [|? [|]]; mstep; [done| |done].
  intros [= <-].
  rewrite find_app_none by done. cbn [List.find Store.with_payment payment].
  assert (Store.payment_contains (JStr ("TX_" +:+ pretty clk)) p = true) as ->.
  { change (Store.json_eq_scalar (get "transactionId" p) (JStr ("TX_" +:+ pretty clk)) = true).
    unfold p. rewrite get_spread. unfold obj, props. cbn [foldl fst snd]. simplify_map_eq.
    rewrite Htx. unfold js_or.
    assert (truthy (JStr ("TX_" +:+ pretty clk)) = true) as -> by reflexivity.
    apply String.eqb_refl. }
  eexists. split; [reflexivity|]. split; [reflexivity|].
  cbn [o_id customer_name customer_email items total_amount payment].
  split; [done|]. split.
  { unfold obj, get. cbn [foldl fst snd]. by simplify_map_eq. }
  unfold row, Store.with_payment.
  cbn [o_id customer_name customer_email items total_amount payment].
  do 4 (split; [done|]).
  split. { unfold p. rewrite get_spread. unfold obj, props. cbn [foldl fst snd].
           by simplify_map_eq. }
  split. { unfold p. rewrite get_spread. unfold obj, props, get. cbn [foldl fst snd].
           by simplify_map_eq. }
  exists payload, tok. split; [|split].
  - rewrite !in_app_iff. left. right. right. by left.
  - unfold payload, payload_of, PhonePe.paymentPayload, obj, get. cbn [foldl fst snd].
    by simplify_map_eq.
  - unfold p. rewrite get_spread.
    unfold payload, payload_of, PhonePe.paymentPayload, obj, props, get. cbn [foldl fst snd].
    by simplify_map_eq.
Qed.

End CreateThenLookup.

Section CreateThenLookupExamples.
Import CreateRuns.
#[local] Existing Instance Sample.runtime.

(** The sample checkout, made in the shop that already holds four orders. *)
Lemma created_order_is_found_by_its_transaction_id_witness :
  ∃ o, fst (ApiIndex.findOrderByTransactionId (JStr "TX_1700000300000")
              (snd (ApiIndex.post_phonepe_create_order Sample.environment
                      (checkout 1000) DownloadRuns.shop)))
       = Ret (Some o)
       ∧ o_id o = 100
       ∧ get "status" (payment o) = JStr "pending"
       ∧ get "paymentUrl" (payment o) = JStr "https://pay.example/abc".
Proof.
  destruct (created_order_is_found_by_its_transaction_id Sample.environment
              (checkout 1000) DownloadRuns.shop
              (obj [("success", JBool true); ("orderId", JNum 100);
                    ("paymentUrl", JStr "https://pay.example/abc")]))
    as (_ & o & Hfind & _ & Hid & _ & _ & _ & _ & _ & Hst & Hurl & _).
  - repeat constructor; vm_compute; discriminate.
  - repeat constructor; vm_compute; reflexivity.
  - vm_compute; reflexivity.
  - exists o. split; [exact Hfind|]. split; [exact Hid|]. split; [exact Hst|].
    rewrite Hurl. vm_compute; reflexivity.
Defined.

End CreateThenLookupExamples.

(** ** Order details in the later server revision *)

Section OrderDetails.
Context `{Runtime} (E : env).

Lemma shaped_items_spec l shaped :
  Unnamed001Orders.shaped_items l = Ret shaped →
  length shaped = length l ∧ Forall public_item shaped
  ∧ Forall2 (λ item it, get "id" it = get "id" item ∧ get "name" it = get "name" item
                        ∧ get "price" it = of_number (to_number (get "price" item))
                        ∧ get "quantity" it = of_number (to_number (get "quantity" item)))
            l shaped.
Proof.
  revert shaped. induction l as [|item l IH]; intros shaped.
  - intros [= <-]. repeat split; constructor.
  - cbn [Unnamed001Orders.shaped_items]. destruct (nullish item); [done|].
    unfold mbind, outcome_mbind.
    destruct (Unnamed001Orders.shaped_items l) as [rest|e]; [|done].
    intros [= <-]. destruct (IH rest eq_refl) as (Hlen & Hall & Hrel).
    split; [by cbn; rewrite Hlen|]. split; constructor; done.
Qed.

(** X21. The order-details route only reads.  When it answers 200, exactly
    one order carries the requested [merchant_order_id], and the answer holds
    that order's id, customer name, customer email, total and items and
    nothing else: no payment data and no phone number; each item holds its
    id, name, price and quantity and nothing else. *)
Theorem order_details_are_public_fields_only (orderId : string) (w : world) :
  let run := Unnamed001Orders.get_orders orderId w in
  only_reads w (snd run)
  ∧ ∀ answer, fst run = Ret (Json 200 answer) →
      ∃ o shaped,
        List.filter (λ o, is_str (merchant_order_id o) orderId) (orders w) = [o]
        ∧ dom (props answer)
          = ({["id"; "customer_name"; "customer_email"; "total_amount"; "items"]}
             : gset string)
        ∧ get "id" answer = JNum (inject_Z (o_id o))
        ∧ get "customer_name" answer = customer_name o
        ∧ get "customer_email" answer = customer_email o
        ∧ get "total_amount" answer = of_number (to_number (total_amount o))
        ∧ get "items" answer = JArr shaped
        ∧ Forall public_item shaped
        ∧ (∀ l, items o = JArr l → length shaped = length l).
Proof.
  intros run. unfold run, only_reads, Unnamed001Orders.get_orders,
    Unnamed001.findOrderByMerchantOrderId.
  destruct w as [os nid tok ex clk rnd tr]. mstep.
  destruct (negb (truthy (JStr orderId))); mstep.
  { split; [|done]. repeat split; try done. exists []. by rewrite app_nil_r. }
  assert (∀ t : list event, ∃ new, t ++ [EvOrderFindByMerchantOrderId orderId] = t ++ new
                                   ∧ Forall read_only new) as Hread.
  { intros t. eexists. split; [reflexivity|]. by repeat constructor. }
  destruct (List.filter _ os) as [|o [|]] eqn:Hfind; mstep;
    try (split; [by repeat split|done]).
  destruct (match items o with JArr l => _ | _ => _ end) as [shaped|e] eqn:Hitems; mstep;
    [|split; [by repeat split|done]].
  split; [by repeat split|].
  intros answer [= <-]. exists o, shaped. split; [done|]. split.
  { unfold obj, props. cbn [foldl fst snd]. rewrite !dom_insert_L, dom_empty_L. set_solver. }
  unfold obj, get. cbn [foldl fst snd]. simplify_map_eq.
  repeat split; try done.
  - destruct (items o); try (injection Hitems as <-; constructor).
    by apply shaped_items_spec in Hitems as (_ & ? & _).
  - intros l Hl. rewrite Hl in Hitems. by apply shaped_items_spec in Hitems as (? & _).
Qed.

Lemma item_ids_shaped l ids :
  Unnamed001Orders.item_ids l = Ret ids →
  ∃ shaped, Unnamed001Orders.shaped_items l = Ret shaped.
Proof.
  revert ids. induction l as [|item l IH]; intros ids; [by eexists|].
  cbn [Unnamed001Orders.item_ids Unnamed001Orders.shaped_items].
  destruct (nullish item); [done|]. unfold mbind, outcome_mbind.
  destruct (Unnamed001Orders.item_ids l) as [rest|e]; [|done].
  destruct (IH rest eq_refl) as [shaped ->]. by eexists.
Qed.

Lemma filter_app_none {A} (f : A → bool) l1 l2 :
  Forall (λ x, f x = false) l1 → List.filter f (l1 ++ l2) = List.filter f l2.
Proof.
  induction 1 as [|x l1 Hx _ IH]; [done|]. cbn [app List.filter]. by rewrite Hx.
Qed.

(** X22. In the later revision an order that was created with answer 200
    can be fetched by the [merchant_order_id] that was generated for it,
    provided the key the store hands out is new and no earlier order carries
    that id: the details answered are the id that creation answered, the
    name, email and total that were submitted, and one item per submitted
    item. *)
Theorem created_order_can_be_fetched
    (body : jsval) (w : world) (answer : jsval) (phone : string) :
  get "customerPhone" body = JStr phone →
  let moid := "ORDER_" +:+ "BUNDLE" +:+ "_" +:+ slice_last 4 phone +:+ "_"
              +:+ pretty (clock w) in
  Forall (λ o, o_id o ≠ next_id w) (orders w) →
  Forall (λ o, is_str (merchant_order_id o) moid = false) (orders w) →
  fst (Unnamed001Orders.post_phonepe_create_order E body w) = Ret (Json 200 answer) →
  let w' := snd (Unnamed001Orders.post_phonepe_create_order E body w) in
  ∃ details l shaped,
    fst (Unnamed001Orders.get_orders moid w') = Ret (Json 200 details)
    ∧ get "id" details = get "orderId" answer
    ∧ get "customer_name" details = get "customerName" body
    ∧ get "customer_email" details = get "customerEmail" body
    ∧ get "total_amount" details = of_number (to_number (get "totalAmount" body))
    ∧ get "orderItems" body = JArr l ∧ get "items" details = JArr shaped
    ∧ length shaped = length l.
Proof.
  intros Hphone moid Hfresh Hnew Hanswer. cbv zeta. revert Hfresh Hnew Hanswer.
  unfold moid, Unnamed001Orders.post_phonepe_create_order, Unnamed001Orders.get_orders,
    Unnamed001Orders.generateMerchantOrderId, Unnamed001.findOrderByMerchantOrderId,
    ApiIndex.createOrder, Unnamed001.updateOrderPaymentById.
  destruct w as [os nid tok0 ex clk rnd tr]. mstep. intros Hfresh Hnew.
  destruct (get_strict "customerName" body) as [customerName|e] eqn:Hgs; mstep; [|done].
  assert (customerName = get "customerName" body) as ->.
  { unfold get_strict in Hgs. destruct (nullish body); [done|]. by injection Hgs. }
  destruct (_ || _); mstep; [done|].
  rewrite Hphone. mstep.
  destruct (get "orderItems" body) as [| | | | | | |l|] eqn:Hitems; mstep; try done.
  destruct (Unnamed001Orders.item_ids l) as [ids|e] eqn:Hids; mstep; [|done].
  destruct (item_ids_shaped l ids Hids) as [shaped Hshaped].
  match goal with |- context [PhonePe.initiatePayment E ?pd ?w0] =>
    pose proof (initiatePayment_result E pd w0) as Hres;
    destruct (PhonePe.initiatePayment E pd w0) as [r0 w1]
  end.
  mstep. destruct Hres as (Ho & Hn & Hc & r & -> & _).
  destruct w1 as [os1 nid1 tok1 ex1 clk1 rnd1 tr1]. mstep. subst os1 nid1 clk1.
  cbn [o_id payment].
  destruct (negb (truthy (opt_get "success" r))); mstep; [done|].
  intros [= <-].
  match goal with |- context [truthy (JStr ?s)] =>
    assert (truthy (JStr s) = true) as -> by reflexivity
  end.
  mstep.
  rewrite update_where_id_fresh by done.
  rewrite filter_app_none by done.
  cbn [List.filter Store.with_payment merchant_order_id is_str].
  rewrite String.eqb_refl. mstep. unfold Store.with_payment.
  cbn [items o_id customer_name customer_email total_amount]. rewrite Hshaped. mstep.
  eexists _, l, shaped. split; [reflexivity|].
  unfold obj, get. cbn [foldl fst snd]. simplify_map_eq.
  repeat split; try done.
  by apply shaped_items_spec in Hshaped as (? & _).
Qed.

End OrderDetails.

Section OrderDetailsExamples.
Import CreateRuns.
#[local] Existing Instance Sample.runtime.

(** The sample checkout, made in the shop that already holds four orders. *)
Lemma created_order_can_be_fetched_witness :
  fst (Unnamed001Orders.post_phonepe_create_order Sample.environment (checkout 1000)
         DownloadRuns.shop)
  = Ret created
  ∧ ∃ details l shaped,
      fst (Unnamed001Orders.get_orders "ORDER_BUNDLE_3210_1700000300000"
             (snd (Unnamed001Orders.post_phonepe_create_order Sample.environment
                     (checkout 1000) DownloadRuns.shop)))
      = Ret (Json 200 details)
      ∧ get "id" details = JNum 100
      ∧ get "customer_name" details = JStr "Asha"
      ∧ get "total_amount" details = JNum 1000
      ∧ get "orderItems" (checkout 1000) = JArr l ∧ get "items" details = JArr shaped
      ∧ length shaped = length l.
Proof.
  split; [vm_compute; reflexivity|].
  destruct (created_order_can_be_fetched Sample.environment (checkout 1000) DownloadRuns.shop
              (obj [("success", JBool true); ("orderId", JNum 100);
                    ("paymentUrl", JStr "https://pay.example/abc")]) "9876543210")
    as (details & l & shaped & Hrun & Hid & Hname & _ & Htotal & Hl & Hitems & Hlen).
  - vm_compute; reflexivity.
  - repeat constructor; vm_compute; discriminate.
  - repeat constructor; vm_compute; reflexivity.
  - vm_compute; reflexivity.
  - exists details, l, shaped. split; [exact Hrun|].
    split; [rewrite Hid; vm_compute; reflexivity|].
    split; [rewrite Hname; vm_compute; reflexivity|].
    split; [rewrite Htotal; vm_compute; reflexivity|]. auto.
Defined.

End OrderDetailsExamples.

(** ** The name a streamed file is offered under *)

Section DownloadName.
Context `{Runtime} (E : env).

Lemma all_chars_app f a b : all_chars f (a +:+ b) = all_chars f a && all_chars f b.
Proof.
  induction a as [|c a IH]; [done|]. rewrite append_cons. cbn [all_chars].
  by rewrite IH, andb_assoc.
Qed.

Lemma all_chars_trim_start f s : all_chars f s = true → all_chars f (trim_start s) = true.
Proof.
  induction s as [|c s IH]; [done|]. cbn [trim_start].
  destruct (is_space c); [|done]. cbn [all_chars]. intros [_ ?]%andb_prop. auto.
Qed.

Lemma all_chars_rev_string_onto f s acc :
  all_chars f (rev_string_onto s acc) = all_chars f s && all_chars f acc.
Proof.
  revert acc. induction s as [|c s IH]; intros acc; [done|].
  cbn [rev_string_onto all_chars]. rewrite IH. cbn [all_chars].
  destruct (f c), (all_chars f s); done.
Qed.

Lemma all_chars_trim f s : all_chars f s = true → all_chars f (trim s) = true.
Proof.
  intros Hs. unfold trim, rev_string.
  rewrite all_chars_rev_string_onto, andb_true_r. apply all_chars_trim_start.
  rewrite all_chars_rev_string_onto, andb_true_r. by apply all_chars_trim_start.
Qed.

Lemma all_chars_sanitize s : all_chars plain_char (ApiIndex.sanitize s) = true.
Proof.
  induction s as [|c s IH]; [done|]. cbn [ApiIndex.sanitize all_chars]. rewrite IH, andb_true_r.
  unfold ApiIndex.safe_char.
  destruct (_ || _) eqn:Hc; [exact Hc|reflexivity].
Qed.

(** X23. Whatever name the catalogue gives a product, the name under
    which the streaming route offers the file ends in [.pdf] and holds only
    ASCII letters, digits, [_], [-], [.] and spaces: no quote, no line break
    and no path separator reaches the download header. *)
Theorem download_name_is_plain (productId : string) (transactionId : jsval) (w : world)
    (p name : string) :
  fst (ApiIndex.get_downloads E productId transactionId w) = Ret (File p name) →
  (∃ stem, name = stem +:+ ".pdf") ∧ all_chars plain_char name = true.
Proof.
  unfold ApiIndex.get_downloads, ApiIndex.findOrderByTransactionId, ApiIndex.findProduct.
  destruct w as [os nid tok ex clk rnd tr]. mstep.
  destruct (negb (truthy (JStr productId))); mstep; [done|].
  destruct (negb (truthy transactionId)); mstep; [done|].
  destruct (List.find _ os) as [o|]; mstep; [|done].
  destruct (_ || _); mstep; [done|].
  destruct (negb (ApiIndex.productIncluded productId o)); mstep; [done|].
  destruct (List.find _ (products E)) as [product|]; mstep; [|done].
  destruct (negb (truthy _)); mstep; [done|].
  destruct (js_or (get "file_name" product) _) as [| | | | |raw| | |]; mstep; try done.
  destruct (negb (ApiIndex.insideProductsFolder E _)); mstep; [done|].
  destruct (negb (fs_exists E _)); mstep; [done|].
  destruct (js_or (get "name" product) _) as [| | | | |s| | |]; mstep; try done.
  intros [= _ <-]. split; [by eexists|].
  rewrite all_chars_app. rewrite all_chars_trim by apply all_chars_sanitize. reflexivity.
Qed.

End DownloadName.

Section DownloadNameExamples.
Import DownloadRuns.
#[local] Existing Instance Sample.runtime.

Lemma download_name_is_plain_witness :
  fst (downloads "/srv/products" "P1" "TX_1700000000013")
  = Ret (File "/srv/products/guide.pdf" "Guide.pdf")
  ∧ (∃ stem, "Guide.pdf" = stem +:+ ".pdf") ∧ all_chars plain_char "Guide.pdf" = true.
Proof.
  split; [vm_compute; reflexivity|].
  apply (download_name_is_plain (Sample.environment_at "/srv/products")
           "P1" (JStr "TX_1700000000013") shop "/srv/products/guide.pdf" "Guide.pdf").
  vm_compute; reflexivity.
Defined.

End DownloadNameExamples.
